(** * The Gemini MCP stdio server: protocol router and tool dispatcher

    A shallow embedding of [src/enhanced-stdio-server.ts].  The class
    [EnhancedStdioMCPServer] reads one JSON-RPC message per input line,
    routes it on its method name, runs the tool handlers against the
    Gemini SDK and writes one encoded response line per request.

    Conventions of the embedding.
    - A JavaScript value is a term of [value]; what [JSON.parse] returns
      contains neither [VUndef] nor [VHost].
    - A JavaScript string is represented by the bytes of its UTF-8 form.
    - A number is an exact decimal [mantissa * 10^-scale]; the rounding
      of binary64 is not modelled.
    - An object is the list of its own properties in the order of their
      creation; the runtime's moving of integer-like keys to the front is
      not modelled.
    - An exception is a [Throw] completion; a computation of the server is
      a function from the store to a completion, a new store and the list
      of events it performed (writes to stdout, writes to stderr, calls of
      the SDK).
    - The SDK ([this.genAI.models]) is an oracle [genAI]: every statement
      holds for every oracle.  Requests are served one after the other.
    - The stack of [JSON.stringify] is unbounded in [sendResponse] and
      [handleRequest]; [sendResponse_bounded] and [handleRequest_bounded]
      are the same code with a serialiser that throws a [RangeError] on
      a value nested deeper than a limit of the runtime. *)

From Stdlib Require Import ZArith Ascii String List Bool Lia DecimalString.
From stdpp Require Import base tactics option list strings countable gmap.

(** ** Numbers *)

Record number := Num { mantissa : Z; scale : nat }.

Definition int (z : Z) : number := Num z 0.

Definition number_eqb (a b : number) : bool :=
  (mantissa a =? mantissa b)%Z && (scale a =? scale b)%nat.

Definition digits (n : N) : string := NilZero.string_of_uint (N.to_uint n).

Fixpoint zeros (k : nat) : string :=
  match k with
  | O => ""
  | S k' => String "0" (zeros k')
  end.

(** [Number::toString] on a decimal: the digits, with a point before the
    last [scale] of them. *)
Definition Number_toString (n : number) : string :=
  let ds := digits (Z.abs_N (mantissa n)) in
  let sign := if (mantissa n <? 0)%Z then "-" else "" in
  match scale n with
  | O => sign +:+ ds
  | S _ as k =>
      let padded := zeros (S k - String.length ds) +:+ ds in
      let cut := (String.length padded - k)%nat in
      sign +:+ substring 0 cut padded +:+ "." +:+ substring cut k padded
  end.

(** ** Values *)

Unset Elimination Schemes.
Inductive value : Type :=
| VUndef
| VNull
| VBool (b : bool)
| VNum (n : number)
| VStr (s : string)
| VArr (items : list value)
| VObj (props : list (string * value))
| VHost (name : string).
Set Elimination Schemes.

(** [VHost] stands for an object of the runtime that is not data: a member
    of a prototype reached through the prototype chain.  All of them are
    functions but [__proto__], which is [Object.prototype] itself. *)

Section value_induction.
Variable P : value -> Prop.
Hypothesis Hundef : P VUndef.
Hypothesis Hnull : P VNull.
Hypothesis Hbool : forall b, P (VBool b).
Hypothesis Hnum : forall n, P (VNum n).
Hypothesis Hstr : forall s, P (VStr s).
Hypothesis Harr : forall items, Forall P items -> P (VArr items).
Hypothesis Hobj : forall props, Forall (fun kv => P (snd kv)) props -> P (VObj props).
Hypothesis Hhost : forall name, P (VHost name).

End value_induction.

Definition vstr (s : string) : value := VStr s.
Definition vint (z : Z) : value := VNum (int z).

(** [ToBoolean]. *)
Definition truthy (v : value) : bool :=
  match v with
  | VUndef | VNull => false
  | VBool b => b
  | VNum n => negb (mantissa n =? 0)%Z
  | VStr s => negb (String.eqb s "")
  | VArr _ | VObj _ | VHost _ => true
  end.

(** [a || b] and [a ?? b] on values. *)
Definition or_else (a b : value) : value := if truthy a then a else b.

Definition nullish_else (a b : value) : value :=
  match a with
  | VUndef | VNull => b
  | _ => a
  end.

(** [v === 'literal']. *)
Definition is_str (v : value) (literal : string) : bool :=
  match v with
  | VStr s => String.eqb s literal
  | _ => false
  end.

(** [SameValueZero], as [Array.prototype.includes] and [Map] use it.  Two
    objects are the same only when they are one reference; every object
    the server compares was created by a different evaluation. *)
Definition same_value_zero (a b : value) : bool :=
  match a, b with
  | VUndef, VUndef | VNull, VNull => true
  | VBool x, VBool y => Bool.eqb x y
  | VNum x, VNum y => number_eqb x y
  | VStr x, VStr y => String.eqb x y
  | _, _ => false
  end.

(** Own properties of an object, as [JSON.parse] and object literals
    create them. *)
Fixpoint own (props : list (string * value)) (k : string) : option value :=
  match props with
  | [] => None
  | (k', v) :: rest => if String.eqb k' k then Some v else own rest k
  end.

(** ** Completions *)

(** What a [throw] carries: an instance of [Error] (the only thing the
    server inspects is [error instanceof Error] and [error.message]) or
    any other value. *)
Inductive thrown : Type :=
| ErrorObject (message : string)
| ThrownValue (v : value).

Inductive completion (A : Type) : Type :=
| Normal (a : A)
| Throw (e : thrown).
Arguments Normal {A} a.
Arguments Throw {A} e.

Definition TypeError {A} (message : string) : completion A :=
  Throw (ErrorObject message).

Definition cbind {A B} (c : completion A) (f : A -> completion B) : completion B :=
  match c with
  | Normal a => f a
  | Throw e => Throw e
  end.

(** [error instanceof Error ? error.message : fallback]. *)
Definition message_or (fallback : string) (error : thrown) : string :=
  match error with
  | ErrorObject message => message
  | ThrownValue _ => fallback
  end.

(** ** Property access *)

Definition Object_prototype : list string :=
  [ "constructor"; "__defineGetter__"; "__defineSetter__"; "hasOwnProperty";
    "__lookupGetter__"; "__lookupSetter__"; "isPrototypeOf";
    "propertyIsEnumerable"; "toString"; "valueOf"; "__proto__";
    "toLocaleString" ].

Definition Array_prototype : list string :=
  [ "at"; "concat"; "copyWithin"; "fill"; "find"; "findIndex"; "findLast";
    "findLastIndex"; "lastIndexOf"; "pop"; "push"; "reverse"; "shift";
    "unshift"; "slice"; "sort"; "splice"; "includes"; "indexOf"; "join";
    "keys"; "entries"; "values"; "forEach"; "filter"; "flat"; "flatMap";
    "map"; "every"; "some"; "reduce"; "reduceRight"; "toReversed";
    "toSorted"; "toSpliced"; "with" ].

Definition String_prototype : list string :=
  [ "anchor"; "at"; "big"; "blink"; "bold"; "charAt"; "charCodeAt";
    "codePointAt"; "concat"; "endsWith"; "fontcolor"; "fontsize"; "fixed";
    "includes"; "indexOf"; "isWellFormed"; "italics"; "lastIndexOf"; "link";
    "localeCompare"; "match"; "matchAll"; "normalize"; "padEnd"; "padStart";
    "repeat"; "replace"; "replaceAll"; "search"; "slice"; "small"; "split";
    "strike"; "sub"; "substr"; "substring"; "sup"; "startsWith";
    "toLocaleLowerCase"; "toLocaleUpperCase"; "toLowerCase"; "toUpperCase";
    "toWellFormed"; "trim"; "trimStart"; "trimLeft"; "trimEnd"; "trimRight" ].

Definition Number_prototype : list string :=
  [ "toExponential"; "toFixed"; "toPrecision" ].

Definition Function_prototype : list string :=
  [ "apply"; "bind"; "call"; "length"; "name"; "arguments"; "caller" ].

Definition mem (k : string) (names : list string) : bool :=
  existsb (String.eqb k) names.

(** The canonical numeric strings below [n], the index keys of an array or
    of a string of that length. *)
Definition index_of_key (k : string) (n : nat) : option nat :=
  find (fun i => String.eqb (digits (N.of_nat i)) k) (seq 0 n).

Definition inherited (k : string) (protos : list string) : value :=
  if mem k protos then VHost k else VUndef.

(** [v.k] and [v[k]] for a string key [k]. *)
Definition Get (v : value) (k : string) : completion value :=
  match v with
  | VUndef =>
      TypeError ("Cannot read properties of undefined (reading '" +:+ k +:+ "')")
  | VNull =>
      TypeError ("Cannot read properties of null (reading '" +:+ k +:+ "')")
  | VObj props =>
      Normal (match own props k with
              | Some x => x
              | None => inherited k Object_prototype
              end)
  | VArr items =>
      Normal (if String.eqb k "length" then vint (Z.of_nat (length items))
              else match index_of_key k (length items) with
                   | Some i => nth i items VUndef
                   | None => inherited k (Array_prototype ++ Object_prototype)
                   end)
  | VStr s =>
      Normal (if String.eqb k "length" then vint (Z.of_nat (String.length s))
              else match index_of_key k (String.length s) with
                   | Some i => VStr (substring i 1 s)
                   | None => inherited k (String_prototype ++ Object_prototype)
                   end)
  | VNum _ => Normal (inherited k (Number_prototype ++ Object_prototype))
  | VBool _ => Normal (inherited k Object_prototype)
  | VHost name =>
      Normal (if String.eqb name "__proto__" then inherited k Object_prototype
              else inherited k (Function_prototype ++ Object_prototype))
  end.

(** [v?.k]. *)
Definition GetOpt (v : value) (k : string) : value :=
  match v with
  | VUndef | VNull => VUndef
  | _ => match Get v k with Normal x => x | Throw _ => VUndef end
  end.

(** [k in v]. *)
Definition HasProperty (k : string) (v : value) : completion bool :=
  match v with
  | VObj props => Normal (bool_decide (is_Some (own props k)) || mem k Object_prototype)
  | VArr items =>
      Normal (String.eqb k "length"
              || bool_decide (is_Some (index_of_key k (length items)))
              || mem k (Array_prototype ++ Object_prototype))
  | VHost name =>
      Normal (if String.eqb name "__proto__" then mem k Object_prototype
              else mem k (Function_prototype ++ Object_prototype))
  | VUndef => TypeError ("Cannot use 'in' operator to search for '" +:+ k +:+ "' in undefined")
  | VNull => TypeError ("Cannot use 'in' operator to search for '" +:+ k +:+ "' in null")
  | VBool b =>
      TypeError ("Cannot use 'in' operator to search for '" +:+ k +:+ "' in "
                   +:+ (if b then "true" else "false"))
  | VNum n =>
      TypeError ("Cannot use 'in' operator to search for '" +:+ k +:+ "' in "
                   +:+ Number_toString n)
  | VStr s => TypeError ("Cannot use 'in' operator to search for '" +:+ k +:+ "' in " +:+ s)
  end.

(** ** String conversion *)

Fixpoint join (sep : string) (parts : list string) : string :=
  match parts with
  | [] => ""
  | [p] => p
  | p :: rest => p +:+ sep +:+ join sep rest
  end.

Fixpoint sequence {A} (cs : list (completion A)) : completion (list A) :=
  match cs with
  | [] => Normal []
  | c :: rest =>
      cbind c (fun a => cbind (sequence rest) (fun l => Normal (a :: l)))
  end.

(** [ToString], which a template literal and a computed property key
    apply.  An object is converted by its [toString] method: the one of
    [Object.prototype] unless the object has an own property of that name,
    which for data is never callable, and then [valueOf] gives the object
    back and the conversion throws. *)
Fixpoint ToString (v : value) : completion string :=
  match v with
  | VUndef => Normal "undefined"
  | VNull => Normal "null"
  | VBool b => Normal (if b then "true" else "false")
  | VNum n => Normal (Number_toString n)
  | VStr s => Normal s
  | VArr items =>
      cbind (sequence (map (fun x => match x with
                                     | VUndef | VNull => Normal ""
                                     | _ => ToString x
                                     end) items))
            (fun parts => Normal (join "," parts))
  | VObj props =>
      match own props "toString" with
      | Some _ => TypeError "Cannot convert object to primitive value"
      | None => Normal "[object Object]"
      end
  | VHost name =>
      Normal (if String.eqb name "__proto__" then "[object Object]"
              else if String.eqb name "constructor" then "function Object() { [native code] }"
              else "function " +:+ name +:+ "() { [native code] }")
  end.

(** Substring test. *)
Fixpoint starts_with (p s : string) : bool :=
  match p, s with
  | EmptyString, _ => true
  | String a p', String b s' => Ascii.eqb a b && starts_with p' s'
  | String _ _, EmptyString => false
  end.

Fixpoint str_includes (s p : string) : bool :=
  starts_with p s ||
  match s with
  | EmptyString => false
  | String _ s' => str_includes s' p
  end.

(** [recv.includes(x)]. *)
Definition call_includes (recv x : value) : completion bool :=
  match recv with
  | VUndef => TypeError "Cannot read properties of undefined (reading 'includes')"
  | VNull => TypeError "Cannot read properties of null (reading 'includes')"
  | VArr items => Normal (existsb (same_value_zero x) items)
  | VStr s => cbind (ToString x) (fun p => Normal (str_includes s p))
  | _ => TypeError "includes is not a function"
  end.

Definition upper (c : ascii) : ascii :=
  let n := N_of_ascii c in
  if ((97 <=? n) && (n <=? 122))%N then ascii_of_N (n - 32) else c.

Fixpoint map_string (f : ascii -> ascii) (s : string) : string :=
  match s with
  | EmptyString => EmptyString
  | String c s' => String (f c) (map_string f s')
  end.

(** [recv.toUpperCase()], on the ASCII letters. *)
Definition call_toUpperCase (recv : value) : completion value :=
  match recv with
  | VUndef => TypeError "Cannot read properties of undefined (reading 'toUpperCase')"
  | VNull => TypeError "Cannot read properties of null (reading 'toUpperCase')"
  | VStr s => Normal (VStr (map_string upper s))
  | _ => TypeError "toUpperCase is not a function"
  end.

(** ** [JSON.stringify] *)

Definition hex_digit (n : N) : ascii :=
  ascii_of_N (if (n <? 10)%N then 48 + n else 87 + n).

(** One code unit inside a quoted JSON string ([QuoteJSONString]). *)
Definition escape_char (c : ascii) : string :=
  let n := N_of_ascii c in
  if (n =? 34)%N then String "\" (String c "")
  else if (n =? 92)%N then "\\"
  else if (n =? 8)%N then "\b"
  else if (n =? 12)%N then "\f"
  else if (n =? 10)%N then "\n"
  else if (n =? 13)%N then "\r"
  else if (n =? 9)%N then "\t"
  else if (n <? 32)%N then
    "\u00" +:+ String (hex_digit (n / 16)) (String (hex_digit (n mod 16)) "")
  else String c "".

Fixpoint escape_string (s : string) : string :=
  match s with
  | EmptyString => EmptyString
  | String c s' => escape_char c +:+ escape_string s'
  end.

Definition dquote : string := String "034" "".

Definition QuoteJSONString (s : string) : string :=
  dquote +:+ escape_string s +:+ dquote.

(** The text of an array or an object from the texts of its parts, for the
    indentation unit [gap] at the indentation [indent]. *)
Definition wrap (gap indent opening closing : string) (parts : list string) : string :=
  match parts with
  | [] => opening +:+ closing
  | _ =>
      if String.eqb gap "" then opening +:+ join "," parts +:+ closing
      else
        let stepin := indent +:+ gap in
        let newline := String "010" "" in
        opening +:+ newline +:+ stepin
          +:+ join ("," +:+ newline +:+ stepin) parts
          +:+ newline +:+ indent +:+ closing
  end.

Definition colon (gap : string) : string :=
  if String.eqb gap "" then ":" else ": ".

(** [SerializeJSONProperty]: [None] is [undefined].  A property whose value
    is [undefined] is left out of an object and is [null] in an array. *)
Fixpoint SerializeJSONProperty (gap indent : string) (v : value) : option string :=
  match v with
  | VUndef | VHost _ => None
  | VNull => Some "null"
  | VBool b => Some (if b then "true" else "false")
  | VNum n => Some (Number_toString n)
  | VStr s => Some (QuoteJSONString s)
  | VArr items =>
      Some (wrap gap indent "[" "]"
              (map (fun x => default "null" (SerializeJSONProperty gap (indent +:+ gap) x))
                   items))
  | VObj props =>
      Some (wrap gap indent "{" "}"
              (omap (fun kv =>
                       let '(k, x) := kv in
                       match SerializeJSONProperty gap (indent +:+ gap) x with
                       | Some text => Some (QuoteJSONString k +:+ colon gap +:+ text)
                       | None => None
                       end) props))
  end.

(** [JSON.stringify(v)]. *)
Definition JSON_stringify (v : value) : option string :=
  SerializeJSONProperty "" "" v.

(** [JSON.stringify(v, null, 2)]. *)
Definition JSON_stringify_pretty (v : value) : option string :=
  SerializeJSONProperty "  " "" v.

(** A string built by [+] from [JSON.stringify]: [undefined] is rendered
    by its name. *)
Definition text_of (o : option string) : string := default "undefined" o.

(** ** [JSON.parse] *)

Definition is_json_ws (c : ascii) : bool :=
  let n := N_of_ascii c in
  ((n =? 32) || (n =? 9) || (n =? 10) || (n =? 13))%N.

Fixpoint skip_ws (s : list ascii) : list ascii :=
  match s with
  | c :: s' => if is_json_ws c then skip_ws s' else s
  | [] => []
  end.

Definition digit_of (c : ascii) : option Z :=
  let n := N_of_ascii c in
  if ((48 <=? n) && (n <=? 57))%N then Some (Z.of_N (n - 48)) else None.

Definition hex_of (c : ascii) : option N :=
  let n := N_of_ascii c in
  if ((48 <=? n) && (n <=? 57))%N then Some (n - 48)%N
  else if ((97 <=? n) && (n <=? 102))%N then Some (n - 87)%N
  else if ((65 <=? n) && (n <=? 70))%N then Some (n - 55)%N
  else None.

(** The UTF-8 form of a code point. *)
Definition utf8 (u : N) : list ascii :=
  if (u <? 128)%N then [ascii_of_N u]
  else if (u <? 2048)%N then
    [ascii_of_N (192 + u / 64); ascii_of_N (128 + u mod 64)]
  else if (u <? 65536)%N then
    [ascii_of_N (224 + u / 4096); ascii_of_N (128 + (u / 64) mod 64);
     ascii_of_N (128 + u mod 64)]
  else
    [ascii_of_N (240 + u / 262144); ascii_of_N (128 + (u / 4096) mod 64);
     ascii_of_N (128 + (u / 64) mod 64); ascii_of_N (128 + u mod 64)].

Definition is_high (u : N) : bool := ((55296 <=? u) && (u <=? 56319))%N.
Definition is_low (u : N) : bool := ((56320 <=? u) && (u <=? 57343))%N.

Definition flush (pending : option N) : list ascii :=
  match pending with
  | Some hi => utf8 hi
  | None => []
  end.

(** The characters of a string literal are bytes of the input or the code
    units of [\u] escapes; a high surrogate followed by a low one is one
    code point. *)
Fixpoint string_bytes (pending : option N) (l : list (ascii + N)) : list ascii :=
  match l with
  | [] => flush pending
  | inl b :: r => flush pending ++ b :: string_bytes None r
  | inr u :: r =>
      match pending with
      | Some hi =>
          if is_low u
          then utf8 (65536 + (hi - 55296) * 1024 + (u - 56320)) ++ string_bytes None r
          else utf8 hi ++
               (if is_high u then string_bytes (Some u) r
                else utf8 u ++ string_bytes None r)
      | None =>
          if is_high u then string_bytes (Some u) r
          else utf8 u ++ string_bytes None r
      end
  end.

(** After the opening quote: the characters up to the closing quote, last
    first in [acc]. *)
Fixpoint parse_string (s : list ascii) (acc : list (ascii + N))
  : option (string * list ascii) :=
  match s with
  | [] => None
  | c :: s' =>
      let n := N_of_ascii c in
      if (n =? 34)%N then
        Some (string_of_list_ascii (string_bytes None (rev acc)), s')
      else if (n =? 92)%N then
        match s' with
        | e :: s'' =>
            let m := N_of_ascii e in
            if (m =? 34)%N || (m =? 92)%N || (m =? 47)%N
            then parse_string s'' (inl e :: acc)
            else if (m =? 98)%N then parse_string s'' (inl (ascii_of_N 8) :: acc)
            else if (m =? 102)%N then parse_string s'' (inl (ascii_of_N 12) :: acc)
            else if (m =? 110)%N then parse_string s'' (inl (ascii_of_N 10) :: acc)
            else if (m =? 114)%N then parse_string s'' (inl (ascii_of_N 13) :: acc)
            else if (m =? 116)%N then parse_string s'' (inl (ascii_of_N 9) :: acc)
            else if (m =? 117)%N then
              match s'' with
              | h1 :: h2 :: h3 :: h4 :: s''' =>
                  match hex_of h1, hex_of h2, hex_of h3, hex_of h4 with
                  | Some a, Some b, Some c', Some d =>
                      parse_string s''' (inr (a * 4096 + b * 256 + c' * 16 + d)%N :: acc)
                  | _, _, _, _ => None
                  end
              | _ => None
              end
            else None
        | [] => None
        end
      else if (n <? 32)%N then None
      else parse_string s' (inl c :: acc)
  end.

Fixpoint take_digits (s : list ascii) : list Z * list ascii :=
  match s with
  | c :: s' =>
      match digit_of c with
      | Some d => let '(ds, r) := take_digits s' in (d :: ds, r)
      | None => ([], s)
      end
  | [] => ([], [])
  end.

Definition digits_value (ds : list Z) : Z :=
  fold_left (fun acc d => acc * 10 + d)%Z ds 0%Z.

(** A decimal without trailing zeros behind the point. *)
Fixpoint normalize (m : Z) (k : nat) : number :=
  match k with
  | O => Num m 0
  | S k' => if (m mod 10 =? 0)%Z then normalize (m / 10) k' else Num m k
  end.

Definition decimal (negative : bool) (ip fp : list Z) (e : Z) : number :=
  let m := digits_value (ip ++ fp) in
  let m := if negative then (- m)%Z else m in
  let places := (Z.of_nat (length fp) - e)%Z in
  if (places <? 0)%Z then Num (m * 10 ^ (- places)) 0
  else normalize m (Z.to_nat places).

Definition parse_exponent (s : list ascii) : option (Z * list ascii) :=
  match s with
  | c :: s' =>
      if (N_of_ascii c =? 101)%N || (N_of_ascii c =? 69)%N then
        let '(negative, s'') :=
          match s' with
          | g :: t =>
              if (N_of_ascii g =? 45)%N then (true, t)
              else if (N_of_ascii g =? 43)%N then (false, t)
              else (false, s')
          | [] => (false, s')
          end in
        match take_digits s'' with
        | ([], _) => None
        | (ds, r) =>
            Some (if negative then (- digits_value ds)%Z else digits_value ds, r)
        end
      else Some (0%Z, s)
  | [] => Some (0%Z, [])
  end.

Definition parse_fraction (s : list ascii) : option (list Z * list ascii) :=
  match s with
  | c :: s' =>
      if (N_of_ascii c =? 46)%N then
        match take_digits s' with
        | ([], _) => None
        | (ds, r) => Some (ds, r)
        end
      else Some ([], s)
  | [] => Some ([], [])
  end.

Definition parse_number (s : list ascii) : option (number * list ascii) :=
  let '(negative, s1) :=
    match s with
    | c :: s' => if (N_of_ascii c =? 45)%N then (true, s') else (false, s)
    | [] => (false, s)
    end in
  match take_digits s1 with
  | ([], _) => None
  | (ip, s2) =>
      match ip with
      | 0%Z :: _ :: _ => None
      | _ =>
          match parse_fraction s2 with
          | Some (fp, s3) =>
              match parse_exponent s3 with
              | Some (e, s4) => Some (decimal negative ip fp e, s4)
              | None => None
              end
          | None => None
          end
      end
  end.

Definition expect (word : string) (s : list ascii) : option (list ascii) :=
  let w := list_ascii_of_string word in
  if bool_decide (take (length w) s = w) then Some (drop (length w) s) else None.

(** A later member of the same name replaces the value of the earlier one. *)
Fixpoint put (props : list (string * value)) (k : string) (v : value)
  : list (string * value) :=
  match props with
  | [] => [(k, v)]
  | (k', v') :: rest =>
      if String.eqb k' k then (k', v) :: rest else (k', v') :: put rest k v
  end.

Fixpoint parse_value (fuel : nat) (s : list ascii) : option (value * list ascii) :=
  match fuel with
  | O => None
  | S fuel' =>
      match skip_ws s with
      | [] => None
      | c :: r =>
          let n := N_of_ascii c in
          if (n =? 123)%N then
            match skip_ws r with
            | d :: r' =>
                if (N_of_ascii d =? 125)%N then Some (VObj [], r')
                else parse_members fuel' (skip_ws r) []
            | [] => None
            end
          else if (n =? 91)%N then
            match skip_ws r with
            | d :: r' =>
                if (N_of_ascii d =? 93)%N then Some (VArr [], r')
                else parse_elements fuel' (skip_ws r) []
            | [] => None
            end
          else if (n =? 34)%N then
            match parse_string r [] with
            | Some (text, r') => Some (VStr text, r')
            | None => None
            end
          else if (n =? 116)%N then
            match expect "rue" r with Some r' => Some (VBool true, r') | None => None end
          else if (n =? 102)%N then
            match expect "alse" r with Some r' => Some (VBool false, r') | None => None end
          else if (n =? 110)%N then
            match expect "ull" r with Some r' => Some (VNull, r') | None => None end
          else
            match parse_number (c :: r) with
            | Some (x, r') => Some (VNum x, r')
            | None => None
            end
      end
  end
with parse_elements (fuel : nat) (s : list ascii) (acc : list value)
  : option (value * list ascii) :=
  match fuel with
  | O => None
  | S fuel' =>
      match parse_value fuel' s with
      | Some (x, r) =>
          match skip_ws r with
          | d :: r' =>
              if (N_of_ascii d =? 44)%N then parse_elements fuel' r' (x :: acc)
              else if (N_of_ascii d =? 93)%N then Some (VArr (rev (x :: acc)), r')
              else None
          | [] => None
          end
      | None => None
      end
  end
with parse_members (fuel : nat) (s : list ascii) (acc : list (string * value))
  : option (value * list ascii) :=
  match fuel with
  | O => None
  | S fuel' =>
      match skip_ws s with
      | q :: r =>
          if (N_of_ascii q =? 34)%N then
            match parse_string r [] with
            | Some (k, r1) =>
                match skip_ws r1 with
                | c :: r2 =>
                    if (N_of_ascii c =? 58)%N then
                      match parse_value fuel' r2 with
                      | Some (x, r3) =>
                          match skip_ws r3 with
                          | d :: r4 =>
                              if (N_of_ascii d =? 44)%N
                              then parse_members fuel' r4 (put acc k x)
                              else if (N_of_ascii d =? 125)%N
                              then Some (VObj (put acc k x), r4)
                              else None
                          | [] => None
                          end
                      | None => None
                      end
                    else None
                | [] => None
                end
            | None => None
            end
          else None
      | [] => None
      end
  end.

Definition SyntaxError {A} : completion A :=
  Throw (ErrorObject "Unexpected token in JSON").

(** [JSON.parse(text)]: one value between optional white space, or a
    [SyntaxError]. *)
Definition JSON_parse (text : string) : completion value :=
  let s := list_ascii_of_string text in
  match parse_value (2 * length s + 2) s with
  | Some (v, r) =>
      match skip_ws r with
      | [] => Normal v
      | _ :: _ => SyntaxError
      end
  | None => SyntaxError
  end.

(** ** [String.prototype.trim] *)

(** White space and line terminators, as bytes: the ASCII ones and the
    UTF-8 forms of U+00A0, U+1680, U+2000 to U+200A, U+2028, U+2029,
    U+202F, U+205F, U+3000 and U+FEFF. *)
Definition white_space : list (list N) :=
  [ [9]; [10]; [11]; [12]; [13]; [32]; [194; 160]; [225; 154; 128];
    [226; 128; 128]; [226; 128; 129]; [226; 128; 130]; [226; 128; 131];
    [226; 128; 132]; [226; 128; 133]; [226; 128; 134]; [226; 128; 135];
    [226; 128; 136]; [226; 128; 137]; [226; 128; 138]; [226; 128; 168];
    [226; 128; 169]; [226; 128; 175]; [226; 129; 159]; [227; 128; 128];
    [239; 187; 191] ]%N.

Fixpoint strip_one (table : list (list N)) (s : list N) : option (list N) :=
  match table with
  | [] => None
  | w :: rest =>
      if bool_decide (take (length w) s = w) then Some (drop (length w) s)
      else strip_one rest s
  end.

Fixpoint strip (table : list (list N)) (fuel : nat) (s : list N) : list N :=
  match fuel with
  | O => s
  | S fuel' =>
      match strip_one table s with
      | Some r => strip table fuel' r
      | None => s
      end
  end.

Definition trim (text : string) : string :=
  let s := map N_of_ascii (list_ascii_of_string text) in
  let s := strip white_space (length s) s in
  let s := rev (strip (map (@rev N) white_space) (length s) (rev s)) in
  string_of_list_ascii (map ascii_of_N s).

(** ** [/^data:(.+);base64,(.+)$/] *)

Definition line_terminator_free (s : string) : bool :=
  forallb (fun c => negb ((N_of_ascii c =? 10) || (N_of_ascii c =? 13))%N)
          (list_ascii_of_string s)
  && negb (str_includes s (String "226" (String "128" (String "168" ""))))
  && negb (str_includes s (String "226" (String "128" (String "169" "")))).

Fixpoint strip_prefix (p s : string) : option string :=
  match p, s with
  | EmptyString, _ => Some s
  | String a p', String b s' => if Ascii.eqb a b then strip_prefix p' s' else None
  | String _ _, EmptyString => None
  end.

(** The split of [s] around the last [sep] that leaves something on both
    sides: what the greedy first group of the pattern selects. *)
Fixpoint last_split (sep s : string) : option (string * string) :=
  match s with
  | EmptyString => None
  | String c s' =>
      match last_split sep s' with
      | Some (a, b) => Some (String c a, b)
      | None =>
          match strip_prefix sep s' with
          | Some (String d b) => Some (String c "", String d b)
          | _ => None
          end
      end
  end.

Definition match_data_uri (s : string) : option (string * string) :=
  if line_terminator_free s then
    match strip_prefix "data:" s with
    | Some r => last_split ";base64," r
    | None => None
    end
  else None.

(** ** The conversation map *)

(** The keys of a [Map] that can be found again: primitive values.  An
    object used as a key is found only through the same reference, which
    no later request holds. *)
Inductive map_key : Type :=
| KUndef
| KNull
| KBool (b : bool)
| KNum (m : Z) (k : nat)
| KStr (s : string).

#[global] Instance map_key_eq_dec : EqDecision map_key.
Proof. solve_decision. Defined.

Definition map_key_code (k : map_key) : option (option bool) + (Z * nat) + string :=
  match k with
  | KUndef => inl (inl None)
  | KNull => inl (inl (Some None))
  | KBool b => inl (inl (Some (Some b)))
  | KNum m s => inl (inr (m, s))
  | KStr s => inr s
  end.

Definition map_key_decode (c : option (option bool) + (Z * nat) + string) : map_key :=
  match c with
  | inl (inl None) => KUndef
  | inl (inl (Some None)) => KNull
  | inl (inl (Some (Some b))) => KBool b
  | inl (inr (m, s)) => KNum m s
  | inr s => KStr s
  end.

#[global] Instance map_key_countable : Countable map_key.
Proof.
  apply (inj_countable' map_key_code map_key_decode).
  intros []; reflexivity.
Defined.

Definition key_of (v : value) : option map_key :=
  match v with
  | VUndef => Some KUndef
  | VNull => Some KNull
  | VBool b => Some (KBool b)
  | VNum n => Some (KNum (mantissa n) (scale n))
  | VStr s => Some (KStr s)
  | VArr _ | VObj _ | VHost _ => None
  end.

(** ** Store, events and the monad of the server *)

Inductive provider_op : Type := models_generateContent | models_countTokens | models_embedContent.

Inductive event : Type :=
| Stdout (chunk : string)
| Stderr (message : string)
| Called (op : provider_op) (params : value) (outcome : completion value)
| Unhandled (e : thrown).

(** [Unhandled] is the rejection of a promise that nothing awaits: the
    runtime (Node.js 16 and later) reports it and terminates the process.

    [conversations] is the private field of the class; [calls] counts the
    calls of the SDK made so far, so that the oracle may answer the same
    call differently at different times. *)
Record Store : Type := {
  conversations : gmap map_key (list value);
  calls : nat
}.

Definition new_store : Store := {| conversations := ∅; calls := 0 |}.

Definition M (A : Type) : Type := Store -> completion A * Store * list event.

Definition ret {A} (a : A) : M A := fun st => (Normal a, st, []).

Definition throw {A} (e : thrown) : M A := fun st => (Throw e, st, []).

Definition lift {A} (c : completion A) : M A := fun st => (c, st, []).

Definition bind {A B} (m : M A) (f : A -> M B) : M B :=
  fun st =>
    match m st with
    | (Normal a, st', evs) =>
        let '(c, st'', evs') := f a st' in (c, st'', evs ++ evs')
    | (Throw e, st', evs) => (Throw e, st', evs)
    end.

(** [try { body } catch (error) { handler }]: what [body] did before it
    threw stays done. *)
Definition try_catch {A} (body : M A) (handler : thrown -> M A) : M A :=
  fun st =>
    match body st with
    | (Normal a, st', evs) => (Normal a, st', evs)
    | (Throw e, st', evs) =>
        let '(c, st'', evs') := handler e st' in (c, st'', evs ++ evs')
    end.

Notation "x <- m ;; k" := (bind m (fun x => k))
  (at level 100, m at next level, right associativity).
Notation "m ;; k" := (bind m (fun _ => k))
  (at level 100, right associativity).
Notation "x <~ c ;; k" := (cbind c (fun x => k))
  (at level 100, c at next level, right associativity).

(** [console.error(message, ...)]: a line on stderr.  The rendering of the
    further arguments is the runtime's and is left out. *)
Definition console_error (message : string) : M unit :=
  fun st => (Normal tt, st, [Stderr message]).

(** [process.stdout.write(chunk)]. *)
Definition stdout_write (chunk : string) : M unit :=
  fun st => (Normal tt, st, [Stdout chunk]).

(** [this.conversations.get(key)]. *)
Definition conversations_get (key : value) : M (option (list value)) :=
  fun st =>
    (Normal (match key_of key with
             | Some k => conversations st !! k
             | None => None
             end), st, []).

(** [this.conversations.set(key, turns)]. *)
Definition conversations_set (key : value) (turns : list value) : M unit :=
  fun st =>
    (Normal tt,
     {| conversations :=
          match key_of key with
          | Some k => <[k := turns]> (conversations st)
          | None => conversations st
          end;
        calls := calls st |},
     []).

Definition stdout_of (evs : list event) : list string :=
  omap (fun ev => match ev with Stdout chunk => Some chunk | _ => None end) evs.

Definition calls_of (evs : list event) : list (provider_op * value * completion value) :=
  omap (fun ev => match ev with
                  | Called op params outcome => Some (op, params, outcome)
                  | _ => None
                  end) evs.

(** ** The model registry *)

Definition strs (l : list string) : value := VArr (map VStr l).

Definition full_features : value :=
  strs ["thinking"; "function_calling"; "json_mode"; "grounding"; "system_instructions"].

Definition GEMINI_MODELS : value :=
  VObj
    [ ("gemini-3-pro-preview",
       VObj [ ("description",
               VStr "Most capable reasoning model, state-of-the-art multimodal and agentic");
              ("features", full_features);
              ("contextWindow", vint 1048576);
              ("maxOutputTokens", vint 65536);
              ("thinking", VBool true);
              ("thinkingLevels", strs ["low"; "high"]) ]);
      ("gemini-3-flash-preview",
       VObj [ ("description",
               VStr "Best balance of speed, scale, and frontier intelligence");
              ("features", full_features);
              ("contextWindow", vint 1048576);
              ("maxOutputTokens", vint 65536);
              ("thinking", VBool true);
              ("thinkingLevels", strs ["minimal"; "low"; "medium"; "high"]) ]);
      ("gemini-2.5-pro",
       VObj [ ("description",
               VStr "Previous generation thinking model, complex reasoning and coding");
              ("features", full_features);
              ("contextWindow", vint 2000000);
              ("thinking", VBool true) ]);
      ("gemini-2.5-flash",
       VObj [ ("description", VStr "Previous generation fast thinking model");
              ("features", full_features);
              ("contextWindow", vint 1000000);
              ("thinking", VBool true) ]);
      ("gemini-2.5-flash-lite",
       VObj [ ("description",
               VStr "Previous generation ultra-fast, cost-efficient thinking model");
              ("features",
               strs ["thinking"; "function_calling"; "json_mode"; "system_instructions"]);
              ("contextWindow", vint 1000000);
              ("thinking", VBool true) ]) ].

(** [Object.entries(o)] and [Object.keys(o)]. *)
Definition Object_entries (o : value) : list (string * value) :=
  match o with
  | VObj props => props
  | VArr items => imap (fun i x => (digits (N.of_nat i), x)) items
  | _ => []
  end.

Definition Object_keys (o : value) : list string := map fst (Object_entries o).

(** ** Responses *)

Inductive payload : Type :=
| Result (result : value)
| RpcError (code : Z) (message : string).

Record MCPResponse : Type := {
  resp_id : value;
  resp_body : payload
}.

(** The object literal [{ jsonrpc: '2.0', id, result }] or
    [{ jsonrpc: '2.0', id, error: { code, message } }]. *)
Definition response_value (r : MCPResponse) : value :=
  VObj [ ("jsonrpc", VStr "2.0");
         ("id", resp_id r);
         match resp_body r with
         | Result x => ("result", x)
         | RpcError code message =>
             ("error", VObj [("code", vint code); ("message", VStr message)])
         end ].

Definition text_content (text : value) : value :=
  VArr [VObj [("type", VStr "text"); ("text", text)]].

(** The payload of a tool that failed:
    [{ content: [{ type: 'text', text }], isError: true }]. *)
Definition tool_error (text : string) : value :=
  VObj [("content", text_content (VStr text)); ("isError", VBool true)].

Definition user_turn (text : value) : value :=
  VObj [("parts", VArr [VObj [("text", text)]]); ("role", VStr "user")].

Definition model_turn (text : value) : value :=
  VObj [("parts", VArr [VObj [("text", text)]]); ("role", VStr "model")].

Definition newline : string := String "010" "".

(** [sendResponse]. *)
Definition sendResponse (response : MCPResponse) : M unit :=
  let responseStr := text_of (JSON_stringify (response_value response)) in
  stdout_write (responseStr +:+ newline).

(** ** The server *)

Section Server.

(** The SDK: the outcome of the call number [n] of an operation on its
    parameters, a value when the promise is fulfilled and a [Throw] when
    it is rejected. *)
Variable genAI : nat -> provider_op -> value -> completion value.

(** [process.env.GEMINI_DEFAULT_MODEL]. *)
Variable GEMINI_DEFAULT_MODEL : option string.

(** The help and documentation texts, which are static template strings
    of the source, by the place they stand at. *)
Variable static_text : string -> string.

(** [await this.genAI.models.op(params)]. *)
Definition sdk (op : provider_op) (params : value) : M value :=
  fun st =>
    let outcome := genAI (calls st) op params in
    (outcome,
     {| conversations := conversations st; calls := S (calls st) |},
     [Called op params outcome]).

Definition DEFAULT_MODEL : string :=
  match GEMINI_DEFAULT_MODEL with
  | Some envModel =>
      if truthy (VStr envModel) then
        match HasProperty envModel GEMINI_MODELS with
        | Normal true => envModel
        | _ => "gemini-3-pro-preview"
        end
      else "gemini-3-pro-preview"
  | None => "gemini-3-pro-preview"
  end.

(** What the module writes when it is loaded: a warning on stderr for an
    unknown default model. *)
Definition startup : list event :=
  match GEMINI_DEFAULT_MODEL with
  | Some envModel =>
      if truthy (VStr envModel) then
        match HasProperty envModel GEMINI_MODELS with
        | Normal true => []
        | _ => [Stderr ("[warn] GEMINI_DEFAULT_MODEL=" +:+ dquote +:+ envModel +:+ dquote
                          +:+ " is not a known model. Falling back to gemini-3-pro-preview."
                          +:+ newline)]
        end
      else []
  | None => []
  end.

(** *** The capability registry *)

Definition getAvailableTools : value :=
  VArr
    [ VObj
        [ ("name", VStr "generate_text");
          ("description", VStr "Generate text using Google Gemini with advanced features");
          ("inputSchema",
           VObj
             [ ("type", VStr "object");
               ("properties",
                VObj
                  [ ("prompt",
                     VObj [ ("type", VStr "string");
                            ("description", VStr "The prompt to send to Gemini") ]);
                    ("model",
                     VObj [ ("type", VStr "string");
                            ("description", VStr "Specific Gemini model to use");
                            ("enum", strs (Object_keys GEMINI_MODELS));
                            ("default", VStr DEFAULT_MODEL) ]);
                    ("systemInstruction",
                     VObj [ ("type", VStr "string");
                            ("description",
                             VStr "System instruction to guide model behavior") ]);
                    ("temperature",
                     VObj [ ("type", VStr "number");
                            ("description", VStr "Temperature for generation (0-2)");
                            ("default", vint 1);
                            ("minimum", vint 0);
                            ("maximum", vint 2) ]);
                    ("maxTokens",
                     VObj [ ("type", VStr "number");
                            ("description", VStr "Maximum tokens to generate");
                            ("default", vint 2048) ]);
                    ("topK",
                     VObj [ ("type", VStr "number");
                            ("description", VStr "Top-k sampling parameter");
                            ("default", vint 40) ]);
                    ("topP",
                     VObj [ ("type", VStr "number");
                            ("description", VStr "Top-p (nucleus) sampling parameter");
                            ("default", VNum (Num 95 2)) ]);
                    ("jsonMode",
                     VObj [ ("type", VStr "boolean");
                            ("description", VStr "Enable JSON mode for structured output");
                            ("default", VBool false) ]);
                    ("jsonSchema",
                     VObj [ ("type", VStr "object");
                            ("description",
                             VStr "JSON schema for structured output (when jsonMode is true)") ]);
                    ("grounding",
                     VObj [ ("type", VStr "boolean");
                            ("description",
                             VStr "Enable Google Search grounding for up-to-date information");
                            ("default", VBool false) ]);
                    ("safetySettings",
                     VObj [ ("type", VStr "array");
                            ("description", VStr "Safety settings for content filtering");
                            ("items",
                             VObj
                               [ ("type", VStr "object");
                                 ("properties",
                                  VObj
                                    [ ("category",
                                       VObj [ ("type", VStr "string");
                                              ("enum",
                                               strs [ "HARM_CATEGORY_HARASSMENT";
                                                      "HARM_CATEGORY_HATE_SPEECH";
                                                      "HARM_CATEGORY_SEXUALLY_EXPLICIT";
                                                      "HARM_CATEGORY_DANGEROUS_CONTENT" ]) ]);
                                      ("threshold",
                                       VObj [ ("type", VStr "string");
                                              ("enum",
                                               strs [ "BLOCK_NONE";
                                                      "BLOCK_ONLY_HIGH";
                                                      "BLOCK_MEDIUM_AND_ABOVE";
                                                      "BLOCK_LOW_AND_ABOVE" ]) ]) ]) ]) ]);
                    ("conversationId",
                     VObj [ ("type", VStr "string");
                            ("description", VStr "ID for maintaining conversation context") ]);
                    ("thinkingLevel",
                     VObj [ ("type", VStr "string");
                            ("description",
                             VStr "Thinking depth for Gemini 3 models. Pro supports low/high; Flash supports minimal/low/medium/high.");
                            ("enum", strs ["minimal"; "low"; "medium"; "high"]) ]) ]);
               ("required", strs ["prompt"]) ]) ];
      VObj
        [ ("name", VStr "analyze_image");
          ("description", VStr "Analyze images using Gemini vision capabilities");
          ("inputSchema",
           VObj
             [ ("type", VStr "object");
               ("properties",
                VObj
                  [ ("prompt",
                     VObj [ ("type", VStr "string");
                            ("description", VStr "Question or instruction about the image") ]);
                    ("imageUrl",
                     VObj [ ("type", VStr "string");
                            ("description",
                             VStr "URL of the image to analyze. Either imageUrl or imageBase64 must be provided.") ]);
                    ("imageBase64",
                     VObj [ ("type", VStr "string");
                            ("description",
                             VStr "Base64-encoded image data. Either imageUrl or imageBase64 must be provided.") ]);
                    ("model",
                     VObj [ ("type", VStr "string");
                            ("description", VStr "Vision-capable Gemini model");
                            ("enum",
                             strs [ "gemini-3-pro-preview"; "gemini-3-flash-preview";
                                    "gemini-2.5-pro"; "gemini-2.5-flash" ]);
                            ("default", VStr DEFAULT_MODEL) ]);
                    ("mediaResolution",
                     VObj [ ("type", VStr "string");
                            ("description",
                             VStr "Token allocation for image/video inputs. Higher resolution uses more tokens but provides better detail.");
                            ("enum",
                             strs [ "media_resolution_low"; "media_resolution_medium";
                                    "media_resolution_high" ]) ]) ]);
               ("required", strs ["prompt"]) ]) ];
      VObj
        [ ("name", VStr "count_tokens");
          ("description", VStr "Count tokens for a given text with a specific model");
          ("inputSchema",
           VObj
             [ ("type", VStr "object");
               ("properties",
                VObj
                  [ ("text",
                     VObj [ ("type", VStr "string");
                            ("description", VStr "Text to count tokens for") ]);
                    ("model",
                     VObj [ ("type", VStr "string");
                            ("description", VStr "Model to use for token counting");
                            ("enum", strs (Object_keys GEMINI_MODELS));
                            ("default", VStr DEFAULT_MODEL) ]) ]);
               ("required", strs ["text"]) ]) ];
      VObj
        [ ("name", VStr "list_models");
          ("description", VStr "List all available Gemini models and their capabilities");
          ("inputSchema",
           VObj
             [ ("type", VStr "object");
               ("properties",
                VObj
                  [ ("filter",
                     VObj [ ("type", VStr "string");
                            ("description", VStr "Filter models by capability");
                            ("enum",
                             strs ["all"; "thinking"; "vision"; "grounding"; "json_mode"]) ]) ]) ]) ];
      VObj
        [ ("name", VStr "embed_text");
          ("description", VStr "Generate embeddings for text using Gemini embedding models");
          ("inputSchema",
           VObj
             [ ("type", VStr "object");
               ("properties",
                VObj
                  [ ("text",
                     VObj [ ("type", VStr "string");
                            ("description", VStr "Text to generate embeddings for") ]);
                    ("model",
                     VObj [ ("type", VStr "string");
                            ("description", VStr "Embedding model to use");
                            ("enum", strs ["gemini-embedding-001"]);
                            ("default", VStr "gemini-embedding-001") ]) ]);
               ("required", strs ["text"]) ]) ];
      VObj
        [ ("name", VStr "get_help");
          ("description", VStr "Get help and usage information for the Gemini MCP server");
          ("inputSchema",
           VObj
             [ ("type", VStr "object");
               ("properties",
                VObj
                  [ ("topic",
                     VObj [ ("type", VStr "string");
                            ("description", VStr "Help topic to get information about");
                            ("enum",
                             strs [ "overview"; "tools"; "models"; "parameters";
                                    "examples"; "quick-start" ]);
                            ("default", VStr "overview") ]) ]) ]) ] ].

Definition resource (uri name description mimeType : string) : value :=
  VObj [ ("uri", VStr uri); ("name", VStr name);
         ("description", VStr description); ("mimeType", VStr mimeType) ].

Definition getAvailableResources : value :=
  VArr
    [ resource "gemini://models" "Available Gemini Models"
        "List of all available Gemini models and their capabilities" "application/json";
      resource "gemini://capabilities" "API Capabilities"
        "Detailed information about Gemini API capabilities" "text/markdown";
      resource "gemini://help/usage" "Usage Guide"
        "Complete guide on using all tools and features" "text/markdown";
      resource "gemini://help/parameters" "Parameters Reference"
        "Detailed documentation of all parameters" "text/markdown";
      resource "gemini://help/examples" "Examples"
        "Example usage patterns for common tasks" "text/markdown" ].

Definition argument (name description : string) (required : bool) : value :=
  VObj [ ("name", VStr name); ("description", VStr description);
         ("required", VBool required) ].

Definition getAvailablePrompts : value :=
  VArr
    [ VObj [ ("name", VStr "code_review");
             ("description", VStr "Comprehensive code review with Gemini 3 Pro");
             ("arguments",
              VArr [ argument "code" "Code to review" true;
                     argument "language" "Programming language" false ]) ];
      VObj [ ("name", VStr "explain_with_thinking");
             ("description", VStr "Deep explanation using Gemini 3 thinking capabilities");
             ("arguments",
              VArr [ argument "topic" "Topic to explain" true;
                     argument "level" "Explanation level (beginner/intermediate/expert)" false ]) ];
      VObj [ ("name", VStr "creative_writing");
             ("description", VStr "Creative writing with style control");
             ("arguments",
              VArr [ argument "prompt" "Writing prompt" true;
                     argument "style" "Writing style" false;
                     argument "length" "Desired length" false ]) ] ].

(** *** Tools *)

(** [config.k = v] on an object literal. *)
Definition assign (o : value) (k : string) (v : value) : value :=
  match o with
  | VObj props => VObj (put props k v)
  | _ => o
  end.

(** The SDK configuration that [generateText] builds from the arguments
    and the registry entry of the model. *)
Definition generateText_config (args modelInfo : value) : completion value :=
  temperature <~ Get args "temperature" ;;
  maxTokens <~ Get args "maxTokens" ;;
  topK <~ Get args "topK" ;;
  topP <~ Get args "topP" ;;
  let config :=
    VObj [ ("temperature", nullish_else temperature (vint 1));
           ("maxOutputTokens", or_else maxTokens (vint 2048));
           ("topK", or_else topK (vint 40));
           ("topP", or_else topP (VNum (Num 95 2))) ] in
  systemInstruction <~ Get args "systemInstruction" ;;
  let config :=
    if truthy systemInstruction
    then assign config "systemInstruction" systemInstruction else config in
  jsonMode <~ Get args "jsonMode" ;;
  config <~ (if truthy jsonMode then
               let config := assign config "responseMimeType" (VStr "application/json") in
               jsonSchema <~ Get args "jsonSchema" ;;
               Normal (if truthy jsonSchema
                       then assign config "responseSchema" jsonSchema else config)
             else Normal config) ;;
  safetySettings <~ Get args "safetySettings" ;;
  let config :=
    if truthy safetySettings
    then assign config "safetySettings" safetySettings else config in
  grounding <~ Get args "grounding" ;;
  config <~ (if truthy grounding then
               features <~ Get modelInfo "features" ;;
               grounded <~ call_includes features (VStr "grounding") ;;
               Normal (if grounded : bool
                       then assign config "tools" (VArr [VObj [("googleSearch", VObj [])]])
                       else config)
             else Normal config) ;;
  thinkingLevel <~ Get args "thinkingLevel" ;;
  if truthy thinkingLevel then
    thinking <~ Get modelInfo "thinking" ;;
    if truthy thinking then
      level <~ call_toUpperCase thinkingLevel ;;
      Normal (assign config "thinkingConfig" (VObj [("thinkingLevel", level)]))
    else Normal config
  else Normal config.

(** The body of the [try] of [generateText].  The turns of a conversation
    are pushed on the array that the map holds (or on a new array, then
    stored): nothing can throw between the two pushes and the [set], so
    the three steps are one update of the map. *)
Definition generateText_try (id args : value) : M MCPResponse :=
  requested <- lift (Get args "model") ;;
  let model := or_else requested (VStr DEFAULT_MODEL) in
  key <- lift (ToString model) ;;
  modelInfo <- lift (Get GEMINI_MODELS key) ;;
  if negb (truthy modelInfo) then
    name <- lift (ToString model) ;;
    throw (ErrorObject ("Unknown model: " +:+ name))
  else
    prompt <- lift (Get args "prompt") ;;
    let contents := [user_turn prompt] in
    conversationId <- lift (Get args "conversationId") ;;
    contents <- (if truthy conversationId then
                   stored <- conversations_get conversationId ;;
                   let history := default [] stored in
                   ret (if (0 <? length history)%nat
                        then history ++ contents else contents)
                 else ret contents) ;;
    config <- lift (generateText_config args modelInfo) ;;
    result <- sdk models_generateContent
                (VObj [ ("model", model);
                        ("contents", VArr contents);
                        ("config", config) ]) ;;
    produced <- lift (Get result "text") ;;
    let text := or_else produced (VStr "") in
    conversationId <- lift (Get args "conversationId") ;;
    (if truthy conversationId then
       stored <- conversations_get conversationId ;;
       let history := default [] stored in
       prompt <- lift (Get args "prompt") ;;
       conversations_set conversationId
         (history ++ [user_turn prompt; model_turn text])
     else ret tt) ;;
    usageMetadata <- lift (Get result "usageMetadata") ;;
    candidates <- lift (Get result "candidates") ;;
    ret {| resp_id := id;
           resp_body :=
             Result
               (VObj
                  [ ("content", text_content text);
                    ("metadata",
                     VObj
                       [ ("model", model);
                         ("tokensUsed", GetOpt usageMetadata "totalTokenCount");
                         ("candidatesCount",
                          or_else (GetOpt candidates "length") (vint 1));
                         ("finishReason",
                          GetOpt (GetOpt candidates "0") "finishReason") ]) ]) |}.

Definition generateText (id args : value) : M MCPResponse :=
  try_catch (generateText_try id args)
    (fun error =>
       console_error "Error in generateText:" ;;
       ret {| resp_id := id;
              resp_body :=
                Result (tool_error ("Error: " +:+ message_or "Internal error" error)) |}).

(** [recv.match(/^data:(.+);base64,(.+)$/)]. *)
Definition call_match (recv : value) : completion (option (string * string)) :=
  match recv with
  | VUndef => TypeError "Cannot read properties of undefined (reading 'match')"
  | VNull => TypeError "Cannot read properties of null (reading 'match')"
  | VStr s => Normal (match_data_uri s)
  | _ => TypeError "args.imageBase64.match is not a function"
  end.

Definition analyzeImage_try (id args : value) : M MCPResponse :=
  requested <- lift (Get args "model") ;;
  let model := or_else requested (VStr DEFAULT_MODEL) in
  imageUrl <- lift (Get args "imageUrl") ;;
  (if negb (truthy imageUrl) then
     imageBase64 <- lift (Get args "imageBase64") ;;
     if negb (truthy imageBase64)
     then throw (ErrorObject "Either imageUrl or imageBase64 must be provided")
     else ret tt
   else ret tt) ;;
  imageUrl <- lift (Get args "imageUrl") ;;
  imagePart <-
    (if truthy imageUrl then
       url <- lift (ToString imageUrl) ;;
       ret (VObj [("text", VStr ("[Image URL: " +:+ url +:+ "]"))])
     else
       imageBase64 <- lift (Get args "imageBase64") ;;
       if truthy imageBase64 then
         size <- lift (n <~ Get imageBase64 "length" ;; ToString n) ;;
         console_error ("Image base64 length: " +:+ size) ;;
         matches <- lift (call_match imageBase64) ;;
         match matches with
         | Some (mimeType, data) =>
             console_error
               ("MIME type: " +:+ mimeType +:+ ", Data length: "
                  +:+ digits (N.of_nat (String.length data))) ;;
             ret (VObj [("inlineData",
                         VObj [("mimeType", VStr mimeType); ("data", VStr data)])])
         | None =>
             console_error "Raw base64 data detected" ;;
             ret (VObj [("inlineData",
                         VObj [("mimeType", VStr "image/jpeg");
                               ("data", imageBase64)])])
         end
       else ret VUndef) ;;
  mediaResolution <- lift (Get args "mediaResolution") ;;
  let config :=
    if truthy mediaResolution
    then VObj [("mediaResolution", mediaResolution)] else VObj [] in
  prompt <- lift (Get args "prompt") ;;
  result <- sdk models_generateContent
              (VObj [ ("model", model);
                      ("contents",
                       VArr [VObj [ ("parts", VArr [VObj [("text", prompt)]; imagePart]);
                                    ("role", VStr "user") ]]);
                      ("config",
                       if (0 <? length (Object_keys config))%nat
                       then config else VUndef) ]) ;;
  produced <- lift (Get result "text") ;;
  let text := or_else produced (VStr "") in
  ret {| resp_id := id;
         resp_body := Result (VObj [("content", text_content text)]) |}.

Definition analyzeImage (id args : value) : M MCPResponse :=
  try_catch (analyzeImage_try id args)
    (fun error =>
       console_error "Error in analyzeImage:" ;;
       ret {| resp_id := id;
              resp_body :=
                Result (tool_error ("Image analysis failed: "
                                      +:+ message_or "Unknown error" error)) |}).

Definition countTokens_try (id args : value) : M MCPResponse :=
  requested <- lift (Get args "model") ;;
  let model := or_else requested (VStr DEFAULT_MODEL) in
  text <- lift (Get args "text") ;;
  result <- sdk models_countTokens
              (VObj [ ("model", model);
                      ("contents",
                       VArr [VObj [ ("parts", VArr [VObj [("text", text)]]);
                                    ("role", VStr "user") ]]) ]) ;;
  count <- lift (n <~ Get result "totalTokens" ;; ToString n) ;;
  totalTokens <- lift (Get result "totalTokens") ;;
  ret {| resp_id := id;
         resp_body :=
           Result
             (VObj [ ("content", text_content (VStr ("Token count: " +:+ count)));
                     ("metadata",
                      VObj [("tokenCount", totalTokens); ("model", model)]) ]) |}.

Definition countTokens (id args : value) : M MCPResponse :=
  try_catch (countTokens_try id args)
    (fun error =>
       console_error "Error in countTokens:" ;;
       ret {| resp_id := id;
              resp_body :=
                Result (tool_error ("Token counting failed: "
                                      +:+ message_or "Internal error" error)) |}).

Definition embedText_try (id args : value) : M MCPResponse :=
  requested <- lift (Get args "model") ;;
  let model := or_else requested (VStr "gemini-embedding-001") in
  text <- lift (Get args "text") ;;
  result <- sdk models_embedContent (VObj [("model", model); ("contents", text)]) ;;
  embeddings <- lift (Get result "embeddings") ;;
  let values := GetOpt (GetOpt embeddings "0") "values" in
  ret {| resp_id := id;
         resp_body :=
           Result
             (VObj
                [ ("content",
                   text_content
                     (VStr (text_of
                              (JSON_stringify
                                 (VObj [ ("embedding", or_else values (VArr []));
                                         ("model", model) ])))));
                  ("metadata",
                   VObj [ ("model", model);
                          ("dimensions",
                           or_else (GetOpt values "length") (vint 0)) ]) ]) |}.

Definition embedText (id args : value) : M MCPResponse :=
  try_catch (embedText_try id args)
    (fun error =>
       console_error "Error in embedText:" ;;
       ret {| resp_id := id;
              resp_body :=
                Result (tool_error ("Embedding failed: "
                                      +:+ message_or "Internal error" error)) |}).

(** The callback of [models.filter] in [listModels]. *)
Definition model_matches (filter info : value) : completion bool :=
  if is_str filter "thinking" then
    declared <~ HasProperty "thinking" info ;;
    if declared : bool then
      thinking <~ Get info "thinking" ;;
      Normal (match thinking with VBool true => true | _ => false end)
    else Normal false
  else if is_str filter "vision" then
    features <~ Get info "features" ;;
    call_includes features (VStr "function_calling")
  else if is_str filter "grounding" then
    features <~ Get info "features" ;;
    call_includes features (VStr "grounding")
  else if is_str filter "json_mode" then
    features <~ Get info "features" ;;
    call_includes features (VStr "json_mode")
  else Normal true.

Fixpoint filter_entries (keep : value -> completion bool)
    (entries : list (string * value)) : completion (list (string * value)) :=
  match entries with
  | [] => Normal []
  | (name, info) :: rest =>
      kept <~ keep info ;;
      others <~ filter_entries keep rest ;;
      Normal (if kept : bool then (name, info) :: others else others)
  end.

(** The models that [listModels] lists for a filter. *)
Definition listed_models (filter : value) : completion (list (string * value)) :=
  let models := Object_entries GEMINI_MODELS in
  if negb (is_str filter "all")
  then filter_entries (model_matches filter) models
  else Normal models.

(** [{ name, ...info }]. *)
Definition with_name (entry : string * value) : value :=
  fold_left (fun o kv => assign o (fst kv) (snd kv))
            (Object_entries (snd entry)) (VObj [("name", VStr (fst entry))]).

Definition listModels (id args : value) : completion MCPResponse :=
  let filter := or_else (GetOpt args "filter") (VStr "all") in
  models <~ listed_models filter ;;
  let modelList := map with_name models in
  Normal
    {| resp_id := id;
       resp_body :=
         Result
           (VObj
              [ ("content",
                 text_content (VStr (text_of (JSON_stringify_pretty (VArr modelList)))));
                ("metadata",
                 VObj [ ("count", vint (Z.of_nat (length modelList)));
                        ("filter", filter) ]) ]) |}.

(** [getHelpContent(topic)], the texts being [static_text]. *)
Definition getHelpContent (topic : string) : string :=
  if String.eqb topic "overview" then static_text "getHelpContent/overview"
  else if String.eqb topic "tools" then static_text "getHelpContent/tools"
  else if String.eqb topic "parameters" then static_text "getHelpContent/parameters"
  else if String.eqb topic "examples" then static_text "getHelpContent/examples"
  else "Unknown help topic.".

Definition getHelp (id args : value) : MCPResponse :=
  let topic := or_else (GetOpt args "topic") (VStr "overview") in
  let helpContent :=
    if is_str topic "overview" then getHelpContent "overview"
    else if is_str topic "tools" then getHelpContent "tools"
    else if is_str topic "models" then static_text "getHelp/models"
    else if is_str topic "parameters" then getHelpContent "parameters"
    else if is_str topic "examples" then getHelpContent "examples"
    else if is_str topic "quick-start" then static_text "getHelp/quick-start"
    else "Unknown help topic. Available topics: overview, tools, models, parameters, examples, quick-start" in
  {| resp_id := id;
     resp_body := Result (VObj [("content", text_content (VStr helpContent))]) |}.

(** *** The router *)

Definition handleToolCall (request : value) : M MCPResponse :=
  params <- lift (Get request "params") ;;
  let params := or_else params (VObj []) in
  name <- lift (Get params "name") ;;
  args <- lift (Get params "arguments") ;;
  if is_str name "generate_text" then
    id <- lift (Get request "id") ;; generateText id args
  else if is_str name "analyze_image" then
    id <- lift (Get request "id") ;; analyzeImage id args
  else if is_str name "count_tokens" then
    id <- lift (Get request "id") ;; countTokens id args
  else if is_str name "list_models" then
    id <- lift (Get request "id") ;; lift (listModels id args)
  else if is_str name "embed_text" then
    id <- lift (Get request "id") ;; embedText id args
  else if is_str name "get_help" then
    id <- lift (Get request "id") ;; ret (getHelp id args)
  else
    id <- lift (Get request "id") ;;
    shown <- lift (ToString name) ;;
    ret {| resp_id := id;
           resp_body := RpcError (-32602) ("Unknown tool: " +:+ shown) |}.

Definition handleResourceRead (request : value) : M MCPResponse :=
  params <- lift (Get request "params") ;;
  let uri := GetOpt params "uri" in
  if negb (truthy uri) then
    id <- lift (Get request "id") ;;
    ret {| resp_id := id;
           resp_body := RpcError (-32602) "Missing required parameter: uri" |}
  else
    let found (content mimeType : string) : M MCPResponse :=
      id <- lift (Get request "id") ;;
      ret {| resp_id := id;
             resp_body :=
               Result
                 (VObj [("contents",
                         VArr [VObj [ ("uri", uri);
                                      ("mimeType", VStr mimeType);
                                      ("text", VStr content) ]])]) |} in
    if is_str uri "gemini://models" then
      found (text_of (JSON_stringify_pretty GEMINI_MODELS)) "application/json"
    else if is_str uri "gemini://capabilities" then
      found (static_text "handleResourceRead/capabilities") "text/markdown"
    else if is_str uri "gemini://help/usage" then
      found (getHelpContent "overview" +:+ newline +:+ newline +:+ getHelpContent "tools")
            "text/markdown"
    else if is_str uri "gemini://help/parameters" then
      found (getHelpContent "parameters") "text/markdown"
    else if is_str uri "gemini://help/examples" then
      found (getHelpContent "examples") "text/markdown"
    else
      id <- lift (Get request "id") ;;
      shown <- lift (ToString uri) ;;
      ret {| resp_id := id;
             resp_body := RpcError (-32602) ("Unknown resource: " +:+ shown) |}.

Definition result_of (request : value) (result : value) : M (option MCPResponse) :=
  id <- lift (Get request "id") ;;
  ret (Some {| resp_id := id; resp_body := Result result |}).

(** The [switch] of [handleRequest]: the response to send, or [None]
    where the function returns without one. *)
Definition route (request : value) : M (option MCPResponse) :=
  method <- lift (Get request "method") ;;
  if is_str method "initialize" then
    result_of request
      (VObj [ ("protocolVersion", VStr "2024-11-05");
              ("serverInfo",
               VObj [ ("name", VStr "mcp-server-gemini-enhanced");
                      ("version", VStr "0.5.1") ]);
              ("capabilities",
               VObj [ ("tools", VObj []); ("resources", VObj []);
                      ("prompts", VObj []) ]) ])
  else if is_str method "tools/list" then
    result_of request (VObj [("tools", getAvailableTools)])
  else if is_str method "tools/call" then
    response <- handleToolCall request ;; ret (Some response)
  else if is_str method "resources/list" then
    result_of request (VObj [("resources", getAvailableResources)])
  else if is_str method "resources/read" then
    response <- handleResourceRead request ;; ret (Some response)
  else if is_str method "prompts/list" then
    result_of request (VObj [("prompts", getAvailablePrompts)])
  else if is_str method "ping" then
    result_of request (VObj [])
  else
    identified <- lift (HasProperty "id" request) ;;
    if negb identified then
      shown <- lift (m <~ Get request "method" ;; ToString m) ;;
      console_error ("Notification received: " +:+ shown) ;;
      ret None
    else
      id <- lift (Get request "id") ;;
      ret (Some {| resp_id := id;
                   resp_body := RpcError (-32601) "Method not found" |}).

Definition internal_error (id : value) (error : thrown) : MCPResponse :=
  {| resp_id := id;
     resp_body := RpcError (-32603) (message_or "Internal error" error) |}.

Definition handleRequest (request : value) : M unit :=
  _ <- lift (Get request "method") ;;
  console_error "Handling request:" ;;
  try_catch
    (routed <- route request ;;
     match routed with
     | Some response => sendResponse response
     | None => ret tt
     end)
    (fun error =>
       id <- lift (Get request "id") ;;
       sendResponse (internal_error id error)).

(** *** The line reader *)

Inductive status : Type := Running | Exited.

(** The listener of the ['line'] event.  The promise of [handleRequest]
    is not awaited: its rejection is handled by nothing. *)
Definition on_line (line : string) (st : Store) : status * Store * list event :=
  if truthy (VStr (trim line)) then
    match JSON_parse line with
    | Normal request =>
        match handleRequest request st with
        | (Normal _, st', evs) => (Running, st', evs)
        | (Throw e, st', evs) => (Exited, st', evs ++ [Unhandled e])
        end
    | Throw _ => (Running, st, [Stderr "Failed to parse message:"])
    end
  else (Running, st, []).

(** The server on the lines of its input, one after the other. *)
Fixpoint serve (lines : list string) (st : Store) : status * Store * list event :=
  match lines with
  | [] => (Running, st, [])
  | line :: rest =>
      match on_line line st with
      | (Running, st', evs) =>
          let '(s, st'', evs') := serve rest st' in (s, st'', evs ++ evs')
      | (Exited, st', evs) => (Exited, st', evs)
      end
  end.


(** * Properties *)

(** ** Characters of the encoded text *)

Fixpoint str_all (P : ascii -> bool) (s : string) : bool :=
match s with
| EmptyString => true
| String c s' => P c && str_all P s'
end.



Lemma app_String c s t : String c s +:+ t = String c (s +:+ t).
Proof. reflexivity. Qed.

Lemma app_empty t : "" +:+ t = t.
Proof. reflexivity. Qed.














(** ** What a computation writes and returns *)

Lemma stdout_of_app evs evs' :
  stdout_of (evs ++ evs') = stdout_of evs ++ stdout_of evs'.
Proof. apply omap_app. Qed.

Lemma calls_of_app evs evs' :
  calls_of (evs ++ evs') = calls_of evs ++ calls_of evs'.
Proof. apply omap_app. Qed.

(** [ensures Q m]: [m] writes nothing to stdout, and what it returns
    satisfies [Q]. *)
Definition ensures {A} (Q : A -> Prop) (m : M A) : Prop :=
  forall st, stdout_of (m st).2 = [] /\ forall a, (m st).1.1 = Normal a -> Q a.

Lemma ensures_ret {A} (Q : A -> Prop) a : Q a -> ensures Q (ret a).
Proof. intros H st. split; [reflexivity|]. simpl. now intros ? [= <-]. Qed.

Lemma ensures_throw {A} (Q : A -> Prop) e : ensures Q (throw e).
Proof. intros st. split; [reflexivity|]. simpl. discriminate. Qed.

Lemma ensures_lift {A} (Q : A -> Prop) c :
  (forall a, c = Normal a -> Q a) -> ensures Q (lift c).
Proof. intros H st. split; [reflexivity|]. simpl. auto. Qed.

Lemma ensures_weaken {A} (Q Q' : A -> Prop) m :
  ensures Q m -> (forall a, Q a -> Q' a) -> ensures Q' m.
Proof. intros H HQ st. destruct (H st) as [H1 H2]. split; auto. Qed.

Lemma ensures_bind {A B} (R : A -> Prop) (Q : B -> Prop) m f :
  ensures R m -> (forall a, R a -> ensures Q (f a)) -> ensures Q (bind m f).
Proof.
  intros Hm Hf st. unfold bind.
  destruct (Hm st) as [H1 H2].
  destruct (m st) as [[[a|e] st'] evs]; simpl in *.
  - destruct (Hf a (H2 a eq_refl) st') as [H3 H4].
    destruct (f a st') as [[c st''] evs']; simpl in *.
    rewrite stdout_of_app, H1, H3. auto.
  - split; [assumption|discriminate].
Qed.

Lemma ensures_bind_any {A B} (Q : B -> Prop) (m : M A) f :
  ensures (fun _ => True) m -> (forall a, ensures Q (f a)) -> ensures Q (bind m f).
Proof. intros Hm Hf. eapply ensures_bind; eauto. Qed.

Lemma ensures_bind_lift {A B} (Q : B -> Prop) (c : completion A) f :
  (forall a, c = Normal a -> ensures Q (f a)) -> ensures Q (bind (lift c) f).
Proof.
  intros Hf. apply (ensures_bind (fun a => c = Normal a)); [|assumption].
  now apply ensures_lift.
Qed.

Lemma ensures_try {A} (Q : A -> Prop) body handler :
  ensures Q body -> (forall e, ensures Q (handler e)) ->
  ensures Q (try_catch body handler).
Proof.
  intros Hb Hh st. unfold try_catch.
  destruct (Hb st) as [H1 H2].
  destruct (body st) as [[[a|e] st'] evs]; simpl in *.
  - auto.
  - destruct (Hh e st') as [H3 H4].
    destruct (handler e st') as [[c st''] evs']; simpl in *.
    rewrite stdout_of_app, H1, H3. auto.
Qed.

Lemma ensures_console_error (Q : unit -> Prop) message :
  Q tt -> ensures Q (console_error message).
Proof. intros H st. split; [reflexivity|]. simpl. now intros [] _. Qed.

Lemma ensures_sdk (Q : value -> Prop) op params :
  (forall v, Q v) -> ensures Q (sdk op params).
Proof. intros H st. split; [reflexivity|]. auto. Qed.

Lemma ensures_conversations_get (Q : option (list value) -> Prop) key :
  (forall o, Q o) -> ensures Q (conversations_get key).
Proof. intros H st. split; [reflexivity|]. auto. Qed.

Lemma ensures_conversations_set (Q : unit -> Prop) key turns :
  Q tt -> ensures Q (conversations_set key turns).
Proof. intros H st. split; [reflexivity|]. simpl. now intros [] _. Qed.

Ltac ensures_step :=
  lazymatch goal with
  | |- ensures _ (ret _) => apply ensures_ret
  | |- ensures _ (throw _) => apply ensures_throw
  | |- ensures _ (lift _) => apply ensures_lift; intros ? ?
  | |- ensures _ (console_error _) => apply ensures_console_error
  | |- ensures _ (sdk _ _) => apply ensures_sdk; intros ?
  | |- ensures _ (conversations_get _) => apply ensures_conversations_get; intros ?
  | |- ensures _ (conversations_set _ _) => apply ensures_conversations_set
  | |- ensures _ (try_catch _ _) => apply ensures_try; [|intros ?]
  | |- ensures _ (bind (lift _) _) => apply ensures_bind_lift; intros ? ?
  | |- ensures _ (bind _ _) => apply ensures_bind_any; [|intros ?]
  | |- ensures _ (if ?b then _ else _) => destruct b eqn:?
  | |- ensures _ (match ?x with _ => _ end) => destruct x eqn:?
  end.

Ltac ensures_auto := repeat ensures_step; try solve [trivial | reflexivity | congruence].

Lemma generateText_ensures id args :
  ensures (fun r => resp_id r = id) (generateText id args).
Proof. unfold generateText, generateText_try. ensures_auto. Qed.

Lemma analyzeImage_ensures id args :
  ensures (fun r => resp_id r = id) (analyzeImage id args).
Proof. unfold analyzeImage, analyzeImage_try. ensures_auto. Qed.

Lemma countTokens_ensures id args :
  ensures (fun r => resp_id r = id) (countTokens id args).
Proof. unfold countTokens, countTokens_try. ensures_auto. Qed.

Lemma embedText_ensures id args :
  ensures (fun r => resp_id r = id) (embedText id args).
Proof. unfold embedText, embedText_try. ensures_auto. Qed.

Lemma listModels_id id args r : listModels id args = Normal r -> resp_id r = id.
Proof.
  unfold listModels. destruct (listed_models _); simpl; [|discriminate].
  now intros [= <-].
Qed.

Lemma handleToolCall_ensures request :
  ensures (fun r => Get request "id" = Normal (resp_id r)) (handleToolCall request).
Proof.
  unfold handleToolCall.
  repeat lazymatch goal with
    | |- ensures _ (bind (lift (Get request "id")) _) =>
        apply ensures_bind_lift; intros id Hid
    | |- ensures _ (generateText _ _) =>
        eapply ensures_weaken; [apply generateText_ensures|]
    | |- ensures _ (analyzeImage _ _) =>
        eapply ensures_weaken; [apply analyzeImage_ensures|]
    | |- ensures _ (countTokens _ _) =>
        eapply ensures_weaken; [apply countTokens_ensures|]
    | |- ensures _ (embedText _ _) =>
        eapply ensures_weaken; [apply embedText_ensures|]
    | |- ensures _ (lift (listModels _ _)) =>
        apply ensures_lift; intros r Hr; apply listModels_id in Hr
    | |- _ => ensures_step
    end;
    try (simpl; intros; congruence).
Qed.

Lemma handleResourceRead_ensures request :
  ensures (fun r => Get request "id" = Normal (resp_id r)) (handleResourceRead request).
Proof. unfold handleResourceRead. ensures_auto. Qed.

(** What [route] decides: a response that carries [request.id], or none
    for a request of an unknown method that has no [id]. *)
Definition routed_for (request : value) (routed : option MCPResponse) : Prop :=
  match routed with
  | Some response => Get request "id" = Normal (resp_id response)
  | None => HasProperty "id" request = Normal false
  end.

Lemma route_ensures request : ensures (routed_for request) (route request).
Proof.
  unfold route, result_of.
  repeat lazymatch goal with
    | |- ensures _ (bind (handleToolCall _) _) =>
        eapply ensures_bind; [apply handleToolCall_ensures|intros ? ?]
    | |- ensures _ (bind (handleResourceRead _) _) =>
        eapply ensures_bind; [apply handleResourceRead_ensures|intros ? ?]
    | |- ensures _ (bind (lift (HasProperty _ _)) _) =>
        apply ensures_bind_lift; intros identified Hidentified
    | |- _ => ensures_step
    end;
    try solve [trivial | simpl; congruence].
  simpl. destruct identified; [discriminate|assumption].
Qed.

(** ** One request *)

(** The chunk that [sendResponse] writes for a response. *)
Definition encode_line (response : MCPResponse) : string :=
  text_of (JSON_stringify (response_value response)) +:+ newline.

Lemma Get_defined v k x k' : Get v k = Normal x -> exists x', Get v k' = Normal x'.
Proof. destruct v; simpl; try discriminate; eauto. Qed.

(** [handleRequest] on anything but [null] and [undefined]: the log
    line, what the routing did, and then the routed response, or the
    internal error for what the routing threw. *)
Lemma handleRequest_run request method st :
  Get request "method" = Normal method ->
  exists id,
    Get request "id" = Normal id /\
    handleRequest request st =
      (Normal tt, (route request st).1.2,
       Stderr "Handling request:" :: (route request st).2 ++
         match (route request st).1.1 with
         | Normal (Some response) => [Stdout (encode_line response)]
         | Normal None => []
         | Throw e => [Stdout (encode_line (internal_error id e))]
         end).
Proof.
  intros Hm. destruct (Get_defined _ _ _ "id" Hm) as [id Hid].
  exists id. split; [exact Hid|].
  unfold handleRequest, bind, lift, console_error, try_catch, sendResponse,
    stdout_write, ret, encode_line.
  rewrite Hm, Hid.
  destruct (route request st) as [[[[response|]|e] st1] evs1]; simpl;
    rewrite ?app_nil_r; reflexivity.
Qed.

Lemma own_id_identified props id :
  own props "id" = Some id ->
  Get (VObj props) "id" = Normal id /\ HasProperty "id" (VObj props) = Normal true.
Proof. intros H. simpl. rewrite H. split; reflexivity. Qed.

Lemma string_app_assoc a b c : (a +:+ b) +:+ c = a +:+ b +:+ c.
Proof.
  induction a as [|x a IH]; [reflexivity|]. rewrite !app_String. now rewrite IH.
Qed.

(** The line of a response opens with the protocol marker and the
    identifier, in its JSON text. *)
Lemma encode_line_carries_id response text_id :
  JSON_stringify (resp_id response) = Some text_id ->
  exists rest,
    encode_line response =
      "{" +:+ QuoteJSONString "jsonrpc" +:+ ":" +:+ QuoteJSONString "2.0" +:+ ","
          +:+ QuoteJSONString "id" +:+ ":" +:+ text_id +:+ rest.
Proof.
  unfold encode_line, JSON_stringify, response_value. intros Hid.
  destruct (resp_body response) as [result|code text];
    cbn [SerializeJSONProperty omap list_omap]; change ("" +:+ "") with "";
    rewrite Hid;
    [destruct (SerializeJSONProperty "" "" result) as [text|]|];
    unfold wrap, colon, text_of; cbn [String.eqb Ascii.eqb Bool.eqb default from_option join];
    unfold Datatypes.id; rewrite !string_app_assoc; eauto.
Qed.

(** C1.  A request object that carries an [id]: [handleRequest] returns
    normally, exactly one chunk is written to stdout, the encoding of a
    response, and the [id] of that response is the [id] of the request;
    the line written carries the JSON text of that identifier in its [id]
    field.  This holds whatever the method is: for the seven known
    methods, for an unknown method and when the handler throws. *)
Theorem C1_exactly_one_response_with_request_id props id st :
  own props "id" = Some id ->
  exists response st' evs,
    handleRequest (VObj props) st = (Normal tt, st', evs)
    /\ stdout_of evs = [encode_line response]
    /\ resp_id response = id
    /\ forall text_id,
         JSON_stringify id = Some text_id ->
         exists rest,
           encode_line response =
             "{" +:+ QuoteJSONString "jsonrpc" +:+ ":" +:+ QuoteJSONString "2.0" +:+ ","
                 +:+ QuoteJSONString "id" +:+ ":" +:+ text_id +:+ rest.
Proof.
  intros Hown. destruct (own_id_identified _ _ Hown) as [Hid Hin].
  destruct (handleRequest_run (VObj props) _ st eq_refl) as (id' & Hid' & Hrun).
  assert (id' = id) as -> by congruence.
  destruct (route_ensures (VObj props) st) as [Hquiet Hrouted].
  destruct (route (VObj props) st) as [[c st1] evs1]; simpl in *.
  assert (Hout : forall chunk,
             stdout_of (Stderr "Handling request:" :: evs1 ++ [Stdout chunk]) = [chunk]).
  { intros chunk. change (stdout_of (Stderr "Handling request:" :: ?l)) with (stdout_of l).
    now rewrite stdout_of_app, Hquiet. }
  destruct c as [[response|]|e].
  - specialize (Hrouted _ eq_refl). simpl in Hrouted.
    assert (Hsame : resp_id response = id) by congruence.
    exists response, st1. eexists. split; [exact Hrun|]. split; [apply Hout|].
    split; [exact Hsame|]. intros text_id Htext.
    apply encode_line_carries_id. now rewrite Hsame.
  - specialize (Hrouted _ eq_refl). simpl in Hrouted. congruence.
  - exists (internal_error id e), st1. eexists. split; [exact Hrun|].
    split; [apply Hout|]. split; [reflexivity|]. intros text_id Htext.
    now apply encode_line_carries_id.
Qed.

(** ** The output channel *)








(** ** Tool calls *)

(** The names of the tools of the registry. *)
Definition tool_names : list string :=
  omap (fun tool => match GetOpt tool "name" with
                    | VStr name => Some name
                    | _ => None
                    end)
       (match getAvailableTools with VArr tools => tools | _ => [] end).

Lemma tool_names_are :
  tool_names =
    [ "generate_text"; "analyze_image"; "count_tokens"; "list_models";
      "embed_text"; "get_help" ].
Proof. reflexivity. Qed.

Lemma eqb_of_not_In name names literal :
  ~ In name names -> In literal names -> String.eqb name literal = false.
Proof.
  intros Hnot Hin. apply String.eqb_neq. intros ->. contradiction.
Qed.

(** A [tools/call] whose name matches no [case] and can be shown in the
    message. *)
Lemma handleToolCall_unregistered request params name args id shown st :
  Get request "params" = Normal params ->
  Get (or_else params (VObj [])) "name" = Normal name ->
  Get (or_else params (VObj [])) "arguments" = Normal args ->
  Get request "id" = Normal id ->
  (forall literal, In literal tool_names -> is_str name literal = false) ->
  ToString name = Normal shown ->
  handleToolCall request st =
    (Normal {| resp_id := id;
               resp_body := RpcError (-32602) ("Unknown tool: " +:+ shown) |}, st, []).
Proof.
  intros Hp Hn Ha Hid Hnone Hshown.
  unfold handleToolCall, bind, lift, ret.
  rewrite Hp, Hn, Ha.
  rewrite !Hnone by (rewrite tool_names_are; simpl; auto 10).
  rewrite Hid, Hshown. reflexivity.
Qed.

Lemma route_tools_call request st :
  Get request "method" = Normal (VStr "tools/call") ->
  route request st =
    (match (handleToolCall request st).1.1 with
     | Normal response => Normal (Some response)
     | Throw e => Throw e
     end, (handleToolCall request st).1.2, (handleToolCall request st).2).
Proof.
  intros Hm. unfold route, bind at 1. unfold lift at 1. rewrite Hm.
  cbn [is_str String.eqb Ascii.eqb Bool.eqb]. unfold bind, ret.
  destruct (handleToolCall request st) as [[[response|e] st'] evs]; simpl;
    rewrite ?app_nil_r; reflexivity.
Qed.

Definition error_code (response : MCPResponse) : option Z :=
  match resp_body response with
  | RpcError code _ => Some code
  | Result _ => None
  end.

(** C4.  A [tools/call] request whose tool name is a string that is none
    of the six registered names is answered by one response, the RPC
    error of code -32602 (invalid params) with the message
    [Unknown tool: name]; the code -32603 does not occur. *)
Theorem C4_unknown_tool_is_invalid_params props params name st :
  own props "method" = Some (VStr "tools/call") ->
  own props "params" = Some (VObj params) ->
  own params "name" = Some (VStr name) ->
  ~ In name tool_names ->
  exists id response st' evs,
    Get (VObj props) "id" = Normal id
    /\ response = {| resp_id := id;
                     resp_body := RpcError (-32602) ("Unknown tool: " +:+ name) |}
    /\ handleRequest (VObj props) st = (Normal tt, st', evs)
    /\ stdout_of evs = [encode_line response]
    /\ error_code response = Some (-32602)%Z
    /\ error_code response <> Some (-32603)%Z.
Proof.
  intros Hmethod Hparams Hname Hnot.
  destruct (handleRequest_run (VObj props) _ st eq_refl) as (id & Hid & Hrun).
  assert (Hm : Get (VObj props) "method" = Normal (VStr "tools/call"))
    by (simpl; now rewrite Hmethod).
  assert (Hp : Get (VObj props) "params" = Normal (VObj params))
    by (simpl; now rewrite Hparams).
  destruct (Get_defined (VObj params) "name" _ "arguments" eq_refl) as [args Ha].
  rewrite (route_tools_call _ st Hm) in Hrun.
  rewrite (handleToolCall_unregistered (VObj props) (VObj params) (VStr name) args id name st)
    in Hrun; auto.
  - exists id. eexists. eexists. eexists. split; [exact Hid|]. split; [reflexivity|].
    split; [exact Hrun|]. split; [reflexivity|]. split; [reflexivity|discriminate].
  - simpl. now rewrite Hname.
  - intros literal Hin. simpl. now apply eqb_of_not_In with tool_names.
Qed.

(** ** Failures of the provider *)














Lemma bind_lift {A B} (c : completion A) (f : A -> M B) st :
  bind (lift c) f st =
    match c with
    | Normal a => f a st
    | Throw e => (Throw e, st, [])
    end.
Proof.
  unfold bind, lift. destruct c as [a|e]; [|reflexivity].
  now destruct (f a st) as [[c st'] evs].
Qed.

(** The entry of the registry that [generateText] finds for a name is
    truthy. *)
Definition recognized (model : string) : bool :=
  match Get GEMINI_MODELS model with
  | Normal info => truthy info
  | Throw _ => false
  end.

(** The lookup follows the prototype chain: the names it recognizes are
    the five models and the members of [Object.prototype]. *)
Lemma recognized_iff model :
  recognized model = true <->
  In model (Object_keys GEMINI_MODELS) \/ In model Object_prototype.
Proof.
  unfold recognized, GEMINI_MODELS, Get, own.
  repeat match goal with
    | |- context [String.eqb ?k model] =>
        destruct (String.eqb_spec k model) as [<-|?];
          [split; [intros _; simpl; tauto|reflexivity]|]
    end.
  unfold inherited, mem.
  destruct (existsb (String.eqb model) Object_prototype) eqn:E.
  - split; [intros _|reflexivity]. right.
    apply existsb_exists in E as (k & Hin & Heq).
    apply String.eqb_eq in Heq. now subst.
  - split; [discriminate|]. intros [H|H].
    + simpl in H. intuition congruence.
    + assert (existsb (String.eqb model) Object_prototype = true); [|congruence].
      apply existsb_exists. exists model. split; [exact H|apply String.eqb_refl].
Qed.




(** What [generateText] answers for a model that the registry does not
    recognize. *)
Lemma generateText_unknown_model id args requested shown info st :
  Get args "model" = Normal requested ->
  ToString (or_else requested (VStr DEFAULT_MODEL)) = Normal shown ->
  Get GEMINI_MODELS shown = Normal info ->
  truthy info = false ->
  generateText id args st =
    (Normal {| resp_id := id;
               resp_body := Result (tool_error ("Error: Unknown model: " +:+ shown)) |},
     st, [Stderr "Error in generateText:"]).
Proof.
  intros Hm Hshown Hinfo Hfalsy.
  unfold generateText, try_catch, generateText_try.
  rewrite bind_lift, Hm. cbv zeta.
  rewrite bind_lift, Hshown, bind_lift, Hinfo, Hfalsy.
  cbn [negb]. rewrite bind_lift. reflexivity.
Qed.

(** ** Running a computation step by step *)

Definition after {A} (evs : list event) (r : completion A * Store * list event)
  : completion A * Store * list event :=
  (r.1.1, r.1.2, evs ++ r.2).

Lemma after_nil {A} (r : completion A * Store * list event) : after [] r = r.
Proof. now destruct r as [[c st] evs]. Qed.

Lemma bind_run {A B} (m : M A) (f : A -> M B) st :
  bind m f st =
    match (m st).1.1 with
    | Normal a => after (m st).2 (f a (m st).1.2)
    | Throw e => (Throw e, (m st).1.2, (m st).2)
    end.
Proof.
  unfold bind, after. destruct (m st) as [[[a|e] st'] evs]; simpl; [|reflexivity].
  now destruct (f a st') as [[c st''] evs'].
Qed.

Lemma bind_ret {A B} (a : A) (f : A -> M B) st : bind (ret a) f st = f a st.
Proof. rewrite bind_run. simpl. apply after_nil. Qed.

Lemma bind_console_error {B} message (f : unit -> M B) st :
  bind (console_error message) f st = after [Stderr message] (f tt st).
Proof. now rewrite bind_run. Qed.

Lemma bind_conversations_get {B} key (f : option (list value) -> M B) st :
  bind (conversations_get key) f st =
    f (match key_of key with
       | Some k => conversations st !! k
       | None => None
       end) st.
Proof. rewrite bind_run. simpl. apply after_nil. Qed.

Lemma bind_sdk {B} op params (f : value -> M B) st :
  bind (sdk op params) f st =
    let outcome := genAI (calls st) op params in
    let st' := {| conversations := conversations st; calls := S (calls st) |} in
    match outcome with
    | Normal result => after [Called op params outcome] (f result st')
    | Throw e => (Throw e, st', [Called op params outcome])
    end.
Proof. rewrite bind_run. simpl. now destruct (genAI (calls st) op params). Qed.

Lemma bind_if {A B} (b : bool) (m m' : M A) (f : A -> M B) st :
  bind (if b then m else m') f st = if b then bind m f st else bind m' f st.
Proof. now destruct b. Qed.

(** The payload is flagged as the error of a tool. *)
Definition isError (response : MCPResponse) : bool :=
  match resp_body response with
  | Result result => truthy (GetOpt result "isError")
  | RpcError _ _ => false
  end.

(** The transcript that [generateText] reads for a conversation
    identifier: nothing for a falsy one. *)
Definition history_of (st : Store) (conversationId : value) : list value :=
  if truthy conversationId then
    default [] (match key_of conversationId with
                | Some k => conversations st !! k
                | None => None
                end)
  else [].

(** The store after a successful [generateText]. *)
Definition remember (st : Store) (conversationId prompt text : value) : Store :=
  {| conversations :=
       if truthy conversationId then
         match key_of conversationId with
         | Some k =>
             <[k := history_of st conversationId ++ [user_turn prompt; model_turn text]]>
               (conversations st)
         | None => conversations st
         end
       else conversations st;
     calls := S (calls st) |}.

Ltac failed_step H Hok :=
  solve [ cbn in H; injection H as <- <- <-; discriminate Hok ].

(** A [generateText] that answers without the error flag: the model was
    found, the SDK was called once, with the stored turns of the
    conversation followed by the new user turn, it returned a result,
    and the user turn and the model turn were appended to the
    conversation. *)
Lemma generateText_success id args st response st' evs :
  generateText id args st = (Normal response, st', evs) ->
  isError response = false ->
  exists requested modelInfo prompt conversationId config result produced,
    let model := or_else requested (VStr DEFAULT_MODEL) in
    let text := or_else produced (VStr "") in
    let contents := history_of st conversationId ++ [user_turn prompt] in
    let params :=
      VObj [("model", model); ("contents", VArr contents); ("config", config)] in
    Get args "model" = Normal requested
    /\ truthy modelInfo = true
    /\ Get args "prompt" = Normal prompt
    /\ Get args "conversationId" = Normal conversationId
    /\ generateText_config args modelInfo = Normal config
    /\ genAI (calls st) models_generateContent params = Normal result
    /\ Get result "text" = Normal produced
    /\ evs = [Called models_generateContent params (Normal result)]
    /\ st' = remember st conversationId prompt text
    /\ exists metadata,
         resp_body response =
           Result (VObj [("content", text_content text); ("metadata", metadata)]).
Proof.
  intros H Hok. unfold generateText, try_catch, generateText_try in H.
  rewrite bind_lift in H.
  destruct (Get args "model") as [requested|] eqn:Hmodel; [|failed_step H Hok].
  cbv zeta in H. rewrite bind_lift in H.
  destruct (ToString (or_else requested (VStr DEFAULT_MODEL))) as [key|] eqn:Hkey;
    [|failed_step H Hok].
  rewrite bind_lift in H.
  destruct (Get GEMINI_MODELS key) as [modelInfo|] eqn:Hinfo; [|failed_step H Hok].
  destruct (truthy modelInfo) eqn:Htruthy; cbn [negb] in H;
    [|rewrite bind_lift in H; failed_step H Hok].
  rewrite bind_lift in H.
  destruct (Get args "prompt") as [prompt|] eqn:Hprompt; [|failed_step H Hok].
  rewrite bind_lift in H.
  destruct (Get args "conversationId") as [conversationId|] eqn:Hcid;
    [|failed_step H Hok].
  assert (Hcontents :
    forall B (f : list value -> M B) st0,
      bind (if truthy conversationId
            then stored <- conversations_get conversationId ;;
                 ret (if (0 <? length (default [] stored))%nat
                      then default [] stored ++ [user_turn prompt]
                      else [user_turn prompt])
            else ret [user_turn prompt]) f st0
      = f (history_of st0 conversationId ++ [user_turn prompt]) st0).
  { intros B f st0. unfold history_of.
    destruct (truthy conversationId); [|now rewrite bind_ret].
    rewrite bind_run. simpl. rewrite after_nil.
    now destruct (default [] _). }
  rewrite Hcontents in H. rewrite bind_lift in H.
  destruct (generateText_config args modelInfo) as [config|] eqn:Hconfig;
    [|failed_step H Hok].
  rewrite bind_sdk in H. cbv zeta in H.
  destruct (genAI (calls st) models_generateContent _) as [result|] eqn:Hcall;
    [|failed_step H Hok].
  rewrite bind_lift in H.
  destruct (Get result "text") as [produced|] eqn:Htext; [|failed_step H Hok].
  rewrite bind_lift in H.
  destruct (Get_defined _ _ _ "usageMetadata" Htext) as [usageMetadata Husage].
  destruct (Get_defined _ _ _ "candidates" Htext) as [candidates Hcandidates].
  exists requested, modelInfo, prompt, conversationId, config, result, produced.
  cbv zeta. repeat (split; [assumption || reflexivity|]).
  clear Hcontents. unfold remember, history_of in *.
  unfold bind, lift, ret, conversations_get, conversations_set, after in H.
  rewrite Husage, Hcandidates in H.
  destruct (truthy conversationId); cbn in H; injection H as <- <- <-;
    (split; [reflexivity|]); (split; [reflexivity|]); eauto.
Qed.

(** ** Conversations *)

(** The [contents] of the calls of [generateContent] among the events. *)
Definition contents_sent (evs : list event) : list (list value) :=
  omap (fun ev =>
          match ev with
          | Called models_generateContent params _ =>
              match GetOpt params "contents" with
              | VArr turns => Some turns
              | _ => None
              end
          | _ => None
          end) evs.

(** The text that a response carries in its content. *)
Definition content_text (response : MCPResponse) : value :=
  match resp_body response with
  | Result result => GetOpt (GetOpt (GetOpt result "content") "0") "text"
  | RpcError _ _ => VUndef
  end.


(** ** The roles of the stored turns *)

Definition role_of (turn : value) : value := GetOpt turn "role".

Definition user_or_model (turn : value) : Prop :=
  role_of turn = VStr "user" \/ role_of turn = VStr "model".

(** Every turn of every stored conversation is a user turn or a model
    turn. *)
Definition roles_ok (st : Store) : Prop :=
  forall k, Forall user_or_model (default [] (conversations st !! k)).

(** [st'] holds the conversations of [st], some of them with user and
    model turns appended. *)
Definition extends (st st' : Store) : Prop :=
  forall k, exists added,
    default [] (conversations st' !! k) = default [] (conversations st !! k) ++ added
    /\ Forall user_or_model added.

Lemma extends_same st st' : conversations st' = conversations st -> extends st st'.
Proof. intros H k. exists []. rewrite H, app_nil_r. auto. Qed.

Lemma extends_trans st st' st'' : extends st st' -> extends st' st'' -> extends st st''.
Proof.
  intros H1 H2 k. destruct (H1 k) as (a1 & E1 & F1), (H2 k) as (a2 & E2 & F2).
  exists (a1 ++ a2). rewrite E2, E1, <- app_assoc. split; [reflexivity|].
  apply Forall_app. auto.
Qed.

Lemma extends_roles_ok st st' : extends st st' -> roles_ok st -> roles_ok st'.
Proof.
  intros H Hok k. destruct (H k) as (added & -> & Hadded).
  apply Forall_app. auto.
Qed.

Definition transforms {A} (m : M A) : Prop := forall st, extends st (m st).1.2.

Lemma transforms_same {A} (m : M A) :
  (forall st, conversations (m st).1.2 = conversations st) -> transforms m.
Proof. intros H st. apply extends_same, H. Qed.

Lemma transforms_bind {A B} (m : M A) (f : A -> M B) :
  transforms m -> (forall a, transforms (f a)) -> transforms (bind m f).
Proof.
  intros Hm Hf st. unfold bind. specialize (Hm st).
  destruct (m st) as [[[a|e] st'] evs]; simpl in *; [|exact Hm].
  specialize (Hf a st'). destruct (f a st') as [[c st''] evs']; simpl in *.
  eapply extends_trans; eauto.
Qed.

Lemma transforms_try {A} (body : M A) handler :
  transforms body -> (forall e, transforms (handler e)) ->
  transforms (try_catch body handler).
Proof.
  intros Hb Hh st. unfold try_catch. specialize (Hb st).
  destruct (body st) as [[[a|e] st'] evs]; simpl in *; [exact Hb|].
  specialize (Hh e st'). destruct (handler e st') as [[c st''] evs']; simpl in *.
  eapply extends_trans; eauto.
Qed.

(** The update of the conversation at the end of [generateText]. *)
Lemma transforms_append key (c : completion value) text :
  transforms (stored <- conversations_get key ;;
              prompt <- lift c ;;
              conversations_set key
                (default [] stored ++ [user_turn prompt; model_turn text])).
Proof.
  intros st. rewrite bind_conversations_get, bind_lift.
  destruct c as [prompt|]; [|now apply extends_same].
  unfold conversations_set. cbn [fst snd conversations].
  destruct (key_of key) as [k|]; [|now apply extends_same].
  intros k'. destruct (decide (k = k')) as [<-|Hne].
  - cbn [conversations]. rewrite lookup_insert_eq. eexists. split; [reflexivity|].
    constructor; [left; reflexivity|].
    constructor; [right; reflexivity|constructor].
  - cbn [conversations]. rewrite lookup_insert_ne by exact Hne.
    exists []. now rewrite app_nil_r.
Qed.

Ltac transforms_step :=
  lazymatch goal with
  | |- transforms (bind (conversations_get _)
                     (fun _ => bind (lift _) (fun _ => conversations_set _ _))) =>
      apply transforms_append
  | |- transforms (bind _ _) => apply transforms_bind; [|intros ?]
  | |- transforms (try_catch _ _) => apply transforms_try; [|intros ?]
  | |- transforms (if ?b then _ else _) => destruct b eqn:?
  | |- transforms (match ?x with _ => _ end) => destruct x eqn:?
  | |- transforms _ => apply transforms_same; intros ?; reflexivity
  end.

Lemma generateText_transforms id args : transforms (generateText id args).
Proof. unfold generateText, generateText_try. repeat transforms_step. Qed.

Lemma analyzeImage_transforms id args : transforms (analyzeImage id args).
Proof. unfold analyzeImage, analyzeImage_try. repeat transforms_step. Qed.

Lemma countTokens_transforms id args : transforms (countTokens id args).
Proof. unfold countTokens, countTokens_try. repeat transforms_step. Qed.

Lemma embedText_transforms id args : transforms (embedText id args).
Proof. unfold embedText, embedText_try. repeat transforms_step. Qed.

Lemma handleToolCall_transforms request : transforms (handleToolCall request).
Proof.
  unfold handleToolCall.
  repeat lazymatch goal with
    | |- transforms (generateText _ _) => apply generateText_transforms
    | |- transforms (analyzeImage _ _) => apply analyzeImage_transforms
    | |- transforms (countTokens _ _) => apply countTokens_transforms
    | |- transforms (embedText _ _) => apply embedText_transforms
    | |- _ => transforms_step
    end.
Qed.

Lemma handleResourceRead_transforms request : transforms (handleResourceRead request).
Proof. unfold handleResourceRead. repeat transforms_step. Qed.

Lemma handleRequest_transforms request : transforms (handleRequest request).
Proof.
  unfold handleRequest, route, result_of, sendResponse, stdout_write.
  repeat lazymatch goal with
    | |- transforms (bind (handleToolCall _) _) =>
        apply transforms_bind; [apply handleToolCall_transforms|intros ?]
    | |- transforms (bind (handleResourceRead _) _) =>
        apply transforms_bind; [apply handleResourceRead_transforms|intros ?]
    | |- _ => transforms_step
    end.
Qed.

Lemma on_line_extends line st : extends st (on_line line st).1.2.
Proof.
  unfold on_line. destruct (truthy _); [|now apply extends_same].
  destruct (JSON_parse line) as [request|]; [|now apply extends_same].
  pose proof (handleRequest_transforms request st) as H.
  now destruct (handleRequest request st) as [[[[]|e] st'] evs].
Qed.

Lemma serve_extends lines : forall st, extends st (serve lines st).1.2.
Proof.
  induction lines as [|line rest IH]; intros st; simpl; [now apply extends_same|].
  pose proof (on_line_extends line st) as H.
  destruct (on_line line st) as [[[] st'] evs]; simpl in *; [|exact H].
  specialize (IH st'). destruct (serve rest st') as [[s st''] evs']; simpl in *.
  eapply extends_trans; eauto.
Qed.

(** C8, as the code has it.  The turns that the server stores have the
    role [user] or the role [model]: that holds of every conversation
    after any input, and a successful [generate_text] call that carries
    a non-empty conversation identifier appends two turns to its
    conversation, the user turn of role [user] and then the turn of the
    reply, of role [model]. *)
Theorem C8_stored_turns_are_user_or_model :
  (forall lines, roles_ok (serve lines new_store).1.2)
  /\ (forall id args cid prompt st response st' evs,
         Get args "conversationId" = Normal (VStr cid) ->
         cid <> "" ->
         Get args "prompt" = Normal prompt ->
         generateText id args st = (Normal response, st', evs) ->
         isError response = false ->
         conversations st' !! KStr cid
           = Some (default [] (conversations st !! KStr cid)
                     ++ [user_turn prompt; model_turn (content_text response)])
         /\ role_of (user_turn prompt) = VStr "user"
         /\ role_of (model_turn (content_text response)) = VStr "model").
Proof.
  split.
  - intros lines. apply (extends_roles_ok new_store); [apply serve_extends|].
    intros k. unfold new_store. cbn. rewrite lookup_empty. constructor.
  - intros id args cid prompt st response st' evs Hcid Hne Hprompt Hrun Hok.
    assert (Htruthy : truthy (VStr cid) = true)
      by (simpl; apply negb_true_iff, String.eqb_neq, Hne).
    destruct (generateText_success _ _ _ _ _ _ Hrun Hok)
      as (requested & info & p & c & config & result & produced & H).
    cbv zeta in H.
    destruct H as (_ & _ & Hp & Hc & _ & _ & _ & _ & -> & metadata & Hbody).
    assert (p = prompt) as -> by congruence.
    assert (c = VStr cid) as -> by congruence.
    assert (Htext : content_text response = or_else produced (VStr "")).
    { unfold content_text. now rewrite Hbody. }
    rewrite Htext. split; [|split; reflexivity].
    unfold remember, history_of. rewrite Htruthy. cbn [key_of conversations].
    now rewrite lookup_insert_eq.
Qed.

(** ** What the tools check *)

Lemma bind_contents {B} conversationId prompt (f : list value -> M B) st :
  bind (if truthy conversationId
        then stored <- conversations_get conversationId ;;
             ret (if (0 <? length (default [] stored))%nat
                  then default [] stored ++ [user_turn prompt]
                  else [user_turn prompt])
        else ret [user_turn prompt]) f st
  = f (history_of st conversationId ++ [user_turn prompt]) st.
Proof.
  unfold history_of.
  destruct (truthy conversationId); [|now rewrite bind_ret].
  rewrite bind_run. simpl. rewrite after_nil.
  now destruct (default [] _).
Qed.

(** [generateText] when every step succeeds, whatever the prompt is. *)
Lemma generateText_accepts
    id args requested key modelInfo prompt conversationId config result produced st :
  let model := or_else requested (VStr DEFAULT_MODEL) in
  let text := or_else produced (VStr "") in
  let params :=
    VObj [ ("model", model);
           ("contents", VArr (history_of st conversationId ++ [user_turn prompt]));
           ("config", config) ] in
  Get args "model" = Normal requested ->
  ToString model = Normal key ->
  Get GEMINI_MODELS key = Normal modelInfo ->
  truthy modelInfo = true ->
  Get args "prompt" = Normal prompt ->
  Get args "conversationId" = Normal conversationId ->
  generateText_config args modelInfo = Normal config ->
  genAI (calls st) models_generateContent params = Normal result ->
  Get result "text" = Normal produced ->
  exists response,
    generateText id args st =
      (Normal response, remember st conversationId prompt text,
       [Called models_generateContent params (Normal result)])
    /\ isError response = false
    /\ content_text response = text.
Proof.
  intros model text params Hmodel Hkey Hinfo Htruthy Hprompt Hcid Hconfig Hcall Htext.
  subst model text params.
  destruct (Get_defined _ _ _ "usageMetadata" Htext) as [usageMetadata Husage].
  destruct (Get_defined _ _ _ "candidates" Htext) as [candidates Hcandidates].
  eexists. unfold generateText, try_catch, generateText_try.
  rewrite bind_lift, Hmodel. cbv zeta.
  rewrite bind_lift, Hkey, bind_lift, Hinfo, Htruthy. cbn [negb].
  rewrite bind_lift, Hprompt, bind_lift, Hcid, bind_contents.
  rewrite bind_lift, Hconfig, bind_sdk. cbv zeta. rewrite Hcall.
  rewrite bind_lift, Htext, bind_lift.
  unfold remember, history_of.
  unfold bind, lift, ret, conversations_get, conversations_set, after.
  rewrite Husage, Hcandidates.
  destruct (truthy conversationId); cbn; (split; [reflexivity|]); split; reflexivity.
Qed.

(** [analyzeImage] when an [imageUrl] is supplied and every step
    succeeds: the image part is made from the URL, whether an
    [imageBase64] is supplied too or not. *)
Lemma analyzeImage_accepts_url
    id args requested imageUrl url mediaResolution prompt result produced st :
  let model := or_else requested (VStr DEFAULT_MODEL) in
  let config :=
    if truthy mediaResolution
    then VObj [("mediaResolution", mediaResolution)] else VUndef in
  let params :=
    VObj [ ("model", model);
           ("contents",
            VArr [VObj [ ("parts",
                          VArr [ VObj [("text", prompt)];
                                 VObj [("text", VStr ("[Image URL: " +:+ url +:+ "]"))] ]);
                         ("role", VStr "user") ]]);
           ("config", config) ] in
  Get args "model" = Normal requested ->
  Get args "imageUrl" = Normal imageUrl ->
  truthy imageUrl = true ->
  ToString imageUrl = Normal url ->
  Get args "mediaResolution" = Normal mediaResolution ->
  Get args "prompt" = Normal prompt ->
  genAI (calls st) models_generateContent params = Normal result ->
  Get result "text" = Normal produced ->
  analyzeImage id args st =
    (Normal {| resp_id := id;
               resp_body :=
                 Result (VObj [("content", text_content (or_else produced (VStr "")))]) |},
     {| conversations := conversations st; calls := S (calls st) |},
     [Called models_generateContent params (Normal result)]).
Proof.
  intros model config params Hmodel Hurl Htruthy Hshown Hmr Hprompt Hcall Htext.
  subst model params.
  unfold analyzeImage, try_catch, analyzeImage_try.
  rewrite bind_lift, Hmodel. cbv zeta.
  rewrite bind_lift, Hurl, Htruthy. cbn [negb].
  rewrite bind_ret, bind_lift, Htruthy, bind_run.
  rewrite bind_lift, Hshown. cbn [ret fst snd]. rewrite after_nil.
  rewrite bind_lift, Hmr, bind_lift, Hprompt, bind_sdk. cbv zeta.
  assert (Hconfig :
    (if (0 <? length (Object_keys (if truthy mediaResolution
                                   then VObj [("mediaResolution", mediaResolution)]
                                   else VObj [])))%nat
     then (if truthy mediaResolution
           then VObj [("mediaResolution", mediaResolution)] else VObj [])
     else VUndef) = config).
  { unfold config. now destruct (truthy mediaResolution). }
  rewrite Hconfig, Hcall, bind_lift, Htext. reflexivity.
Qed.

(** [analyzeImage] when neither an [imageUrl] nor an [imageBase64] is
    supplied. *)
Lemma analyzeImage_rejects_no_image id args imageUrl imageBase64 st :
  Get args "imageUrl" = Normal imageUrl ->
  truthy imageUrl = false ->
  Get args "imageBase64" = Normal imageBase64 ->
  truthy imageBase64 = false ->
  analyzeImage id args st =
    (Normal {| resp_id := id;
               resp_body :=
                 Result (tool_error
                           "Image analysis failed: Either imageUrl or imageBase64 must be provided") |},
     st, [Stderr "Error in analyzeImage:"]).
Proof.
  intros Hurl Hnourl Hb64 Hnob64.
  destruct (Get_defined _ _ _ "model" Hurl) as [requested Hmodel].
  unfold analyzeImage, try_catch, analyzeImage_try.
  rewrite bind_lift, Hmodel. cbv zeta.
  rewrite bind_lift, Hurl, Hnourl. cbn [negb].
  rewrite bind_run, bind_lift, Hb64, Hnob64. reflexivity.
Qed.

(** A tool with a [catch] always answers, and with a result. *)
Lemma tool_returns {A} (body : M A) (report : thrown -> A) label st :
  exists a st' evs,
    try_catch body (fun error => console_error label ;; ret (report error)) st
      = (Normal a, st', evs).
Proof.
  unfold try_catch. destruct (body st) as [[[a|e] st'] evs]; simpl; eauto.
Qed.

Definition is_result (response : MCPResponse) : Prop :=
  exists result, resp_body response = Result result.

Lemma generateText_is_result id args : ensures is_result (generateText id args).
Proof. unfold generateText, generateText_try. ensures_auto; unfold is_result; simpl; eauto. Qed.

Lemma analyzeImage_is_result id args : ensures is_result (analyzeImage id args).
Proof. unfold analyzeImage, analyzeImage_try. ensures_auto; unfold is_result; simpl; eauto. Qed.

(** ** Failures, as the caller sees them *)





(** C6, as the code has it.  An [analyze_image] call that supplies
    neither [imageUrl] nor [imageBase64] is rejected by the server,
    without a call of the provider, with a result flagged as an error.
    When an [imageUrl] is supplied the call is served from it, whether
    an [imageBase64] comes with it or not.  [generate_text] does not
    look at its prompt: whatever it is, also [undefined], it is sent to
    the provider in the user turn, and the call succeeds when every
    step does.  Both tools always answer with a result, never with an
    RPC error. *)
Theorem C6_only_a_missing_image_is_rejected :
  (forall id args imageUrl imageBase64 st,
      Get args "imageUrl" = Normal imageUrl ->
      truthy imageUrl = false ->
      Get args "imageBase64" = Normal imageBase64 ->
      truthy imageBase64 = false ->
      exists response,
        analyzeImage id args st = (Normal response, st, [Stderr "Error in analyzeImage:"])
        /\ isError response = true
        /\ resp_body response =
             Result (tool_error
                       "Image analysis failed: Either imageUrl or imageBase64 must be provided"))
  /\ (forall id args requested imageUrl url mediaResolution prompt result produced st,
         Get args "model" = Normal requested ->
         Get args "imageUrl" = Normal imageUrl ->
         truthy imageUrl = true ->
         ToString imageUrl = Normal url ->
         Get args "mediaResolution" = Normal mediaResolution ->
         Get args "prompt" = Normal prompt ->
         genAI (calls st) models_generateContent
           (VObj [ ("model", or_else requested (VStr DEFAULT_MODEL));
                   ("contents",
                    VArr [VObj [ ("parts",
                                  VArr [ VObj [("text", prompt)];
                                         VObj [("text",
                                                VStr ("[Image URL: " +:+ url +:+ "]"))] ]);
                                 ("role", VStr "user") ]]);
                   ("config",
                    if truthy mediaResolution
                    then VObj [("mediaResolution", mediaResolution)] else VUndef) ])
           = Normal result ->
         Get result "text" = Normal produced ->
         exists response st' evs,
           analyzeImage id args st = (Normal response, st', evs)
           /\ isError response = false)
  /\ (forall id args requested key modelInfo prompt conversationId config result produced st,
         Get args "model" = Normal requested ->
         ToString (or_else requested (VStr DEFAULT_MODEL)) = Normal key ->
         Get GEMINI_MODELS key = Normal modelInfo ->
         truthy modelInfo = true ->
         Get args "prompt" = Normal prompt ->
         Get args "conversationId" = Normal conversationId ->
         generateText_config args modelInfo = Normal config ->
         genAI (calls st) models_generateContent
           (VObj [ ("model", or_else requested (VStr DEFAULT_MODEL));
                   ("contents",
                    VArr (history_of st conversationId ++ [user_turn prompt]));
                   ("config", config) ]) = Normal result ->
         Get result "text" = Normal produced ->
         exists response st' evs,
           generateText id args st = (Normal response, st', evs)
           /\ isError response = false
           /\ contents_sent evs = [history_of st conversationId ++ [user_turn prompt]])
  /\ (forall id args st,
         exists response st' evs,
           generateText id args st = (Normal response, st', evs) /\ is_result response)
  /\ (forall id args st,
         exists response st' evs,
           analyzeImage id args st = (Normal response, st', evs) /\ is_result response).
Proof.
  repeat split.
  - intros id args imageUrl imageBase64 st Hurl Hnourl Hb64 Hnob64.
    eexists. split; [now apply (analyzeImage_rejects_no_image id args imageUrl imageBase64)|].
    split; reflexivity.
  - intros id args requested imageUrl url mediaResolution prompt result produced st
      Hmodel Hurl Htruthy Hshown Hmr Hprompt Hcall Htext.
    eexists. eexists. eexists.
    split; [now apply (analyzeImage_accepts_url id args requested imageUrl url
                         mediaResolution prompt result produced)|reflexivity].
  - intros id args requested key modelInfo prompt conversationId config result produced st
      Hmodel Hkey Hinfo Htruthy Hprompt Hcid Hconfig Hcall Htext.
    destruct (generateText_accepts id args requested key modelInfo prompt conversationId
                config result produced st Hmodel Hkey Hinfo Htruthy Hprompt Hcid Hconfig
                Hcall Htext) as (response & Hrun & Hok & _).
    exists response. eexists. eexists. split; [exact Hrun|]. split; [exact Hok|].
    reflexivity.
  - intros id args st.
    destruct (tool_returns (generateText_try id args)
                (fun error =>
                   {| resp_id := id;
                      resp_body :=
                        Result (tool_error ("Error: " +:+ message_or "Internal error" error)) |})
                "Error in generateText:" st) as (response & st' & evs & Hrun).
    exists response, st', evs. split; [exact Hrun|].
    destruct (generateText_is_result id args st) as [_ H]. apply H.
    unfold generateText. now rewrite Hrun.
  - intros id args st.
    destruct (tool_returns (analyzeImage_try id args)
                (fun error =>
                   {| resp_id := id;
                      resp_body :=
                        Result (tool_error ("Image analysis failed: "
                                              +:+ message_or "Unknown error" error)) |})
                "Error in analyzeImage:" st) as (response & st' & evs & Hrun).
    exists response, st', evs. split; [exact Hrun|].
    destruct (analyzeImage_is_result id args st) as [_ H]. apply H.
    unfold analyzeImage. now rewrite Hrun.
Qed.

(** ** Lines that are no message *)

(** C9.  A line that is blank after trimming, or that [JSON.parse]
    rejects, leaves the store as it is and writes nothing to stdout (a
    rejected line is reported on stderr, a blank one nowhere); the
    server keeps running and serves the lines that follow exactly as it
    would have without that line. *)
Theorem C9_blank_and_unparsable_lines_are_skipped line rest st :
  trim line = "" \/ (exists e, JSON_parse line = Throw e) ->
  exists evs,
    on_line line st = (Running, st, evs)
    /\ evs = (if truthy (VStr (trim line)) then [Stderr "Failed to parse message:"] else [])
    /\ stdout_of evs = []
    /\ serve (line :: rest) st =
         ((serve rest st).1.1, (serve rest st).1.2, evs ++ (serve rest st).2)
    /\ stdout_of (serve (line :: rest) st).2 = stdout_of (serve rest st).2.
Proof.
  intros Hbad.
  assert (Hline : on_line line st =
                    (Running, st,
                     if truthy (VStr (trim line))
                     then [Stderr "Failed to parse message:"] else [])).
  { unfold on_line. destruct Hbad as [Hblank|[e Hparse]].
    - now rewrite Hblank.
    - rewrite Hparse. now destruct (truthy _). }
  eexists. split; [exact Hline|]. split; [reflexivity|].
  assert (Hquiet : stdout_of (if truthy (VStr (trim line))
                              then [Stderr "Failed to parse message:"] else []) = [])
    by now destruct (truthy _).
  split; [exact Hquiet|].
  assert (Hserve : serve (line :: rest) st =
                     ((serve rest st).1.1, (serve rest st).1.2,
                      (if truthy (VStr (trim line))
                       then [Stderr "Failed to parse message:"] else [])
                        ++ (serve rest st).2)).
  { cbn [serve]. rewrite Hline. now destruct (serve rest st) as [[s st'] evs']. }
  split; [exact Hserve|].
  rewrite Hserve. cbn [snd]. now rewrite stdout_of_app, Hquiet.
Qed.

(** ** The filters of [list_models] *)

Definition metadata_count (response : MCPResponse) : value :=
  match resp_body response with
  | Result result => GetOpt (GetOpt result "metadata") "count"
  | RpcError _ _ => VUndef
  end.

(** C10.  The filter [vision] keeps every model of the registry, since
    each of the five lists [function_calling] among its features: the
    models listed for [vision] are those listed for [all], and the two
    answers of [list_models] carry the same text and the count 5. *)
Theorem C10_vision_filter_lists_every_model id :
  listed_models (VStr "vision") = Normal (Object_entries GEMINI_MODELS)
  /\ listed_models (VStr "vision") = listed_models (VStr "all")
  /\ exists vision all,
       listModels id (VObj [("filter", VStr "vision")]) = Normal vision
       /\ listModels id (VObj [("filter", VStr "all")]) = Normal all
       /\ content_text vision = content_text all
       /\ metadata_count vision = vint 5
       /\ metadata_count all = vint 5.
Proof.
  split; [reflexivity|]. split; [reflexivity|].
  eexists. eexists. split; [reflexivity|]. split; [reflexivity|].
  split; [|split]; vm_compute; reflexivity.
Qed.

(** * Further properties of the router *)

(** The methods that the [switch] of [handleRequest] knows. *)
Definition known_methods : list string :=
  [ "initialize"; "tools/list"; "tools/call"; "resources/list";
    "resources/read"; "prompts/list"; "ping" ].

Lemma route_unknown_method request method st :
  Get request "method" = Normal method ->
  (forall known, In known known_methods -> is_str method known = false) ->
  route request st =
    bind (lift (HasProperty "id" request))
      (fun identified =>
         if negb identified then
           shown <- lift (m <~ Get request "method" ;; ToString m) ;;
           console_error ("Notification received: " +:+ shown) ;;
           ret None
         else
           id <- lift (Get request "id") ;;
           ret (Some {| resp_id := id;
                        resp_body := RpcError (-32601) "Method not found" |})) st.
Proof.
  intros Hm Hunknown. unfold route. rewrite bind_lift, Hm.
  rewrite !Hunknown by (simpl; auto 10). reflexivity.
Qed.

(** X1.  A request object with an [id] whose method is none of the seven
    known ones (also no string, also absent) is answered by the RPC error
    -32601 [Method not found]; nothing else happens: the store is as it
    was and the provider is not called. *)
Theorem X1_unknown_method_is_method_not_found props method id st :
  Get (VObj props) "method" = Normal method ->
  (forall known, In known known_methods -> is_str method known = false) ->
  own props "id" = Some id ->
  handleRequest (VObj props) st =
    (Normal tt, st,
     [ Stderr "Handling request:";
       Stdout (encode_line {| resp_id := id;
                              resp_body := RpcError (-32601) "Method not found" |}) ]).
Proof.
  intros Hm Hunknown Hown.
  destruct (own_id_identified _ _ Hown) as [Hid Hin].
  destruct (handleRequest_run (VObj props) method st Hm) as (id' & Hid' & ->).
  rewrite (route_unknown_method _ _ st Hm Hunknown).
  rewrite bind_lift, Hin. cbn [negb]. rewrite bind_lift, Hid. reflexivity.
Qed.

(** X2.  A message without [id] whose method is none of the known ones is
    a notification: it is logged on stderr and gets no response; the
    store is as it was and the provider is not called. *)
Theorem X2_unknown_notification_is_not_answered props method shown st :
  Get (VObj props) "method" = Normal method ->
  (forall known, In known known_methods -> is_str method known = false) ->
  ToString method = Normal shown ->
  own props "id" = None ->
  handleRequest (VObj props) st =
    (Normal tt, st,
     [ Stderr "Handling request:"; Stderr ("Notification received: " +:+ shown) ]).
Proof.
  intros Hm Hunknown Hshown Hown.
  destruct (handleRequest_run (VObj props) method st Hm) as (id' & Hid' & ->).
  rewrite (route_unknown_method _ _ st Hm Hunknown).
  assert (Hin : HasProperty "id" (VObj props) = Normal false)
    by (simpl; now rewrite Hown).
  rewrite bind_lift, Hin. cbn [negb]. rewrite bind_lift, Hm. cbn [cbind].
  rewrite Hshown. reflexivity.
Qed.

(** ** Methods that use no state *)

(** A computation that returns the same and performs the same events in
    every store, leaves the store as it is and does not call the
    provider. *)
Definition stateless {A} (m : M A) : Prop :=
  exists c evs, calls_of evs = [] /\ forall st, m st = (c, st, evs).

Lemma stateless_ret {A} (a : A) : stateless (ret a).
Proof. exists (Normal a), []. auto. Qed.

Lemma stateless_throw {A} e : stateless (@throw A e).
Proof. exists (Throw e), []. auto. Qed.

Lemma stateless_lift {A} (c : completion A) : stateless (lift c).
Proof. exists c, []. auto. Qed.

Lemma stateless_console_error message : stateless (console_error message).
Proof. exists (Normal tt), [Stderr message]. auto. Qed.

Lemma stateless_stdout_write chunk : stateless (stdout_write chunk).
Proof. exists (Normal tt), [Stdout chunk]. auto. Qed.

Lemma stateless_bind {A B} (m : M A) (f : A -> M B) :
  stateless m -> (forall a, stateless (f a)) -> stateless (bind m f).
Proof.
  intros (c & evs & Hcalls & Hm) Hf. destruct c as [a|e].
  - destruct (Hf a) as (c' & evs' & Hcalls' & Hfa).
    exists c', (evs ++ evs'). split; [now rewrite calls_of_app, Hcalls, Hcalls'|].
    intros st. unfold bind. now rewrite Hm, Hfa.
  - exists (Throw e), evs. split; [exact Hcalls|].
    intros st. unfold bind. now rewrite Hm.
Qed.

Lemma stateless_try {A} (body : M A) handler :
  stateless body -> (forall e, stateless (handler e)) -> stateless (try_catch body handler).
Proof.
  intros (c & evs & Hcalls & Hb) Hh. destruct c as [a|e].
  - exists (Normal a), evs. split; [exact Hcalls|].
    intros st. unfold try_catch. now rewrite Hb.
  - destruct (Hh e) as (c' & evs' & Hcalls' & He).
    exists c', (evs ++ evs'). split; [now rewrite calls_of_app, Hcalls, Hcalls'|].
    intros st. unfold try_catch. now rewrite Hb, He.
Qed.

Ltac stateless_step :=
  lazymatch goal with
  | |- stateless (ret _) => apply stateless_ret
  | |- stateless (throw _) => apply stateless_throw
  | |- stateless (lift _) => apply stateless_lift
  | |- stateless (console_error _) => apply stateless_console_error
  | |- stateless (stdout_write _) => apply stateless_stdout_write
  | |- stateless (bind _ _) => apply stateless_bind; [|intros ?]
  | |- stateless (try_catch _ _) => apply stateless_try; [|intros ?]
  | |- stateless (if ?b then _ else _) => destruct b eqn:?
  | |- stateless (match ?x with _ => _ end) => destruct x eqn:?
  end.

Lemma handleResourceRead_stateless request : stateless (handleResourceRead request).
Proof. unfold handleResourceRead. repeat stateless_step. Qed.

Lemma stateless_bind_lift_eq {A B} (c : completion A) a (f : A -> M B) :
  c = Normal a -> stateless (f a) -> stateless (bind (lift c) f).
Proof.
  intros -> (c' & evs & Hcalls & H). exists c', evs. split; [exact Hcalls|].
  intros st. now rewrite bind_lift.
Qed.

(** X3.  Only [tools/call] uses the state of the server.  The handling of
    a request object of any other method (known or not) leaves the store
    as it is, does not call the provider, and writes the same in every
    store: no method waits for an [initialize]. *)
Theorem X3_methods_other_than_tools_call_are_stateless props method :
  Get (VObj props) "method" = Normal method ->
  is_str method "tools/call" = false ->
  forall st,
    (handleRequest (VObj props) st).1.2 = st
    /\ calls_of (handleRequest (VObj props) st).2 = []
    /\ forall st', (handleRequest (VObj props) st').2 = (handleRequest (VObj props) st).2.
Proof.
  intros Hm Hother.
  assert (H : stateless (handleRequest (VObj props))).
  { unfold handleRequest, sendResponse.
    apply stateless_bind; [apply stateless_lift|intros _].
    apply stateless_bind; [apply stateless_console_error|intros _].
    apply stateless_try; [|intros e; repeat stateless_step].
    apply stateless_bind; [|intros ?; repeat stateless_step].
    unfold route, result_of.
    apply (stateless_bind_lift_eq _ method); [exact Hm|].
    repeat first
      [ congruence
      | lazymatch goal with
        | |- stateless (bind (handleResourceRead _) _) =>
            apply stateless_bind; [apply handleResourceRead_stateless|intros ?]
        | |- _ => stateless_step
        end ]. }
  destruct H as (c & evs & Hcalls & H). intros st.
  rewrite !H. simpl. split; [reflexivity|]. split; [exact Hcalls|].
  intros st'. now rewrite H.
Qed.

(** ** Resources *)

(** The URIs of the resources of the registry. *)
Definition resource_uris : list string :=
  omap (fun entry => match GetOpt entry "uri" with
                     | VStr uri => Some uri
                     | _ => None
                     end)
       (match getAvailableResources with VArr entries => entries | _ => [] end).

Lemma route_resources_read request st :
  Get request "method" = Normal (VStr "resources/read") ->
  route request st =
    (match (handleResourceRead request st).1.1 with
     | Normal response => Normal (Some response)
     | Throw e => Throw e
     end, (handleResourceRead request st).1.2, (handleResourceRead request st).2).
Proof.
  intros Hm. unfold route, bind at 1. unfold lift at 1. rewrite Hm.
  cbn [is_str String.eqb Ascii.eqb Bool.eqb]. unfold bind, ret.
  destruct (handleResourceRead request st) as [[[response|e] st'] evs]; simpl;
    rewrite ?app_nil_r; reflexivity.
Qed.

(** What [handleRequest] does with a [resources/read] that
    [handleResourceRead] answers without an event. *)
Lemma handleRequest_resources_read props response st :
  own props "method" = Some (VStr "resources/read") ->
  handleResourceRead (VObj props) st = (Normal response, st, []) ->
  handleRequest (VObj props) st =
    (Normal tt, st, [Stderr "Handling request:"; Stdout (encode_line response)]).
Proof.
  intros Hmethod Hread.
  assert (Hm : Get (VObj props) "method" = Normal (VStr "resources/read"))
    by (simpl; now rewrite Hmethod).
  destruct (handleRequest_run (VObj props) _ st Hm) as (id & _ & ->).
  now rewrite (route_resources_read _ st Hm), Hread.
Qed.

(** X4.  A [resources/read] without a URI (no [params], no [uri], or a
    falsy one such as the empty string) is answered by the RPC error
    -32602 [Missing required parameter: uri]. *)
Theorem X4_resource_read_without_uri props params id st :
  own props "method" = Some (VStr "resources/read") ->
  Get (VObj props) "params" = Normal params ->
  truthy (GetOpt params "uri") = false ->
  own props "id" = Some id ->
  handleRequest (VObj props) st =
    (Normal tt, st,
     [ Stderr "Handling request:";
       Stdout (encode_line
                 {| resp_id := id;
                    resp_body := RpcError (-32602) "Missing required parameter: uri" |}) ]).
Proof.
  intros Hmethod Hparams Hfalsy Hown.
  destruct (own_id_identified _ _ Hown) as [Hid _].
  apply handleRequest_resources_read; [exact Hmethod|].
  unfold handleResourceRead. rewrite bind_lift, Hparams. cbv zeta.
  rewrite Hfalsy. cbn [negb]. now rewrite bind_lift, Hid.
Qed.

(** X5.  A [resources/read] of a URI that is a string but none of the
    URIs of the registry is answered by the RPC error -32602
    [Unknown resource: uri]. *)
Theorem X5_unknown_resource_is_invalid_params props params uri id st :
  own props "method" = Some (VStr "resources/read") ->
  own props "params" = Some (VObj params) ->
  own params "uri" = Some (VStr uri) ->
  uri <> "" ->
  ~ In uri resource_uris ->
  own props "id" = Some id ->
  handleRequest (VObj props) st =
    (Normal tt, st,
     [ Stderr "Handling request:";
       Stdout (encode_line
                 {| resp_id := id;
                    resp_body := RpcError (-32602) ("Unknown resource: " +:+ uri) |}) ]).
Proof.
  intros Hmethod Hparams Huri Hne Hnot Hown.
  destruct (own_id_identified _ _ Hown) as [Hid _].
  apply handleRequest_resources_read; [exact Hmethod|].
  assert (Hp : Get (VObj props) "params" = Normal (VObj params))
    by (simpl; now rewrite Hparams).
  assert (Hu : GetOpt (VObj params) "uri" = VStr uri) by (simpl; now rewrite Huri).
  assert (Htruthy : truthy (VStr uri) = true)
    by (simpl; apply negb_true_iff, String.eqb_neq, Hne).
  unfold handleResourceRead. rewrite bind_lift, Hp. cbv zeta.
  rewrite Hu, Htruthy. cbn [negb is_str].
  rewrite !(eqb_of_not_In uri resource_uris) by (assumption || (simpl; auto 10)).
  now rewrite bind_lift, Hid.
Qed.

(** X6.  Every resource that [resources/list] lists can be read: a
    [resources/read] of its URI is answered by a result with one content,
    which carries that URI and the MIME type that the list gives. *)
Theorem X6_listed_resources_can_be_read props params entry id st :
  In entry (match getAvailableResources with VArr entries => entries | _ => [] end) ->
  own props "method" = Some (VStr "resources/read") ->
  own props "params" = Some (VObj params) ->
  own params "uri" = Some (GetOpt entry "uri") ->
  own props "id" = Some id ->
  exists text,
    handleRequest (VObj props) st =
      (Normal tt, st,
       [ Stderr "Handling request:";
         Stdout (encode_line
                   {| resp_id := id;
                      resp_body :=
                        Result (VObj [("contents",
                                       VArr [VObj [ ("uri", GetOpt entry "uri");
                                                    ("mimeType", GetOpt entry "mimeType");
                                                    ("text", VStr text) ]])]) |}) ]).
Proof.
  intros Hentry Hmethod Hparams Huri Hown.
  destruct (own_id_identified _ _ Hown) as [Hid _].
  assert (Hp : Get (VObj props) "params" = Normal (VObj params))
    by (simpl; now rewrite Hparams).
  assert (Hu : GetOpt (VObj params) "uri" = GetOpt entry "uri")
    by (simpl; now rewrite Huri).
  simpl in Hentry.
  repeat destruct Hentry as [<-|Hentry]; try contradiction;
    eexists; (apply handleRequest_resources_read; [exact Hmethod|]);
    unfold handleResourceRead; rewrite bind_lift, Hp; cbv zeta; rewrite Hu, Hid;
    cbn [GetOpt Get resource own String.eqb Ascii.eqb Bool.eqb truthy negb is_str];
    rewrite bind_lift; reflexivity.
Qed.

(** ** The filters of [list_models], for every argument *)

Definition without_model (name : string) (entries : list (string * value))
  : list (string * value) :=
  List.filter (fun entry => negb (String.eqb (fst entry) name)) entries.

Lemma is_str_true v literal : is_str v literal = true -> v = VStr literal.
Proof.
  destruct v; simpl; try discriminate. intros H. apply String.eqb_eq in H. now subst.
Qed.

(** The models listed for a filter: all of them, but for the filter
    [grounding], which leaves out the one model without that feature. *)
Lemma listed_models_by_filter filter :
  listed_models filter =
    Normal (if is_str filter "grounding"
            then without_model "gemini-2.5-flash-lite" (Object_entries GEMINI_MODELS)
            else Object_entries GEMINI_MODELS).
Proof.
  unfold listed_models, model_matches.
  destruct (is_str filter "all") eqn:Hall.
  { apply is_str_true in Hall. subst. reflexivity. }
  destruct (is_str filter "thinking") eqn:Hthinking.
  { apply is_str_true in Hthinking. subst. reflexivity. }
  destruct (is_str filter "vision") eqn:Hvision.
  { apply is_str_true in Hvision. subst. reflexivity. }
  destruct (is_str filter "grounding") eqn:Hgrounding; [reflexivity|].
  destruct (is_str filter "json_mode") eqn:Hjson; reflexivity.
Qed.

Lemma listModels_run id args :
  let filter := or_else (GetOpt args "filter") (VStr "all") in
  let models :=
    if is_str filter "grounding"
    then without_model "gemini-2.5-flash-lite" (Object_entries GEMINI_MODELS)
    else Object_entries GEMINI_MODELS in
  listModels id args =
    Normal {| resp_id := id;
              resp_body :=
                Result (VObj [ ("content",
                                text_content
                                  (VStr (text_of (JSON_stringify_pretty
                                                    (VArr (map with_name models))))));
                               ("metadata",
                                VObj [ ("count", vint (Z.of_nat (length models)));
                                       ("filter", filter) ]) ]) |}.
Proof.
  intros filter models. unfold listModels. fold filter.
  rewrite listed_models_by_filter. fold models. cbn [cbind].
  now rewrite length_map.
Qed.

(** X7.  [list_models] answers for every argument, also none and also one
    that is no object, with a result: it lists the five models of the
    registry in their order, except for the filter [grounding], for which
    it lists the four that have that feature; every other filter value,
    known or not, lists all.  The count in the metadata is the number of
    the models listed. *)
Theorem X7_list_models_answers_for_every_filter id args :
  let filter := or_else (GetOpt args "filter") (VStr "all") in
  let models :=
    if is_str filter "grounding"
    then without_model "gemini-2.5-flash-lite" (Object_entries GEMINI_MODELS)
    else Object_entries GEMINI_MODELS in
  exists response,
    listModels id args = Normal response
    /\ resp_id response = id
    /\ content_text response = VStr (text_of (JSON_stringify_pretty (VArr (map with_name models))))
    /\ metadata_count response = vint (Z.of_nat (length models))
    /\ length models = (if is_str filter "grounding" then 4 else 5)%nat.
Proof.
  intros filter models. eexists. split; [apply listModels_run|].
  split; [reflexivity|]. split; [reflexivity|]. split; [reflexivity|].
  unfold models. now destruct (is_str filter "grounding").
Qed.

(** ** Registered tools *)

Lemma countTokens_is_result id args : ensures is_result (countTokens id args).
Proof. unfold countTokens, countTokens_try. ensures_auto; unfold is_result; simpl; eauto. Qed.

Lemma embedText_is_result id args : ensures is_result (embedText id args).
Proof. unfold embedText, embedText_try. ensures_auto; unfold is_result; simpl; eauto. Qed.

(** A tool with a [catch] answers, and what it answers has what the tool
    ensures. *)
Lemma tool_answers {A} (Q : A -> Prop) (body : M A) (report : thrown -> A) label st :
  ensures Q (try_catch body (fun error => console_error label ;; ret (report error))) ->
  exists a st' evs,
    try_catch body (fun error => console_error label ;; ret (report error)) st
      = (Normal a, st', evs)
    /\ Q a.
Proof.
  intros H. destruct (tool_returns body report label st) as (a & st' & evs & Hrun).
  exists a, st', evs. split; [exact Hrun|].
  destruct (H st) as [_ HQ]. apply HQ. now rewrite Hrun.
Qed.

Lemma ensures_and {A} (Q Q' : A -> Prop) (m : M A) :
  ensures Q m -> ensures Q' m -> ensures (fun a => Q a /\ Q' a) m.
Proof.
  intros H H' st. destruct (H st) as [H1 H2], (H' st) as [_ H2']. split; auto.
Qed.

(** X8.  A [tools/call] for one of the six names of the registry is
    always answered, whatever the arguments are and whatever the provider
    does, and with a result: the handler does not throw and the answer is
    no RPC error.  So the error -32602 of an unknown tool is given for the
    unregistered names only. *)
Theorem X8_registered_tools_answer_with_a_result props params name id st :
  own props "params" = Some (VObj params) ->
  own params "name" = Some (VStr name) ->
  In name tool_names ->
  own props "id" = Some id ->
  exists response st' evs,
    handleToolCall (VObj props) st = (Normal response, st', evs)
    /\ resp_id response = id
    /\ is_result response.
Proof.
  intros Hparams Hname Hin Hown.
  destruct (own_id_identified _ _ Hown) as [Hid _].
  assert (Hp : Get (VObj props) "params" = Normal (VObj params))
    by (simpl; now rewrite Hparams).
  assert (Hn : Get (VObj params) "name" = Normal (VStr name))
    by (simpl; now rewrite Hname).
  destruct (Get_defined _ _ _ "arguments" Hn) as [args Ha].
  unfold handleToolCall. rewrite bind_lift, Hp. cbv zeta.
  change (or_else (VObj params) (VObj [])) with (VObj params).
  rewrite bind_lift, Hn, bind_lift, Ha.
  rewrite tool_names_are in Hin. simpl in Hin.
  repeat destruct Hin as [<-|Hin]; try contradiction;
    cbn [is_str String.eqb Ascii.eqb Bool.eqb]; rewrite bind_lift, Hid.
  - apply (tool_answers (fun r => resp_id r = id /\ is_result r)).
    apply ensures_and; [apply generateText_ensures|apply generateText_is_result].
  - apply (tool_answers (fun r => resp_id r = id /\ is_result r)).
    apply ensures_and; [apply analyzeImage_ensures|apply analyzeImage_is_result].
  - apply (tool_answers (fun r => resp_id r = id /\ is_result r)).
    apply ensures_and; [apply countTokens_ensures|apply countTokens_is_result].
  - unfold lift. rewrite listModels_run. eexists. eexists. eexists.
    split; [reflexivity|]. split; [reflexivity|].
    unfold is_result. cbn [resp_body]. eauto.
  - apply (tool_answers (fun r => resp_id r = id /\ is_result r)).
    apply ensures_and; [apply embedText_ensures|apply embedText_is_result].
  - eexists. eexists. eexists. split; [reflexivity|]. split; [reflexivity|].
    unfold is_result. simpl. eauto.
Qed.


(** ** What a request changes *)

(** [keeps m]: [m] leaves every conversation as it was. *)
Definition keeps {A} (m : M A) : Prop :=
  forall st, conversations (m st).1.2 = conversations st.

Lemma keeps_bind {A B} (m : M A) (f : A -> M B) :
  keeps m -> (forall a, keeps (f a)) -> keeps (bind m f).
Proof.
  intros Hm Hf st. unfold bind. specialize (Hm st).
  destruct (m st) as [[[a|e] st'] evs]; simpl in *; [|exact Hm].
  specialize (Hf a st'). destruct (f a st') as [[c st''] evs']; simpl in *.
  congruence.
Qed.

Lemma keeps_bind_lift {A B} (c : completion A) (f : A -> M B) :
  (forall a, c = Normal a -> keeps (f a)) -> keeps (bind (lift c) f).
Proof.
  intros H st. rewrite bind_lift. destruct c as [a|e]; [now apply H|reflexivity].
Qed.

Lemma keeps_try {A} (body : M A) handler :
  keeps body -> (forall e, keeps (handler e)) -> keeps (try_catch body handler).
Proof.
  intros Hb Hh st. unfold try_catch. specialize (Hb st).
  destruct (body st) as [[[a|e] st'] evs]; simpl in *; [exact Hb|].
  specialize (Hh e st'). destruct (handler e st') as [[c st''] evs']; simpl in *.
  congruence.
Qed.

Ltac keeps_step :=
  lazymatch goal with
  | |- keeps (bind _ _) => apply keeps_bind; [|intros ?]
  | |- keeps (try_catch _ _) => apply keeps_try; [|intros ?]
  | |- keeps (if ?b then _ else _) => destruct b eqn:?
  | |- keeps (match ?x with _ => _ end) => destruct x eqn:?
  | |- keeps _ => intros ?; reflexivity
  end.

Lemma handleToolCall_keeps request :
  (forall params name,
      Get request "params" = Normal params ->
      Get (or_else params (VObj [])) "name" = Normal name ->
      is_str name "generate_text" = false) ->
  keeps (handleToolCall request).
Proof.
  intros H. unfold handleToolCall.
  apply keeps_bind_lift; intros params Hp. cbv zeta.
  apply keeps_bind_lift; intros name Hn.
  rewrite (H _ _ Hp Hn).
  unfold analyzeImage, analyzeImage_try, countTokens, countTokens_try,
    embedText, embedText_try.
  repeat keeps_step.
Qed.

(** X9.  Only [generate_text] writes to the conversations.  The handling
    of any other message (the other tools, whatever their arguments and
    whatever the provider answers, and every other method) leaves every
    conversation as it was. *)
Theorem X9_only_generate_text_writes_conversations request st :
  (forall params name,
      Get request "params" = Normal params ->
      Get (or_else params (VObj [])) "name" = Normal name ->
      is_str name "generate_text" = false) ->
  conversations (handleRequest request st).1.2 = conversations st.
Proof.
  intros H. revert st. change (keeps (handleRequest request)).
  unfold handleRequest, route, result_of, sendResponse, handleResourceRead.
  repeat lazymatch goal with
    | |- keeps (bind (handleToolCall _) _) =>
        apply keeps_bind; [now apply handleToolCall_keeps|intros ?]
    | |- _ => keeps_step
    end.
Qed.

(** A [generateText] that answers with the error flag has changed no
    conversation. *)
Lemma generateText_failure id args st response st' evs :
  generateText id args st = (Normal response, st', evs) ->
  isError response = true ->
  conversations st' = conversations st.
Proof.
  intros H Hflag. unfold generateText, try_catch, generateText_try in H.
  rewrite bind_lift in H.
  destruct (Get args "model") as [requested|] eqn:Hmodel;
    [|cbn in H; now injection H as <- <- <-].
  cbv zeta in H. rewrite bind_lift in H.
  destruct (ToString (or_else requested (VStr DEFAULT_MODEL))) as [key|] eqn:Hkey;
    [|cbn in H; now injection H as <- <- <-].
  rewrite bind_lift in H.
  destruct (Get GEMINI_MODELS key) as [modelInfo|] eqn:Hinfo;
    [|cbn in H; now injection H as <- <- <-].
  destruct (truthy modelInfo) eqn:Htruthy; cbn [negb] in H;
    [|rewrite bind_lift in H; cbn in H; now injection H as <- <- <-].
  rewrite bind_lift in H.
  destruct (Get args "prompt") as [prompt|] eqn:Hprompt;
    [|cbn in H; now injection H as <- <- <-].
  rewrite bind_lift in H.
  destruct (Get args "conversationId") as [conversationId|] eqn:Hcid;
    [|cbn in H; now injection H as <- <- <-].
  rewrite bind_contents in H. rewrite bind_lift in H.
  destruct (generateText_config args modelInfo) as [config|] eqn:Hconfig;
    [|cbn in H; now injection H as <- <- <-].
  rewrite bind_sdk in H. cbv zeta in H.
  destruct (genAI (calls st) models_generateContent _) as [result|] eqn:Hcall;
    [|cbn in H; now injection H as <- <- <-].
  rewrite bind_lift in H.
  destruct (Get result "text") as [produced|] eqn:Htext;
    [|cbn in H; now injection H as <- <- <-].
  rewrite bind_lift in H.
  destruct (Get_defined _ _ _ "usageMetadata" Htext) as [usageMetadata Husage].
  destruct (Get_defined _ _ _ "candidates" Htext) as [candidates Hcandidates].
  unfold bind, lift, ret, conversations_get, conversations_set, after in H.
  rewrite Husage, Hcandidates in H.
  destruct (truthy conversationId); cbn in H; injection H as <- <- <-;
    discriminate Hflag.
Qed.

(** X10.  What [generate_text] does to the conversations.  A call that
    answers with the error flag (unknown model, a rejection of the
    provider, an answer of the provider that is no object) has changed no
    conversation: the turns are stored only after the provider has
    answered.  A call changes no conversation but its own, and none at
    all when it carries no conversation identifier (or an empty one). *)
Theorem X10_generate_text_changes_its_conversation_only
    id args conversationId st response st' evs :
  Get args "conversationId" = Normal conversationId ->
  generateText id args st = (Normal response, st', evs) ->
  (isError response = true -> conversations st' = conversations st)
  /\ (truthy conversationId = false -> conversations st' = conversations st)
  /\ (forall k, key_of conversationId <> Some k ->
        conversations st' !! k = conversations st !! k).
Proof.
  intros Hcid Hrun.
  destruct (isError response) eqn:Hflag.
  - rewrite (generateText_failure _ _ _ _ _ _ Hrun Hflag). auto.
  - destruct (generateText_success _ _ _ _ _ _ Hrun Hflag)
      as (requested & info & p & c & config & result & produced & H).
    cbv zeta in H.
    destruct H as (_ & _ & _ & Hc & _ & _ & _ & _ & -> & _).
    assert (c = conversationId) as -> by congruence.
    split; [discriminate|]. unfold remember. cbn [conversations]. split.
    + now intros ->.
    + intros k Hk. destruct (truthy conversationId); [|reflexivity].
      destruct (key_of conversationId) as [k'|]; [|reflexivity].
      apply lookup_insert_ne. congruence.
Qed.

(** ** Calls of the provider *)

(** [offline m]: [m] does not call the provider. *)
Definition offline {A} (m : M A) : Prop :=
  forall st, calls (m st).1.2 = calls st /\ calls_of (m st).2 = [].

(** [metered m]: [m] calls the provider once at most, and the counter of
    the store counts the call. *)
Definition metered {A} (m : M A) : Prop :=
  forall st,
    calls (m st).1.2 = (calls st + length (calls_of (m st).2))%nat
    /\ (length (calls_of (m st).2) <= 1)%nat.

Lemma offline_bind {A B} (m : M A) (f : A -> M B) :
  offline m -> (forall a, offline (f a)) -> offline (bind m f).
Proof.
  intros Hm Hf st. unfold bind. destruct (Hm st) as [H1 H2].
  destruct (m st) as [[[a|e] st'] evs]; simpl in *; [|auto].
  destruct (Hf a st') as [H3 H4]. destruct (f a st') as [[c st''] evs']; simpl in *.
  rewrite calls_of_app, H2, H4. split; [congruence|reflexivity].
Qed.

Lemma offline_try {A} (body : M A) handler :
  offline body -> (forall e, offline (handler e)) -> offline (try_catch body handler).
Proof.
  intros Hb Hh st. unfold try_catch. destruct (Hb st) as [H1 H2].
  destruct (body st) as [[[a|e] st'] evs]; simpl in *; [auto|].
  destruct (Hh e st') as [H3 H4]. destruct (handler e st') as [[c st''] evs']; simpl in *.
  rewrite calls_of_app, H2, H4. split; [congruence|reflexivity].
Qed.

Ltac offline_step :=
  lazymatch goal with
  | |- offline (bind _ _) => apply offline_bind; [|intros ?]
  | |- offline (try_catch _ _) => apply offline_try; [|intros ?]
  | |- offline (if ?b then _ else _) => destruct b eqn:?
  | |- offline (match ?x with _ => _ end) => destruct x eqn:?
  | |- offline _ => intros ?; split; reflexivity
  end.

Lemma metered_offline {A} (m : M A) : offline m -> metered m.
Proof. intros H st. destruct (H st) as [H1 H2]. rewrite H1, H2. simpl. lia. Qed.

Lemma metered_sdk op params : metered (sdk op params).
Proof. intros st. simpl. lia. Qed.

Lemma metered_bind {A B} (m : M A) (f : A -> M B) :
  offline m -> (forall a, metered (f a)) -> metered (bind m f).
Proof.
  intros Hm Hf st. unfold bind. destruct (Hm st) as [H1 H2].
  destruct (m st) as [[[a|e] st'] evs]; simpl in *; [|rewrite H1, H2; simpl; lia].
  destruct (Hf a st') as [H3 H4]. destruct (f a st') as [[c st''] evs']; simpl in *.
  rewrite calls_of_app, H2. simpl. split; [congruence|exact H4].
Qed.

Lemma metered_then {A B} (m : M A) (f : A -> M B) :
  metered m -> (forall a, offline (f a)) -> metered (bind m f).
Proof.
  intros Hm Hf st. unfold bind. destruct (Hm st) as [H1 H2].
  destruct (m st) as [[[a|e] st'] evs]; simpl in *; [|auto].
  destruct (Hf a st') as [H3 H4]. destruct (f a st') as [[c st''] evs']; simpl in *.
  rewrite calls_of_app, H4, app_nil_r. split; [congruence|exact H2].
Qed.

Lemma metered_try {A} (body : M A) handler :
  metered body -> (forall e, offline (handler e)) -> metered (try_catch body handler).
Proof.
  intros Hb Hh st. unfold try_catch. destruct (Hb st) as [H1 H2].
  destruct (body st) as [[[a|e] st'] evs]; simpl in *; [auto|].
  destruct (Hh e st') as [H3 H4]. destruct (handler e st') as [[c st''] evs']; simpl in *.
  rewrite calls_of_app, H4, app_nil_r. split; [congruence|exact H2].
Qed.

Ltac metered_step :=
  lazymatch goal with
  | |- metered (bind (sdk _ _) _) =>
      apply metered_then; [apply metered_sdk|intros ?; solve [repeat offline_step]]
  | |- metered (bind _ _) =>
      apply metered_bind; [solve [repeat offline_step]|intros ?]
  | |- metered (try_catch _ _) =>
      apply metered_try; [|intros ?; solve [repeat offline_step]]
  | |- metered (if ?b then _ else _) => destruct b eqn:?
  | |- metered (match ?x with _ => _ end) => destruct x eqn:?
  | |- metered _ => apply metered_offline; solve [repeat offline_step]
  end.

Lemma handleToolCall_metered request : metered (handleToolCall request).
Proof.
  unfold handleToolCall, generateText, generateText_try, analyzeImage, analyzeImage_try,
    countTokens, countTokens_try, embedText, embedText_try.
  repeat metered_step.
Qed.

Lemma route_metered request : metered (route request).
Proof.
  unfold route, result_of, handleResourceRead.
  repeat lazymatch goal with
    | |- metered (bind (handleToolCall _) _) =>
        apply metered_then;
          [apply handleToolCall_metered|intros ?; solve [repeat offline_step]]
    | |- _ => metered_step
    end.
Qed.

Lemma handleRequest_metered request : metered (handleRequest request).
Proof.
  unfold handleRequest, sendResponse.
  repeat lazymatch goal with
    | |- metered (bind (route _) _) =>
        apply metered_then;
          [apply route_metered|intros ?; solve [repeat offline_step]]
    | |- _ => metered_step
    end.
Qed.

Lemma on_line_metered line st :
  calls (on_line line st).1.2 = (calls st + length (calls_of (on_line line st).2))%nat
  /\ (length (calls_of (on_line line st).2) <= 1)%nat.
Proof.
  unfold on_line. destruct (truthy _); [|simpl; lia].
  destruct (JSON_parse line) as [request|]; [|simpl; lia].
  destruct (handleRequest_metered request st) as [H1 H2].
  destruct (handleRequest request st) as [[[[]|e] st'] evs]; simpl in *; [auto|].
  rewrite calls_of_app. simpl. rewrite app_nil_r. auto.
Qed.

(** X11.  The provider is called once at most for a message, with no
    retry after a rejection, and so at most as many times as lines were
    read; the calls that the events show are all the calls made: the
    counter of the store has advanced by their number. *)
Theorem X11_at_most_one_provider_call_per_line lines st :
  calls (serve lines st).1.2 = (calls st + length (calls_of (serve lines st).2))%nat
  /\ (length (calls_of (serve lines st).2) <= length lines)%nat.
Proof.
  revert st. induction lines as [|line rest IH]; intros st; simpl; [lia|].
  destruct (on_line_metered line st) as [H1 H2].
  destruct (on_line line st) as [[[] st'] evs]; simpl in *; [|lia].
  destruct (IH st') as [H3 H4].
  destruct (serve rest st') as [[s st''] evs']; simpl in *.
  rewrite calls_of_app, length_app. lia.
Qed.


(** ** The shape of the conversations *)

(** A transcript made of exchanges: a user turn and the model turn that
    answered it, any number of times. *)
Inductive exchanges : list value -> Prop :=
| exchanges_nil : exchanges []
| exchanges_cons prompt text rest :
    exchanges rest -> exchanges (user_turn prompt :: model_turn text :: rest).

Lemma exchanges_app a b : exchanges a -> exchanges b -> exchanges (a ++ b).
Proof. induction 1; intros Hb; simpl; [exact Hb|]. constructor. auto. Qed.

(** Every stored conversation is made of exchanges. *)
Definition well_formed (st : Store) : Prop :=
  forall k, exchanges (default [] (conversations st !! k)).

(** Contents that are exchanges followed by one turn of the user. *)
Definition dialogue (contents : value) : Prop :=
  exists history turn,
    contents = VArr (history ++ [turn])
    /\ exchanges history
    /\ role_of turn = VStr "user".

Definition orderly_call (op : provider_op) (params : value) : Prop :=
  match op with
  | models_generateContent => dialogue (GetOpt params "contents")
  | _ => True
  end.

Definition orderly_event (ev : event) : Prop :=
  match ev with
  | Called op params _ => orderly_call op params
  | _ => True
  end.

(** [orderly m]: from a store of well-formed conversations [m] leads to
    such a store, and what it sends to [generateContent] is a dialogue. *)
Definition orderly {A} (m : M A) : Prop :=
  forall st, well_formed st ->
    well_formed (m st).1.2 /\ Forall orderly_event (m st).2.

Lemma well_formed_keeps st st' :
  conversations st' = conversations st -> well_formed st -> well_formed st'.
Proof. intros H Hwf k. rewrite H. apply Hwf. Qed.

Lemma orderly_quiet {A} (m : M A) :
  (forall st, conversations (m st).1.2 = conversations st
              /\ Forall orderly_event (m st).2) ->
  orderly m.
Proof.
  intros H st Hwf. destruct (H st) as [H1 H2]. split; [|exact H2].
  now apply (well_formed_keeps st).
Qed.

Lemma orderly_bind {A B} (m : M A) (f : A -> M B) :
  orderly m -> (forall a, orderly (f a)) -> orderly (bind m f).
Proof.
  intros Hm Hf st Hwf. unfold bind. destruct (Hm st Hwf) as [H1 H2].
  destruct (m st) as [[[a|e] st'] evs]; simpl in *; [|auto].
  destruct (Hf a st' H1) as [H3 H4].
  destruct (f a st') as [[c st''] evs']; simpl in *.
  split; [exact H3|]. apply Forall_app. auto.
Qed.

Lemma orderly_try {A} (body : M A) handler :
  orderly body -> (forall e, orderly (handler e)) -> orderly (try_catch body handler).
Proof.
  intros Hb Hh st Hwf. unfold try_catch. destruct (Hb st Hwf) as [H1 H2].
  destruct (body st) as [[[a|e] st'] evs]; simpl in *; [auto|].
  destruct (Hh e st' H1) as [H3 H4].
  destruct (handler e st') as [[c st''] evs']; simpl in *.
  split; [exact H3|]. apply Forall_app. auto.
Qed.

Lemma orderly_bind_sdk {B} op params (f : value -> M B) :
  orderly_call op params -> (forall a, orderly (f a)) -> orderly (bind (sdk op params) f).
Proof.
  intros Hcall Hf. apply orderly_bind; [|exact Hf].
  apply orderly_quiet. intros st. split; [reflexivity|].
  constructor; [exact Hcall|constructor].
Qed.

Lemma history_exchanges st conversationId :
  well_formed st -> exchanges (history_of st conversationId).
Proof.
  intros Hwf. unfold history_of. destruct (truthy conversationId); [|constructor].
  destruct (key_of conversationId) as [k|]; [apply Hwf|constructor].
Qed.

(** The contents that [generateText] builds. *)
Lemma orderly_bind_contents {B} conversationId prompt (f : list value -> M B) :
  (forall history, exchanges history -> orderly (f (history ++ [user_turn prompt]))) ->
  orderly (bind (if truthy conversationId
                 then stored <- conversations_get conversationId ;;
                      ret (if (0 <? length (default [] stored))%nat
                           then default [] stored ++ [user_turn prompt]
                           else [user_turn prompt])
                 else ret [user_turn prompt]) f).
Proof.
  intros H st Hwf. rewrite bind_contents.
  apply H; [now apply history_exchanges|exact Hwf].
Qed.

(** The update of the conversation at the end of [generateText]. *)
Lemma orderly_append key (c : completion value) text :
  orderly (stored <- conversations_get key ;;
           prompt <- lift c ;;
           conversations_set key
             (default [] stored ++ [user_turn prompt; model_turn text])).
Proof.
  intros st Hwf. rewrite bind_conversations_get, bind_lift.
  destruct c as [prompt|]; [|split; [exact Hwf|constructor]].
  unfold conversations_set. cbn [fst snd]. split; [|constructor].
  destruct (key_of key) as [k|]; [|exact Hwf].
  intros k'. cbn [conversations]. destruct (decide (k = k')) as [<-|Hne].
  - rewrite lookup_insert_eq. cbn [default from_option]. unfold Datatypes.id.
    apply exchanges_app; [apply Hwf|]. repeat constructor.
  - rewrite lookup_insert_ne by exact Hne. apply Hwf.
Qed.

Ltac orderly_call_solve :=
  first
    [ exact I
    | do 2 eexists; split; [reflexivity|split; [eassumption|reflexivity]]
    | exists []; eexists; split; [reflexivity|split; [constructor|reflexivity]] ].

Ltac orderly_step :=
  lazymatch goal with
  | |- orderly (bind (conversations_get _)
                  (fun _ => bind (lift _) (fun _ => conversations_set _ _))) =>
      apply orderly_append
  | |- orderly (bind (if truthy _ then bind (conversations_get _) _ else ret _) _) =>
      first [apply orderly_bind_contents; intros ? ?|apply orderly_bind; [|intros ?]]
  | |- orderly (bind (sdk _ _) _) =>
      apply orderly_bind_sdk; [orderly_call_solve|intros ?]
  | |- orderly (bind _ _) => apply orderly_bind; [|intros ?]
  | |- orderly (try_catch _ _) => apply orderly_try; [|intros ?]
  | |- orderly (if ?b then _ else _) => destruct b eqn:?
  | |- orderly (match ?x with _ => _ end) => destruct x eqn:?
  | |- orderly _ =>
      apply orderly_quiet; intros ?; split; [reflexivity|repeat constructor]
  end.

Lemma generateText_orderly id args : orderly (generateText id args).
Proof. unfold generateText, generateText_try. repeat orderly_step. Qed.

Lemma analyzeImage_orderly id args : orderly (analyzeImage id args).
Proof. unfold analyzeImage, analyzeImage_try. repeat orderly_step. Qed.

Lemma handleToolCall_orderly request : orderly (handleToolCall request).
Proof.
  unfold handleToolCall, countTokens, countTokens_try, embedText, embedText_try.
  repeat lazymatch goal with
    | |- orderly (generateText _ _) => apply generateText_orderly
    | |- orderly (analyzeImage _ _) => apply analyzeImage_orderly
    | |- _ => orderly_step
    end.
Qed.

Lemma handleRequest_orderly request : orderly (handleRequest request).
Proof.
  unfold handleRequest, route, result_of, sendResponse, handleResourceRead.
  repeat lazymatch goal with
    | |- orderly (bind (handleToolCall _) _) =>
        apply orderly_bind; [apply handleToolCall_orderly|intros ?]
    | |- _ => orderly_step
    end.
Qed.

Lemma on_line_orderly line st :
  well_formed st ->
  well_formed (on_line line st).1.2 /\ Forall orderly_event (on_line line st).2.
Proof.
  intros Hwf. unfold on_line. destruct (truthy _); [|split; [exact Hwf|constructor]].
  destruct (JSON_parse line) as [request|];
    [|split; [exact Hwf|repeat constructor]].
  destruct (handleRequest_orderly request st Hwf) as [H1 H2].
  destruct (handleRequest request st) as [[[[]|e] st'] evs]; simpl in *; [auto|].
  split; [exact H1|]. apply Forall_app. split; [exact H2|repeat constructor].
Qed.

Lemma serve_orderly lines : forall st,
  well_formed st ->
  well_formed (serve lines st).1.2 /\ Forall orderly_event (serve lines st).2.
Proof.
  induction lines as [|line rest IH]; intros st Hwf; simpl;
    [split; [exact Hwf|constructor]|].
  destruct (on_line_orderly line st Hwf) as [H1 H2].
  destruct (on_line line st) as [[[] st'] evs]; simpl in *; [|auto].
  destruct (IH st' H1) as [H3 H4].
  destruct (serve rest st') as [[s st''] evs']; simpl in *.
  split; [exact H3|]. apply Forall_app. auto.
Qed.

(** X12.  Conversations are dialogues.  After any input every stored
    conversation is a sequence of exchanges, each a user turn followed by
    the model turn that answered it (never two turns of one role in a
    row, never a user turn left without its answer), and the contents of
    every call of [generateContent] are such a sequence followed by one
    turn of the user. *)
Theorem X12_conversations_are_dialogues lines :
  (forall k turns,
      conversations (serve lines new_store).1.2 !! k = Some turns -> exchanges turns)
  /\ (forall params outcome,
        In (Called models_generateContent params outcome) (serve lines new_store).2 ->
        dialogue (GetOpt params "contents")).
Proof.
  assert (Hnew : well_formed new_store).
  { intros k. unfold new_store. cbn [conversations]. rewrite lookup_empty. constructor. }
  destruct (serve_orderly lines new_store Hnew) as [H1 H2]. split.
  - intros k turns Hk. specialize (H1 k). now rewrite Hk in H1.
  - intros params outcome Hin. rewrite List.Forall_forall in H2.
    apply (H2 _ Hin).
Qed.


(** ** Tool calls that lack a part *)

(** X13.  A [tools/call] that names no tool (no [params], or [params]
    without a [name]) is answered like a call of an unknown tool, by the
    RPC error -32602, with the message [Unknown tool: undefined]. *)
Theorem X13_tool_call_without_name props params id st :
  own props "method" = Some (VStr "tools/call") ->
  Get (VObj props) "params" = Normal params ->
  Get (or_else params (VObj [])) "name" = Normal VUndef ->
  own props "id" = Some id ->
  handleRequest (VObj props) st =
    (Normal tt, st,
     [ Stderr "Handling request:";
       Stdout (encode_line {| resp_id := id;
                              resp_body := RpcError (-32602) "Unknown tool: undefined" |}) ]).
Proof.
  intros Hmethod Hparams Hname Hown.
  destruct (own_id_identified _ _ Hown) as [Hid _].
  assert (Hm : Get (VObj props) "method" = Normal (VStr "tools/call"))
    by (simpl; now rewrite Hmethod).
  destruct (Get_defined _ _ _ "arguments" Hname) as [args Ha].
  destruct (handleRequest_run (VObj props) _ st Hm) as (id' & _ & ->).
  rewrite (route_tools_call _ st Hm).
  now rewrite (handleToolCall_unregistered (VObj props) params VUndef args id "undefined" st).
Qed.

(** The tools that call the provider. *)
Definition provider_tools : list string :=
  [ "generate_text"; "analyze_image"; "count_tokens"; "embed_text" ].

(** X14.  A call of one of the four tools of the provider that carries
    no [arguments] (or [null]) is answered by a result that is flagged as
    an error; the provider is not called and the store is as it was. *)
Theorem X14_provider_tools_need_arguments props params name args id st :
  own props "params" = Some (VObj params) ->
  own params "name" = Some (VStr name) ->
  In name provider_tools ->
  Get (VObj params) "arguments" = Normal args ->
  args = VUndef \/ args = VNull ->
  own props "id" = Some id ->
  exists response evs,
    handleToolCall (VObj props) st = (Normal response, st, evs)
    /\ resp_id response = id
    /\ isError response = true
    /\ calls_of evs = [].
Proof.
  intros Hparams Hname Hin Ha Hargs Hown.
  destruct (own_id_identified _ _ Hown) as [Hid _].
  assert (Hp : Get (VObj props) "params" = Normal (VObj params))
    by (simpl; now rewrite Hparams).
  assert (Hn : Get (VObj params) "name" = Normal (VStr name))
    by (simpl; now rewrite Hname).
  unfold handleToolCall. rewrite bind_lift, Hp. cbv zeta.
  change (or_else (VObj params) (VObj [])) with (VObj params).
  rewrite bind_lift, Hn, bind_lift, Ha.
  unfold provider_tools in Hin. simpl in Hin.
  repeat destruct Hin as [<-|Hin]; try contradiction;
    cbn [is_str String.eqb Ascii.eqb Bool.eqb]; rewrite bind_lift, Hid;
    destruct Hargs as [-> | ->]; eexists; eexists;
    (split; [reflexivity|]); repeat split.
Qed.

(** ** The default model *)

Lemma own_keys props k : is_Some (own props k) -> In k (map fst props).
Proof.
  induction props as [|[k' v] rest IH]; simpl; [now intros [? ?]|].
  destruct (String.eqb_spec k' k) as [->|Hne]; [now left|]. intros H. right. auto.
Qed.

Lemma has_property_object props k :
  HasProperty k (VObj props) = Normal true ->
  In k (Object_keys (VObj props)) \/ In k Object_prototype.
Proof.
  intros H0.
  assert (H : bool_decide (is_Some (own props k)) || mem k Object_prototype = true)
    by (unfold HasProperty in H0; congruence).
  apply orb_true_iff in H as [H|H].
  - left. apply bool_decide_eq_true in H. now apply own_keys in H.
  - right. unfold mem in H. apply existsb_exists in H as (k' & Hin & Heq).
    apply String.eqb_eq in Heq. now subst.
Qed.

Lemma in_registry_recognized model :
  HasProperty model GEMINI_MODELS = Normal true -> recognized model = true.
Proof.
  intros H. apply has_property_object in H as [H|H]; simpl in H;
    repeat destruct H as [<-|H]; try contradiction; reflexivity.
Qed.

Lemma starts_with_app s t : starts_with s (s +:+ t) = true.
Proof.
  induction s as [|c s IH]; [reflexivity|].
  rewrite app_String. simpl. now rewrite Ascii.eqb_refl.
Qed.

Lemma str_includes_infix a s b : str_includes (a +:+ s +:+ b) s = true.
Proof.
  induction a as [|c a IH].
  - rewrite app_empty. pose proof (starts_with_app s b) as H.
    destruct (s +:+ b); simpl; now rewrite H.
  - rewrite app_String. simpl. rewrite IH. apply orb_true_r.
Qed.

(** X15.  The default model is one that [generate_text] accepts, whatever
    the environment holds: it is the value of [GEMINI_DEFAULT_MODEL] when
    that is the name of a model of the registry, and nothing is written
    then; for a value that the registry does not recognize it is
    [gemini-3-pro-preview], and one warning that names the value is
    written to stderr, none to stdout. *)
Theorem X15_default_model_is_recognized :
  recognized DEFAULT_MODEL = true
  /\ (forall envModel,
         GEMINI_DEFAULT_MODEL = Some envModel ->
         In envModel (Object_keys GEMINI_MODELS) ->
         DEFAULT_MODEL = envModel /\ startup = [])
  /\ (forall envModel,
         GEMINI_DEFAULT_MODEL = Some envModel ->
         envModel <> "" ->
         recognized envModel = false ->
         DEFAULT_MODEL = "gemini-3-pro-preview"
         /\ exists warning,
              startup = [Stderr warning] /\ str_includes warning envModel = true).
Proof.
  unfold DEFAULT_MODEL, startup. split; [|split].
  - destruct GEMINI_DEFAULT_MODEL as [envModel|]; [|reflexivity].
    destruct (truthy (VStr envModel)); [|reflexivity].
    destruct (HasProperty envModel GEMINI_MODELS) as [[|]|] eqn:E; try reflexivity.
    now apply in_registry_recognized.
  - intros envModel -> Hin. simpl in Hin.
    repeat destruct Hin as [<-|Hin]; try contradiction; split; reflexivity.
  - intros envModel -> Hne Hnot.
    assert (Htruthy : truthy (VStr envModel) = true)
      by (simpl; apply negb_true_iff, String.eqb_neq, Hne).
    rewrite Htruthy.
    destruct (HasProperty envModel GEMINI_MODELS) as [[|]|] eqn:E.
    + apply in_registry_recognized in E. congruence.
    + split; [reflexivity|]. eexists. split; [reflexivity|].
      rewrite <- string_app_assoc. apply str_includes_infix.
    + discriminate E.
Qed.

(** * The serialiser on a bounded stack *)

(** [JSON.stringify] descends into arrays and objects by recursion, and
    the runtime gives up with a [RangeError] on a value that is nested
    deeper than its stack allows.  [sendResponse] is called in the [try]
    of [handleRequest] and once more in its [catch], where nothing
    catches what it throws.  The definitions above take the stack to be
    unbounded; the ones below are the same code with a serialiser that
    can go [limit] levels deep, a number of the runtime and not of the
    program.  [JSON.parse] keeps no such depth on the stack. *)

(** The nesting of arrays and objects in a value. *)
Fixpoint depth (v : value) : nat :=
  match v with
  | VArr items => S (list_max (map depth items))
  | VObj props => S (list_max (map (fun kv => depth (snd kv)) props))
  | _ => 0
  end.

(** [RangeError: Maximum call stack size exceeded]. *)
Definition stack_overflow : thrown :=
  ErrorObject "Maximum call stack size exceeded".

(** [JSON.stringify(v)] on a stack that holds [limit] levels. *)
Definition JSON_stringify_bounded (limit : nat) (v : value) : completion string :=
  if (depth v <=? limit)%nat then Normal (text_of (JSON_stringify v))
  else Throw stack_overflow.

(** [sendResponse] with that serialiser. *)
Definition sendResponse_bounded (limit : nat) (response : MCPResponse) : M unit :=
  responseStr <- lift (JSON_stringify_bounded limit (response_value response)) ;;
  stdout_write (responseStr +:+ newline).

(** The body of the [try] of [handleRequest]: the [switch] and the
    [sendResponse] that follows it. *)
Definition dispatch (limit : nat) (request : value) : M unit :=
  routed <- route request ;;
  match routed with
  | Some response => sendResponse_bounded limit response
  | None => ret tt
  end.

(** [handleRequest] with that serialiser. *)
Definition handleRequest_bounded (limit : nat) (request : value) : M unit :=
  _ <- lift (Get request "method") ;;
  console_error "Handling request:" ;;
  try_catch (dispatch limit request)
    (fun error =>
       id <- lift (Get request "id") ;;
       sendResponse_bounded limit (internal_error id error)).

(** The listener of the ['line'] event with that [handleRequest]. *)
Definition on_line_bounded (limit : nat) (line : string) (st : Store)
  : status * Store * list event :=
  if truthy (VStr (trim line)) then
    match JSON_parse line with
    | Normal request =>
        match handleRequest_bounded limit request st with
        | (Normal _, st', evs) => (Running, st', evs)
        | (Throw e, st', evs) => (Exited, st', evs ++ [Unhandled e])
        end
    | Throw _ => (Running, st, [Stderr "Failed to parse message:"])
    end
  else (Running, st, []).

(** The serialiser can write the response. *)
Definition fits (limit : nat) (response : MCPResponse) : bool :=
  (depth (response_value response) <=? limit)%nat.

(** What the [catch] of [handleRequest] does with [e], after the events
    [evs1] of the [try]. *)
Definition answer_error (limit : nat) (id : value) (e : thrown)
    (st1 : Store) (evs1 : list event) : completion unit * Store * list event :=
  if fits limit (internal_error id e)
  then (Normal tt, st1, evs1 ++ [Stdout (encode_line (internal_error id e))])
  else (Throw stack_overflow, st1, evs1).

Lemma sendResponse_bounded_run limit response st :
  sendResponse_bounded limit response st =
    if fits limit response
    then (Normal tt, st, [Stdout (encode_line response)])
    else (Throw stack_overflow, st, []).
Proof.
  unfold sendResponse_bounded, fits, JSON_stringify_bounded. rewrite bind_lift.
  destruct (_ <=? _)%nat; reflexivity.
Qed.

Lemma depth_internal_error id e :
  depth (response_value (internal_error id e)) = S (Nat.max (depth id) 1).
Proof. unfold internal_error, response_value. simpl. lia. Qed.

Lemma depth_response_id response :
  (depth (resp_id response) < depth (response_value response))%nat.
Proof. unfold response_value. destruct (resp_body response); simpl; lia. Qed.

Lemma fits_internal_error limit id e :
  fits limit (internal_error id e) = true <-> (depth id < limit /\ 2 <= limit)%nat.
Proof.
  unfold fits. rewrite depth_internal_error, Nat.leb_le. lia.
Qed.

Lemma dispatch_run limit request st :
  dispatch limit request st =
    match (route request st).1.1 with
    | Normal (Some response) =>
        if fits limit response
        then (Normal tt, (route request st).1.2,
              (route request st).2 ++ [Stdout (encode_line response)])
        else (Throw stack_overflow, (route request st).1.2, (route request st).2)
    | Normal None => (Normal tt, (route request st).1.2, (route request st).2)
    | Throw e => (Throw e, (route request st).1.2, (route request st).2)
    end.
Proof.
  unfold dispatch. rewrite bind_run.
  destruct (route request st) as [[[[response|]|e] st1] evs1]; cbn [fst snd].
  - rewrite sendResponse_bounded_run. unfold after.
    destruct (fits limit response); cbn [fst snd]; now rewrite ?app_nil_r.
  - unfold after, ret. cbn [fst snd]. now rewrite app_nil_r.
  - reflexivity.
Qed.


Lemma handleRequest_bounded_run limit request method st :
  Get request "method" = Normal method ->
  exists id,
    Get request "id" = Normal id /\
    handleRequest_bounded limit request st =
      after [Stderr "Handling request:"]
        match dispatch limit request st with
        | (Normal a, st1, evs1) => (Normal a, st1, evs1)
        | (Throw e, st1, evs1) => answer_error limit id e st1 evs1
        end.
Proof.
  intros Hm. destruct (Get_defined _ _ _ "id" Hm) as [id Hid].
  exists id. split; [exact Hid|].
  unfold handleRequest_bounded. rewrite bind_lift, Hm, bind_console_error.
  f_equal. unfold try_catch.
  destruct (dispatch limit request st) as [[[a|e] st1] evs1]; [reflexivity|].
  rewrite bind_lift, Hid, sendResponse_bounded_run. unfold answer_error.
  destruct (fits limit (internal_error id e)); [reflexivity|].
  now rewrite app_nil_r.
Qed.

(** With a stack that holds the response that is written, the bounded
    [handleRequest] is the unbounded one. *)
Lemma handleRequest_bounded_agrees limit request method st :
  Get request "method" = Normal method ->
  (forall response,
      (route request st).1.1 = Normal (Some response) -> fits limit response = true) ->
  (forall e id,
      (route request st).1.1 = Throw e ->
      Get request "id" = Normal id ->
      fits limit (internal_error id e) = true) ->
  handleRequest_bounded limit request st = handleRequest request st.
Proof.
  intros Hm Hresponse Herror.
  destruct (handleRequest_bounded_run limit request method st Hm) as (id & Hid & ->).
  destruct (handleRequest_run request method st Hm) as (id' & Hid' & ->).
  assert (id' = id) as -> by congruence.
  rewrite dispatch_run. unfold after, answer_error.
  destruct ((route request st).1.1) as [[response|]|e] eqn:Hroute.
  - now rewrite (Hresponse response eq_refl).
  - cbn [fst snd]. now rewrite app_nil_r.
  - cbn [fst snd]. now rewrite (Herror e id eq_refl Hid).
Qed.


(** ** The end of the process *)

Lemma parse_defined fuel :
  (forall s v r, parse_value fuel s = Some (v, r) -> v <> VUndef)
  /\ (forall s acc v r, parse_elements fuel s acc = Some (v, r) -> v <> VUndef)
  /\ (forall s acc v r, parse_members fuel s acc = Some (v, r) -> v <> VUndef).
Proof.
  induction fuel as [|fuel (IH1 & IH2 & IH3)]; [repeat split; discriminate|].
  repeat split; intros * H; simpl in H; repeat case_match; simplify_eq;
    eauto; discriminate.
Qed.

Lemma JSON_parse_defined text : JSON_parse text <> Normal VUndef.
Proof.
  unfold JSON_parse. intros H.
  destruct (parse_value _ _) as [[v r]|] eqn:E; [|discriminate].
  destruct (skip_ws r); [|discriminate]. injection H as ->.
  now apply (proj1 (parse_defined _)) in E.
Qed.

(** A property that the [in] operator does not find is read as a value
    that is no array and no object. *)
Lemma depth_absent_id request :
  HasProperty "id" request = Normal false -> depth (GetOpt request "id") = 0%nat.
Proof.
  destruct request as [| |b|n|s|items|props|name]; try discriminate.
  - intros H.
    assert (Hindex : index_of_key "id" (length items) = None).
    { assert (Hb : String.eqb "id" "length"
                   || bool_decide (is_Some (index_of_key "id" (length items)))
                   || mem "id" (Array_prototype ++ Object_prototype) = false)
        by (unfold HasProperty in H; congruence).
      apply orb_false_iff in Hb as [Hb _]. apply orb_false_iff in Hb as [_ Hb].
      apply bool_decide_eq_false in Hb.
      destruct (index_of_key "id" (length items)); [|reflexivity].
      exfalso. apply Hb. eauto. }
    unfold GetOpt, Get. now rewrite Hindex.
  - intros H.
    assert (Hown : own props "id" = None).
    { assert (Hb : bool_decide (is_Some (own props "id")) || mem "id" Object_prototype
                   = false)
        by (unfold HasProperty in H; congruence).
      apply orb_false_iff in Hb as [Hb _]. apply bool_decide_eq_false in Hb.
      destruct (own props "id"); [|reflexivity]. exfalso. apply Hb. eauto. }
    unfold GetOpt, Get. now rewrite Hown.
  - intros _. unfold GetOpt, Get, inherited.
    destruct (String.eqb name "__proto__"); reflexivity.
Qed.

(** [handleRequest] on anything but [null] throws exactly when the
    identifier is nested as deep as the serialiser goes, or deeper: then
    neither a response nor the error response can be written. *)
Lemma handleRequest_bounded_throws limit request method st :
  (2 <= limit)%nat ->
  Get request "method" = Normal method ->
  (exists e, (handleRequest_bounded limit request st).1.1 = Throw e)
  <-> (limit <= depth (GetOpt request "id"))%nat.
Proof.
  intros Hlimit Hm.
  destruct (handleRequest_bounded_run limit request method st Hm) as (id & Hid & ->).
  assert (Hopt : GetOpt request "id" = id).
  { destruct request; try discriminate Hm; unfold GetOpt; now rewrite Hid. }
  rewrite Hopt.
  assert (Herror : forall e st1 evs1,
             (exists e', (after [Stderr "Handling request:"]
                            (answer_error limit id e st1 evs1)).1.1 = Throw e')
             <-> (limit <= depth id)%nat).
  { intros e st1 evs1. unfold answer_error.
    destruct (fits limit (internal_error id e)) eqn:Hfits.
    - apply fits_internal_error in Hfits. split; [now intros [e' [=]]|lia].
    - split; [|intros _; eexists; reflexivity]. intros _.
      destruct (Nat.le_gt_cases limit (depth id)) as [H|H]; [exact H|].
      assert (fits limit (internal_error id e) = true)
        by (apply fits_internal_error; lia).
      congruence. }
  rewrite dispatch_run.
  destruct (route_ensures request st) as [_ Hrouted].
  destruct ((route request st).1.1) as [[response|]|e] eqn:Hroute.
  - specialize (Hrouted _ eq_refl). simpl in Hrouted.
    assert (Hsame : resp_id response = id) by congruence.
    pose proof (depth_response_id response) as Hdeeper. rewrite Hsame in Hdeeper.
    destruct (fits limit response) eqn:Hfits; [|apply Herror].
    unfold fits in Hfits. apply Nat.leb_le in Hfits.
    split; [now intros [e' [=]]|lia].
  - specialize (Hrouted _ eq_refl). simpl in Hrouted.
    apply depth_absent_id in Hrouted. rewrite Hopt in Hrouted.
    split; [now intros [e' [=]]|lia].
  - apply Herror.
Qed.

(** X16.  The lines that end the process, on a runtime whose serialiser
    goes [limit] levels deep (two at least, so that an error response can
    be written at all).  The promise of [handleRequest] is rejected, with
    nothing to handle the rejection, exactly for a line that is the JSON
    text [null] (reading [request.method] throws before the [try]) and
    for a line whose request carries an identifier nested as deep as the
    serialiser goes or deeper (then [sendResponse] throws in the [try]
    and again in the [catch]).  Every other line is handled to its
    end. *)
Theorem X16_lines_that_end_the_process limit line st :
  (2 <= limit)%nat ->
  (on_line_bounded limit line st).1.1 = Exited
  <-> truthy (VStr (trim line)) = true
      /\ exists request,
           JSON_parse line = Normal request
           /\ (request = VNull \/ (limit <= depth (GetOpt request "id"))%nat).
Proof.
  intros Hlimit. unfold on_line_bounded.
  destruct (truthy (VStr (trim line))); [|split; [discriminate|now intros [? _]]].
  destruct (JSON_parse line) as [request|] eqn:Hparse;
    [|split; [discriminate|now intros [_ (? & [=] & _)]]].
  destruct (Get request "method") as [method|] eqn:Hm.
  - pose proof (handleRequest_bounded_throws limit request method st Hlimit Hm) as H.
    destruct (handleRequest_bounded limit request st) as [[[[]|e] st'] evs]; simpl in *.
    + split; [discriminate|]. intros [_ (r & [= <-] & [->|Hdeep])]; [discriminate Hm|].
      apply H in Hdeep as [e [=]].
    + split; [|reflexivity]. intros _. split; [reflexivity|].
      exists request. split; [reflexivity|]. right. apply H. eauto.
  - assert (Hnull : request = VNull).
    { destruct request; try discriminate Hm; [|reflexivity].
      now destruct (JSON_parse_defined line). }
    subst request. split; [|reflexivity]. intros _. split; [reflexivity|]. eauto.
Qed.


(** ** The configuration that [generate_text] sends *)

Lemma Get_GetOpt v : v <> VUndef -> v <> VNull -> forall k, Get v k = Normal (GetOpt v k).
Proof. destruct v; try congruence; intros _ _ k; reflexivity. Qed.

Definition string_of (v : value) : string :=
  match v with
  | VStr s => s
  | _ => ""
  end.

(** A code unit of ASCII: [toUpperCase] is modelled on these. *)
Definition is_ascii (c : ascii) : bool := (N_of_ascii c <? 128)%N.

(** [v] if it is truthy, else nothing: a field that is set under [if (v)]. *)
Definition when_truthy (v : value) : value := if truthy v then v else VUndef.

(** What [generateText] reads in the entry of a model of the registry. *)
Lemma registry_entry name modelInfo :
  In (name, modelInfo) (Object_entries GEMINI_MODELS) ->
  exists features,
    Get modelInfo "features" = Normal features
    /\ call_includes features (VStr "grounding")
         = Normal (negb (String.eqb name "gemini-2.5-flash-lite"))
    /\ Get modelInfo "thinking" = Normal (VBool true).
Proof.
  intros Hin. simpl in Hin.
  repeat destruct Hin as [Hin|Hin]; try contradiction; injection Hin as <- <-;
    eexists; repeat split.
Qed.

Ltac config_fields :=
  eexists; split; [reflexivity|]; repeat split; reflexivity.

(** X17.  The configuration built for a model of the registry, field by
    field, from arguments whose [thinkingLevel], if any, is a string of
    ASCII.  The temperature is replaced by its default 1 only when it is
    absent or [null], so that 0 is passed on, whereas a [maxTokens],
    [topK] or [topP] of 0 is replaced by 2048, 40 or 0.95.  A schema is
    passed only in JSON mode; the search tool is enabled only when
    grounding is asked for and the model has that feature, which
    [gemini-2.5-flash-lite] lacks; the thinking level is passed in upper
    case. *)
Theorem X17_generation_config name modelInfo args :
  let arg := GetOpt args in
  In (name, modelInfo) (Object_entries GEMINI_MODELS) ->
  args <> VUndef ->
  args <> VNull ->
  (truthy (arg "thinkingLevel") = true ->
   exists level, arg "thinkingLevel" = VStr level /\ str_all is_ascii level = true) ->
  exists config,
    generateText_config args modelInfo = Normal config
    /\ GetOpt config "temperature" = nullish_else (arg "temperature") (vint 1)
    /\ GetOpt config "maxOutputTokens" = or_else (arg "maxTokens") (vint 2048)
    /\ GetOpt config "topK" = or_else (arg "topK") (vint 40)
    /\ GetOpt config "topP" = or_else (arg "topP") (VNum (Num 95 2))
    /\ GetOpt config "systemInstruction" = when_truthy (arg "systemInstruction")
    /\ GetOpt config "responseMimeType"
         = (if truthy (arg "jsonMode") then VStr "application/json" else VUndef)
    /\ GetOpt config "responseSchema"
         = (if truthy (arg "jsonMode") then when_truthy (arg "jsonSchema") else VUndef)
    /\ GetOpt config "safetySettings" = when_truthy (arg "safetySettings")
    /\ GetOpt config "tools"
         = (if truthy (arg "grounding") && negb (String.eqb name "gemini-2.5-flash-lite")
            then VArr [VObj [("googleSearch", VObj [])]] else VUndef)
    /\ GetOpt config "thinkingConfig"
         = (if truthy (arg "thinkingLevel")
            then VObj [("thinkingLevel",
                        VStr (map_string upper (string_of (arg "thinkingLevel"))))]
            else VUndef).
Proof.
  intros arg Hin Hundef Hnull Hlevel.
  pose proof (Get_GetOpt args Hundef Hnull) as Hget.
  destruct (registry_entry _ _ Hin) as (features & Hfeatures & Hgrounding & Hthinking).
  unfold generateText_config. rewrite !Hget, Hfeatures, Hthinking. cbn [cbind].
  rewrite Hgrounding. cbn [cbind]. fold arg. unfold when_truthy.
  generalize dependent (arg "thinkingLevel"). intros thinkingLevel Hlevel.
  generalize (arg "temperature") (arg "maxTokens") (arg "topK") (arg "topP")
    (arg "systemInstruction") (arg "jsonMode") (arg "jsonSchema")
    (arg "safetySettings") (arg "grounding")
    (negb (String.eqb name "gemini-2.5-flash-lite")).
  intros temperature maxTokens topK topP systemInstruction jsonMode jsonSchema
    safetySettings grounding grounded.
  destruct (truthy thinkingLevel) eqn:Htruthy;
    [destruct (Hlevel eq_refl) as (level & -> & _)|]; clear Hlevel;
    destruct (truthy systemInstruction), (truthy jsonMode), (truthy jsonSchema),
      (truthy safetySettings), (truthy grounding), grounded;
    config_fields.
Qed.


(** ** The image part of [analyze_image] *)

Lemma strip_prefix_app p s : strip_prefix p (p +:+ s) = Some s.
Proof.
  induction p as [|c p IH]; [now rewrite app_empty|].
  rewrite app_String. simpl. now rewrite Ascii.eqb_refl.
Qed.

Lemma strip_prefix_starts_with p s r : strip_prefix p s = Some r -> starts_with p s = true.
Proof.
  revert s. induction p as [|a p IH]; intros [|b s]; simpl; try easy.
  destruct (Ascii.eqb a b); [apply IH|discriminate].
Qed.

Lemma starts_with_includes p s : starts_with p s = true -> str_includes s p = true.
Proof. intros H. destruct s; simpl; now rewrite H. Qed.

(** Without an occurrence of the separator there is nothing to split. *)
Lemma last_split_none sep s : str_includes s sep = false -> last_split sep s = None.
Proof.
  induction s as [|c s IH]; [reflexivity|]. intros H.
  assert (Hs : str_includes s sep = false).
  { simpl in H. now apply orb_false_iff in H as [_ H]. }
  simpl. rewrite (IH Hs).
  destruct (strip_prefix sep s) as [[|d b]|] eqn:E; try reflexivity.
  apply strip_prefix_starts_with, starts_with_includes in E. congruence.
Qed.

Lemma last_split_cons sep c s :
  last_split sep s = None ->
  match strip_prefix sep s with
  | Some (String _ _) => false
  | _ => true
  end = true ->
  last_split sep (String c s) = None.
Proof.
  intros H1 H2. cbn [last_split]. rewrite H1.
  destruct (strip_prefix sep s) as [[|d b]|]; try reflexivity. discriminate H2.
Qed.

Lemma last_split_separator data :
  str_includes data ";base64," = false ->
  last_split ";base64," (";base64," +:+ data) = None.
Proof.
  intros H. rewrite !app_String, app_empty.
  assert (Hsplit := last_split_none _ _ H).
  assert (Hstrip : match strip_prefix ";base64," data with
                   | Some (String d b) => false
                   | _ => true
                   end = true).
  { destruct (strip_prefix ";base64," data) as [[|d b]|] eqn:E; try reflexivity.
    apply strip_prefix_starts_with, starts_with_includes in E. congruence. }
  repeat (apply last_split_cons; [|first [exact Hstrip|reflexivity]]).
  exact Hsplit.
Qed.

(** The pattern splits a data URI at its last [;base64,]: the data of a
    URI holds none. *)
Lemma last_split_data_uri mime data :
  mime <> "" -> data <> "" ->
  str_includes data ";base64," = false ->
  last_split ";base64," (mime +:+ ";base64," +:+ data) = Some (mime, data).
Proof.
  intros Hmime Hdata Hnone. induction mime as [|c mime IH]; [contradiction|].
  rewrite app_String. cbn [last_split]. destruct mime as [|c' mime].
  - rewrite app_empty, (last_split_separator _ Hnone), strip_prefix_app.
    destruct data; [contradiction|reflexivity].
  - now rewrite IH.
Qed.

Lemma match_data_uri_split mime data :
  mime <> "" -> data <> "" ->
  str_includes data ";base64," = false ->
  line_terminator_free ("data:" +:+ mime +:+ ";base64," +:+ data) = true ->
  match_data_uri ("data:" +:+ mime +:+ ";base64," +:+ data) = Some (mime, data).
Proof.
  intros Hmime Hdata Hnone Hfree. unfold match_data_uri. rewrite Hfree.
  rewrite strip_prefix_app. now apply last_split_data_uri.
Qed.

Lemma match_data_uri_raw image :
  strip_prefix "data:" image = None -> match_data_uri image = None.
Proof.
  intros H. unfold match_data_uri. rewrite H. now destruct (line_terminator_free image).
Qed.

Lemma calls_of_Stderr message evs : calls_of (Stderr message :: evs) = calls_of evs.
Proof. reflexivity. Qed.

Lemma calls_of_after {A} evs (r : completion A * Store * list event) :
  calls_of (after evs r).2 = calls_of evs ++ calls_of r.2.
Proof. unfold after. simpl. apply calls_of_app. Qed.

Lemma try_catch_calls {A} (body : M A) (report : thrown -> A) label st :
  calls_of (try_catch body (fun error => console_error label ;; ret (report error)) st).2
    = calls_of (body st).2.
Proof.
  unfold try_catch. destruct (body st) as [[[a|e] st'] evs]; [reflexivity|].
  simpl. rewrite calls_of_app. simpl. apply app_nil_r.
Qed.

(** [{ inlineData: { mimeType, data } }]. *)
Definition inlineData (mimeType : string) (data : value) : value :=
  VObj [("inlineData", VObj [("mimeType", VStr mimeType); ("data", data)])].

(** The part made from [imageBase64]. *)
Definition base64_part (image : string) : value :=
  match match_data_uri image with
  | Some (mimeType, data) => inlineData mimeType (VStr data)
  | None => inlineData "image/jpeg" (VStr image)
  end.

(** The second part of the one turn that [analyzeImage] sends. *)
Definition image_part (params : value) : value :=
  GetOpt (GetOpt (GetOpt (GetOpt params "contents") "0") "parts") "1".

Lemma analyzeImage_base64 id args imageUrl image st :
  Get args "imageUrl" = Normal imageUrl ->
  truthy imageUrl = false ->
  Get args "imageBase64" = Normal (VStr image) ->
  image <> "" ->
  exists params,
    calls_of (analyzeImage id args st).2
      = [(models_generateContent, params, genAI (calls st) models_generateContent params)]
    /\ image_part params = base64_part image.
Proof.
  intros Hurl Hfalsy Hb64 Hne.
  assert (Htruthy : truthy (VStr image) = true)
    by (simpl; apply negb_true_iff, String.eqb_neq, Hne).
  destruct (Get_defined _ _ _ "model" Hurl) as [requested Hmodel].
  destruct (Get_defined _ _ _ "mediaResolution" Hurl) as [mediaResolution Hmr].
  destruct (Get_defined _ _ _ "prompt" Hurl) as [prompt Hprompt].
  assert (Hsize : exists size,
             (n <~ Get (VStr image) "length" ;; ToString n) = Normal size)
    by (eexists; reflexivity).
  destruct Hsize as [size Hsize].
  unfold analyzeImage. rewrite try_catch_calls. unfold analyzeImage_try.
  rewrite bind_lift, Hmodel. cbv zeta.
  rewrite bind_lift, Hurl, Hfalsy. cbn [negb].
  rewrite bind_run, bind_lift, Hb64, Htruthy. cbn [negb ret fst snd].
  rewrite after_nil, bind_lift, Hfalsy.
  rewrite bind_run, bind_lift, Htruthy.
  rewrite bind_lift, Hsize, bind_console_error, bind_lift.
  cbn [call_match]. unfold base64_part.
  destruct (match_data_uri image) as [[mimeType data]|];
    rewrite bind_console_error; cbn [ret after fst snd app];
    rewrite !calls_of_Stderr, bind_lift, Hmr, bind_lift, Hprompt;
    lazymatch goal with
    | |- context [sdk models_generateContent ?P] => exists P
    end;
    (split; [|reflexivity]);
    rewrite bind_sdk; cbv zeta;
    (destruct (genAI (calls st) models_generateContent _) as [result|e];
     [ rewrite calls_of_after, bind_lift; destruct (Get result "text"); reflexivity
     | reflexivity ]).
Qed.

(** X18.  An [analyze_image] call served from [imageBase64] (no
    [imageUrl]) calls the provider once with an inline image.  A data URI
    [data:MIME;base64,DATA] is split: the part carries the MIME type and
    the data.  A string that does not begin with [data:] is taken as raw
    base64 and sent whole, as [image/jpeg]. *)
Theorem X18_base64_image_is_sent_inline id args imageUrl image st :
  Get args "imageUrl" = Normal imageUrl ->
  truthy imageUrl = false ->
  Get args "imageBase64" = Normal (VStr image) ->
  image <> "" ->
  exists params,
    calls_of (analyzeImage id args st).2
      = [(models_generateContent, params, genAI (calls st) models_generateContent params)]
    /\ (forall mime data,
          image = "data:" +:+ mime +:+ ";base64," +:+ data ->
          mime <> "" -> data <> "" ->
          str_includes data ";base64," = false ->
          line_terminator_free image = true ->
          image_part params = inlineData mime (VStr data))
    /\ (strip_prefix "data:" image = None ->
        image_part params = inlineData "image/jpeg" (VStr image)).
Proof.
  intros Hurl Hfalsy Hb64 Hne.
  destruct (analyzeImage_base64 id args imageUrl image st Hurl Hfalsy Hb64 Hne)
    as (params & Hcalls & Hpart).
  exists params. split; [exact Hcalls|]. rewrite Hpart. unfold base64_part. split.
  - intros mime data -> Hmime Hdata Hnone Hfree.
    now rewrite match_data_uri_split.
  - intros Hraw. now rewrite match_data_uri_raw.
Qed.


(** ** The tools that do not check the model *)

Definition metadata_field (response : MCPResponse) (k : string) : value :=
  match resp_body response with
  | Result result => GetOpt (GetOpt result "metadata") k
  | RpcError _ _ => VUndef
  end.

(** X19.  [embed_text] when the provider answers: the result carries the
    JSON text of the first embedding and the model, and [dimensions] is
    the number of the values of that embedding.  An answer without
    embeddings is no error: the embedding is empty and [dimensions] is 0.
    The model is the one asked for, else [gemini-embedding-001]. *)
Theorem X19_embedding_and_its_dimensions id args requested text result embeddings st :
  let model := or_else requested (VStr "gemini-embedding-001") in
  let params := VObj [("model", model); ("contents", text)] in
  let values := GetOpt (GetOpt embeddings "0") "values" in
  Get args "model" = Normal requested ->
  Get args "text" = Normal text ->
  genAI (calls st) models_embedContent params = Normal result ->
  Get result "embeddings" = Normal embeddings ->
  exists response,
    embedText id args st =
      (Normal response,
       {| conversations := conversations st; calls := S (calls st) |},
       [Called models_embedContent params (Normal result)])
    /\ isError response = false
    /\ metadata_field response "model" = model
    /\ (forall items,
          values = VArr items ->
          content_text response =
            VStr (text_of (JSON_stringify
                             (VObj [("embedding", VArr items); ("model", model)])))
          /\ metadata_field response "dimensions" = vint (Z.of_nat (length items)))
    /\ (truthy values = false ->
        content_text response =
          VStr (text_of (JSON_stringify
                           (VObj [("embedding", VArr []); ("model", model)])))
        /\ metadata_field response "dimensions" = vint 0).
Proof.
  intros model params values Hmodel Htext Hcall Hembeddings.
  eexists. split.
  - unfold embedText, try_catch, embedText_try.
    rewrite bind_lift, Hmodel. cbv zeta.
    rewrite bind_lift, Htext, bind_sdk. cbv zeta. fold model. fold params.
    rewrite Hcall, bind_lift, Hembeddings. reflexivity.
  - split; [reflexivity|]. split; [reflexivity|]. fold values.
    unfold content_text, metadata_field. cbn [resp_body]. split.
    + intros items ->. split; [reflexivity|].
      destruct items; reflexivity.
    + intros Hfalsy. unfold or_else. rewrite Hfalsy.
      split; [reflexivity|].
      destruct values as [| |[|]|[m k]|s| | |];
        try discriminate Hfalsy; try reflexivity.
      simpl in Hfalsy. apply negb_false_iff, String.eqb_eq in Hfalsy.
      subst. reflexivity.
Qed.

Lemma countTokens_calls id args requested text st :
  let params :=
    VObj [ ("model", or_else requested (VStr DEFAULT_MODEL));
           ("contents",
            VArr [VObj [ ("parts", VArr [VObj [("text", text)]]);
                         ("role", VStr "user") ]]) ] in
  Get args "model" = Normal requested ->
  Get args "text" = Normal text ->
  calls_of (countTokens id args st).2
    = [(models_countTokens, params, genAI (calls st) models_countTokens params)].
Proof.
  intros params Hmodel Htext. unfold countTokens. rewrite try_catch_calls.
  unfold countTokens_try. rewrite bind_lift, Hmodel. cbv zeta.
  rewrite bind_lift, Htext, bind_sdk. cbv zeta. fold params.
  destruct (genAI (calls st) models_countTokens params) as [result|e]; [|reflexivity].
  rewrite calls_of_after, bind_lift.
  destruct (n <~ Get result "totalTokens" ;; ToString n); [|reflexivity].
  rewrite bind_lift. destruct (Get result "totalTokens"); reflexivity.
Qed.

Lemma embedText_calls id args requested text st :
  let params :=
    VObj [ ("model", or_else requested (VStr "gemini-embedding-001"));
           ("contents", text) ] in
  Get args "model" = Normal requested ->
  Get args "text" = Normal text ->
  calls_of (embedText id args st).2
    = [(models_embedContent, params, genAI (calls st) models_embedContent params)].
Proof.
  intros params Hmodel Htext. unfold embedText. rewrite try_catch_calls.
  unfold embedText_try. rewrite bind_lift, Hmodel. cbv zeta.
  rewrite bind_lift, Htext, bind_sdk. cbv zeta. fold params.
  destruct (genAI (calls st) models_embedContent params) as [result|e]; [|reflexivity].
  rewrite calls_of_after, bind_lift.
  destruct (Get result "embeddings"); reflexivity.
Qed.

(** X20.  Only [generate_text] checks the model against the registry.
    For a model name that the registry does not recognize,
    [generate_text] answers without calling the provider, whereas
    [count_tokens] and [embed_text] call the provider once, with that
    name. *)
Theorem X20_only_generate_text_checks_the_model id args model st :
  Get args "model" = Normal (VStr model) ->
  model <> "" ->
  recognized model = false ->
  calls_of (generateText id args st).2 = []
  /\ (exists params outcome,
        calls_of (countTokens id args st).2 = [(models_countTokens, params, outcome)]
        /\ GetOpt params "model" = VStr model)
  /\ (exists params outcome,
        calls_of (embedText id args st).2 = [(models_embedContent, params, outcome)]
        /\ GetOpt params "model" = VStr model).
Proof.
  intros Hmodel Hne Hnot.
  assert (Htruthy : truthy (VStr model) = true)
    by (simpl; apply negb_true_iff, String.eqb_neq, Hne).
  destruct (Get_defined _ _ _ "text" Hmodel) as [text Htext].
  assert (Hor : forall fallback, or_else (VStr model) fallback = VStr model)
    by (intros fallback; unfold or_else; now rewrite Htruthy).
  split; [|split].
  - unfold recognized in Hnot.
    destruct (Get GEMINI_MODELS model) as [info|] eqn:Hinfo; [|discriminate Hinfo].
    rewrite (generateText_unknown_model id args (VStr model) model info st);
      auto. now rewrite Hor.
  - eexists. eexists. split; [exact (countTokens_calls id args _ _ st Hmodel Htext)|].
    cbn [GetOpt Get own String.eqb Ascii.eqb Bool.eqb]. apply Hor.
  - eexists. eexists. split; [exact (embedText_calls id args _ _ st Hmodel Htext)|].
    cbn [GetOpt Get own String.eqb Ascii.eqb Bool.eqb]. apply Hor.
Qed.


(** ** What an answer of [generate_text] depends on *)

(** X21.  A [generate_text] call reads no conversation but its own.  In
    two stores that hold the same turns for the conversation of the call
    (and in which the provider is at the same call), the call returns the
    same response and performs the same events, whatever the other
    conversations hold. *)
Theorem X21_generate_text_reads_its_conversation_only id args st1 st2 :
  history_of st1 (GetOpt args "conversationId")
    = history_of st2 (GetOpt args "conversationId") ->
  calls st1 = calls st2 ->
  (generateText id args st1).1.1 = (generateText id args st2).1.1
  /\ (generateText id args st1).2 = (generateText id args st2).2.
Proof.
  intros Hhistory Hcalls. unfold generateText, try_catch, generateText_try.
  rewrite !bind_lift.
  destruct (Get args "model") as [requested|] eqn:Hmodel; [|split; reflexivity].
  cbv zeta. rewrite !bind_lift.
  destruct (ToString (or_else requested (VStr DEFAULT_MODEL))) as [key|];
    [|split; reflexivity].
  rewrite !bind_lift.
  destruct (Get GEMINI_MODELS key) as [modelInfo|]; [|split; reflexivity].
  destruct (truthy modelInfo); cbn [negb];
    [|rewrite !bind_lift; split; reflexivity].
  rewrite !bind_lift.
  destruct (Get args "prompt") as [prompt|]; [|split; reflexivity].
  rewrite !bind_lift.
  destruct (Get args "conversationId") as [conversationId|] eqn:Hcid;
    [|split; reflexivity].
  assert (GetOpt args "conversationId" = conversationId) as Hopt.
  { destruct args; try discriminate Hmodel; simpl in *; congruence. }
  rewrite Hopt in Hhistory.
  rewrite !bind_contents, Hhistory, !bind_lift.
  destruct (generateText_config args modelInfo) as [config|]; [|split; reflexivity].
  rewrite !bind_sdk. cbv zeta. rewrite Hcalls.
  destruct (genAI (calls st2) models_generateContent _) as [result|];
    [|split; reflexivity].
  rewrite !bind_lift.
  destruct (Get result "text") as [produced|] eqn:Htext; [|split; reflexivity].
  rewrite !bind_lift.
  destruct (Get_defined _ _ _ "usageMetadata" Htext) as [usageMetadata Husage].
  destruct (Get_defined _ _ _ "candidates" Htext) as [candidates Hcandidates].
  unfold bind, lift, ret, conversations_get, conversations_set, after.
  rewrite Husage, Hcandidates.
  destruct (truthy conversationId); split; reflexivity.
Qed.

(** ** Lines that are JSON but no object *)

Definition is_digit (c : ascii) : bool :=
  ((48 <=? N_of_ascii c) && (N_of_ascii c <=? 57))%N.

Lemma string_of_uint_digit u c rest :
  NilZero.string_of_uint u = String c rest -> is_digit c = true.
Proof.
  unfold NilZero.string_of_uint.
  destruct u; simpl; intros [= <- _]; reflexivity.
Qed.

Lemma digits_digit n c rest : digits n = String c rest -> is_digit c = true.
Proof. apply string_of_uint_digit. Qed.

(** A key that does not begin with a digit is no index. *)
Lemma index_of_key_name c rest n :
  is_digit c = false -> index_of_key (String c rest) n = None.
Proof.
  intros Hc. unfold index_of_key. generalize 0%nat.
  induction n as [|n IH]; intros start; [reflexivity|].
  simpl. rewrite IH.
  destruct (digits (N.of_nat start)) as [|d ds] eqn:E; [reflexivity|].
  apply digits_digit in E. simpl.
  destruct (Ascii.eqb_spec d c) as [->|_]; [congruence|reflexivity].
Qed.

(** A value of JSON that is no object and not [null]. *)
Definition is_primitive (v : value) : bool :=
  match v with
  | VBool _ | VNum _ | VStr _ => true
  | _ => false
  end.

(** X22.  A line that is JSON but no object.  A number, a string or a
    boolean is answered by the internal error -32603 without an [id]
    (the test ['id' in request] throws, inside the [try]); an array is
    taken for a notification of no method, which gets no response.  The
    store is as it was in both cases. *)
Theorem X22_requests_that_are_no_objects request st :
  (is_primitive request = true ->
   exists message,
     handleRequest request st =
       (Normal tt, st,
        [ Stderr "Handling request:";
          Stdout (encode_line {| resp_id := VUndef;
                                 resp_body := RpcError (-32603) message |}) ]))
  /\ (forall items,
        request = VArr items ->
        handleRequest request st =
          (Normal tt, st,
           [ Stderr "Handling request:";
             Stderr "Notification received: undefined" ])).
Proof.
  split.
  - intros Hprimitive.
    assert (Hget : forall k, k = "method" \/ k = "id" -> Get request k = Normal VUndef).
    { intros k [-> | ->]; destruct request; try discriminate Hprimitive;
        unfold Get; rewrite ?index_of_key_name by reflexivity; reflexivity. }
    assert (Hmethod : Get request "method" = Normal VUndef) by (apply Hget; now left).
    assert (Hid : Get request "id" = Normal VUndef) by (apply Hget; now right).
    destruct (handleRequest_run request VUndef st Hmethod) as (id & Hid' & ->).
    assert (id = VUndef) as -> by congruence.
    unfold route. rewrite bind_lift, Hmethod.
    cbn [is_str]. rewrite bind_lift.
    destruct request; try discriminate Hprimitive; eexists; reflexivity.
  - intros items ->.
    assert (Hmethod : Get (VArr items) "method" = Normal VUndef).
    { unfold Get. now rewrite index_of_key_name. }
    destruct (handleRequest_run (VArr items) VUndef st Hmethod) as (id & _ & ->).
    unfold route. rewrite bind_lift, Hmethod.
    cbn [is_str]. rewrite bind_lift.
    assert (Hin : HasProperty "id" (VArr items) = Normal false).
    { unfold HasProperty. now rewrite index_of_key_name. }
    rewrite Hin. cbn [negb]. rewrite bind_lift. reflexivity.
Qed.


(** ** The number of the responses *)

Lemma handleRequest_one_chunk request st :
  (length (stdout_of (handleRequest request st).2) <= 1)%nat.
Proof.
  destruct (Get request "method") as [method|e] eqn:Hm.
  - destruct (handleRequest_run request method st Hm) as (id & _ & ->).
    destruct (route_ensures request st) as [Hquiet _].
    cbn [snd]. change (stdout_of (Stderr "Handling request:" :: ?l)) with (stdout_of l).
    rewrite stdout_of_app, Hquiet.
    destruct ((route request st).1.1) as [[response|]|e]; simpl; lia.
  - unfold handleRequest. rewrite bind_lift, Hm. simpl. lia.
Qed.

Lemma on_line_one_chunk line st :
  (length (stdout_of (on_line line st).2) <= 1)%nat.
Proof.
  unfold on_line. destruct (truthy _); [|simpl; lia].
  destruct (JSON_parse line) as [request|]; [|simpl; lia].
  pose proof (handleRequest_one_chunk request st) as H.
  destruct (handleRequest request st) as [[[[]|e] st'] evs]; simpl in *; [exact H|].
  rewrite stdout_of_app. simpl. now rewrite app_nil_r.
Qed.

(** X23.  The server writes one response at most for a line that it
    reads, so never more responses than lines: nothing is written to
    stdout that no line asked for. *)
Theorem X23_at_most_one_response_per_line lines st :
  (length (stdout_of (serve lines st).2) <= length lines)%nat.
Proof.
  revert st. induction lines as [|line rest IH]; intros st; simpl; [lia|].
  pose proof (on_line_one_chunk line st) as H.
  destruct (on_line line st) as [[[] st'] evs]; simpl in *; [|lia].
  specialize (IH st'). destruct (serve rest st') as [[s st''] evs']; simpl in *.
  rewrite stdout_of_app, length_app. lia.
Qed.

(** ** Known methods without an identifier *)

Lemma route_known props method :
  Get (VObj props) "method" = Normal (VStr method) ->
  In method known_methods ->
  ensures (fun routed => routed <> None) (route (VObj props)).
Proof.
  intros Hm Hin. unfold route, result_of.
  apply ensures_bind_lift. intros m Hm'.
  assert (m = VStr method) as -> by congruence.
  simpl in Hin.
  repeat destruct Hin as [<-|Hin]; try contradiction;
    cbn [is_str String.eqb Ascii.eqb Bool.eqb];
    repeat lazymatch goal with
      | |- ensures _ (bind (handleToolCall _) _) =>
          eapply ensures_bind; [apply handleToolCall_ensures|intros ? ?]
      | |- ensures _ (bind (handleResourceRead _) _) =>
          eapply ensures_bind; [apply handleResourceRead_ensures|intros ? ?]
      | |- _ => ensures_step
      end;
    discriminate.
Qed.

(** X24.  A message of one of the seven known methods is answered also
    when it carries no [id], as a notification does: one response is
    written, and it carries no identifier.  Only the unknown methods are
    taken for notifications. *)
Theorem X24_known_methods_are_answered_without_id props method st :
  Get (VObj props) "method" = Normal (VStr method) ->
  In method known_methods ->
  own props "id" = None ->
  exists response st' evs,
    handleRequest (VObj props) st = (Normal tt, st', evs)
    /\ stdout_of evs = [encode_line response]
    /\ resp_id response = VUndef.
Proof.
  intros Hm Hin Hown.
  assert (Hid : Get (VObj props) "id" = Normal VUndef) by (simpl; now rewrite Hown).
  destruct (handleRequest_run (VObj props) _ st Hm) as (id & Hid' & Hrun).
  assert (id = VUndef) as -> by congruence.
  destruct (route_ensures (VObj props) st) as [Hquiet Hrouted].
  destruct (route_known props method Hm Hin st) as [_ Hsome].
  destruct (route (VObj props) st) as [[c st1] evs1]; simpl in *.
  assert (Hout : forall chunk,
             stdout_of (Stderr "Handling request:" :: evs1 ++ [Stdout chunk]) = [chunk]).
  { intros chunk. change (stdout_of (Stderr "Handling request:" :: ?l)) with (stdout_of l).
    now rewrite stdout_of_app, Hquiet. }
  destruct c as [[response|]|e].
  - exists response, st1. eexists. split; [exact Hrun|]. split; [apply Hout|].
    specialize (Hrouted _ eq_refl). simpl in Hrouted. congruence.
  - now destruct (Hsome None eq_refl).
  - exists (internal_error VUndef e), st1. eexists. split; [exact Hrun|].
    split; [apply Hout|reflexivity].
Qed.

End Server.

(** * The server on concrete inputs *)

(** A provider that answers every call, with a text that tells the number
    of the call, and one that rejects every call. *)
Definition answering : nat -> provider_op -> value -> completion value :=
  fun n _ _ =>
    Normal (VObj [ ("text", VStr ("reply " +:+ digits (N.of_nat n)));
                   ("totalTokens", vint 7) ]).


Definition no_text : string -> string := fun _ => "".

(** A line of input, written with apostrophes for the double quotes. *)
Definition message (s : string) : string :=
  map_string (fun c => if Ascii.eqb c "'" then "034"%char else c) s.

Definition tools_call (id : Z) (name args : value) : list (string * value) :=
  [ ("jsonrpc", VStr "2.0"); ("id", vint id); ("method", VStr "tools/call");
    ("params", VObj [("name", name); ("arguments", args)]) ].

Definition first_args : value :=
  VObj [("prompt", VStr "My name is Alice."); ("conversationId", VStr "test-conv-1")].


Definition first_call := generateText answering None (vint 112) first_args new_store.


Definition answer (id : Z) (text : string) : MCPResponse :=
  {| resp_id := vint id;
     resp_body :=
       Result (VObj [ ("content", text_content (VStr text));
                      ("metadata",
                       VObj [ ("model", VStr "gemini-3-pro-preview");
                              ("tokensUsed", VUndef);
                              ("candidatesCount", vint 1);
                              ("finishReason", VUndef) ]) ]) |}.

Example first_call_answers :
  first_call = (Normal (answer 112 "reply 0"), first_call.1.2, first_call.2).
Proof. vm_compute. reflexivity. Qed.


(** The server on a session: a ping, a blank line, a line that is no
    JSON, an unknown method, a notification and an unknown tool. *)
Example session :
  stdout_of
    (serve answering None no_text
       [ message "{'jsonrpc':'2.0','id':0,'method':'ping'}";
         "   ";
         "{bad";
         message "{'jsonrpc':'2.0','id':50,'method':'nonexistent/method','params':{}}";
         message "{'jsonrpc':'2.0','method':'notifications/initialized'}";
         message "{'jsonrpc':'2.0','id':51,'method':'tools/call','params':{'name':'nonexistent_tool','arguments':{}}}" ]
       new_store).2
  = [ message "{'jsonrpc':'2.0','id':0,'result':{}}" +:+ newline;
      message "{'jsonrpc':'2.0','id':50,'error':{'code':-32601,'message':'Method not found'}}"
        +:+ newline;
      message "{'jsonrpc':'2.0','id':51,'error':{'code':-32602,'message':'Unknown tool: nonexistent_tool'}}"
        +:+ newline ].
Proof. vm_compute. reflexivity. Qed.

(** The line [null] is JSON but no object: reading [request.method] throws
    before the [try] of [handleRequest], the promise is rejected and the
    process ends.  It is no request object and [JSON.parse] accepts it. *)
Example line_null_ends_the_process :
  on_line answering None no_text "null" new_store
  = (Exited, new_store,
     [Unhandled (ErrorObject "Cannot read properties of null (reading 'method')")]).
Proof. vm_compute. reflexivity. Qed.

(** A member of [Object.prototype] passes the check of the model name. *)
Example constructor_is_recognized : recognized "constructor" = true.
Proof. reflexivity. Qed.

(** ** C1 *)

Lemma C1_witness :
  own (tools_call 112 (VStr "generate_text") first_args) "id" = Some (vint 112)
  /\ exists response st' evs,
       handleRequest answering None no_text
         (VObj (tools_call 112 (VStr "generate_text") first_args)) new_store
         = (Normal tt, st', evs)
       /\ stdout_of evs = [encode_line response]
       /\ resp_id response = vint 112
       /\ forall text_id,
            JSON_stringify (vint 112) = Some text_id ->
            exists rest,
              encode_line response =
                "{" +:+ QuoteJSONString "jsonrpc" +:+ ":" +:+ QuoteJSONString "2.0" +:+ ","
                    +:+ QuoteJSONString "id" +:+ ":" +:+ text_id +:+ rest.
Proof.
  split; [reflexivity|].
  apply (C1_exactly_one_response_with_request_id answering None no_text
           (tools_call 112 (VStr "generate_text") first_args) (vint 112) new_store).
  reflexivity.
Defined.

(** ** C2 *)







(** A response that cannot be serialised is thrown in the [try] and
    caught: a [list_models] call echoes its filter, here one nested too
    deep, and the request is answered by the internal error. *)
Example deep_filter_is_an_internal_error :
  stdout_of
    (on_line_bounded answering None no_text 8
       (message "{'jsonrpc':'2.0','id':9,'method':'tools/call','params':{'name':'list_models','arguments':{'filter':[[[[[[[[0]]]]]]]]}}}")
       new_store).2
  = [message "{'jsonrpc':'2.0','id':9,'error':{'code':-32603,'message':'Maximum call stack size exceeded'}}"
       +:+ newline].
Proof. vm_compute. reflexivity. Qed.

(** On a serialiser that goes three levels deep, a line with an
    identifier of three nested arrays ends the process without a
    response. *)
Example deep_id_ends_the_process :
  on_line_bounded answering None no_text 3
    (message "{'jsonrpc':'2.0','id':[[[0]]],'method':'ping'}") new_store
  = (Exited, new_store, [Stderr "Handling request:"; Unhandled stack_overflow]).
Proof. vm_compute. reflexivity. Qed.

(** ** C4 *)

Definition unknown_tool_request : list (string * value) :=
  tools_call 51 (VStr "nonexistent_tool") (VObj []).

Lemma C4_witness :
  exists id response st' evs,
    Get (VObj unknown_tool_request) "id" = Normal id
    /\ response = {| resp_id := id;
                     resp_body := RpcError (-32602) ("Unknown tool: " +:+ "nonexistent_tool") |}
    /\ handleRequest answering None no_text (VObj unknown_tool_request) new_store
         = (Normal tt, st', evs)
    /\ stdout_of evs = [encode_line response]
    /\ error_code response = Some (-32602)%Z
    /\ error_code response <> Some (-32603)%Z.
Proof.
  apply (C4_unknown_tool_is_invalid_params answering None no_text
           unknown_tool_request
           [("name", VStr "nonexistent_tool"); ("arguments", VObj [])]
           "nonexistent_tool" new_store).
  - reflexivity.
  - reflexivity.
  - reflexivity.
  - simpl. intuition discriminate.
Defined.

(** ** C5 *)

Definition unknown_model_args : value :=
  VObj [("prompt", VStr "Hello"); ("model", VStr "nonexistent-model-xyz")].





(** ** C6 *)

Definition no_image_args : value := VObj [("prompt", VStr "What is in this image?")].

Definition two_images_args : value :=
  VObj [ ("prompt", VStr "What is in this image?");
         ("imageUrl", VStr "https://example.com/cat.png");
         ("imageBase64", VStr "aGVsbG8=") ].

Definition no_prompt_args : value := VObj [("temperature", vint 0)].

(** What the claim asks for: exactly one of the two forms of the image. *)
Definition exactly_one_image (args : value) : bool :=
  xorb (truthy (GetOpt args "imageUrl")) (truthy (GetOpt args "imageBase64")).

(** The claim fails where both forms are supplied: the call is served
    from the URL and its answer carries no error flag.  (It also fails for
    a [generate_text] call without a prompt that the provider accepts,
    [no_prompt_args] with [answering].) *)
Lemma C6_counterexample :
  ~ (forall genAI env id args st response st' evs,
        exactly_one_image args = false ->
        analyzeImage genAI env id args st = (Normal response, st', evs) ->
        isError response = true).
Proof.
  intros H.
  specialize (H answering None (vint 1) two_images_args new_store
                {| resp_id := vint 1;
                   resp_body := Result (VObj [("content", text_content (VStr "reply 0"))]) |}
                {| conversations := ∅; calls := 1 |}
                (analyzeImage answering None (vint 1) two_images_args new_store).2
                eq_refl).
  assert (Hrun : analyzeImage answering None (vint 1) two_images_args new_store
                 = (Normal {| resp_id := vint 1;
                              resp_body :=
                                Result (VObj [("content", text_content (VStr "reply 0"))]) |},
                    {| conversations := ∅; calls := 1 |},
                    (analyzeImage answering None (vint 1) two_images_args new_store).2))
    by (vm_compute; reflexivity).
  specialize (H Hrun). discriminate H.
Qed.

Example generate_text_without_prompt_is_served :
  isError
    (match (generateText answering None (vint 1) no_prompt_args new_store).1.1 with
     | Normal response => response
     | Throw _ => answer 0 ""
     end) = false
  /\ contents_sent (generateText answering None (vint 1) no_prompt_args new_store).2
     = [[user_turn VUndef]].
Proof. split; vm_compute; reflexivity. Qed.

Lemma C6_witness :
  exists response,
    analyzeImage answering None (vint 11) no_image_args new_store
      = (Normal response, new_store, [Stderr "Error in analyzeImage:"])
    /\ isError response = true
    /\ resp_body response =
         Result (tool_error
                   "Image analysis failed: Either imageUrl or imageBase64 must be provided").
Proof.
  apply (proj1 (C6_only_a_missing_image_is_rejected answering None)
           (vint 11) no_image_args VUndef VUndef new_store); reflexivity.
Defined.

(** ** C7 *)


(** ** C8 *)

(** The claim fails on the role of the reply: the turn that a successful
    call stores for it has the role [model], which is neither [user] nor
    [assistant]. *)
Lemma C8_counterexample :
  ~ (forall genAI env id args cid st response st' evs,
        Get args "conversationId" = Normal (VStr cid) ->
        cid <> "" ->
        generateText genAI env id args st = (Normal response, st', evs) ->
        isError response = false ->
        Forall (fun turn => role_of turn = VStr "user" \/ role_of turn = VStr "assistant")
               (default [] (conversations st' !! KStr cid))).
Proof.
  intros H.
  specialize (H answering None (vint 112) first_args "test-conv-1" new_store
                (answer 112 "reply 0") first_call.1.2 first_call.2
                eq_refl ltac:(discriminate) first_call_answers eq_refl).
  assert (Hstored : default [] (conversations first_call.1.2 !! KStr "test-conv-1")
                    = [user_turn (VStr "My name is Alice."); model_turn (VStr "reply 0")])
    by (vm_compute; reflexivity).
  rewrite Hstored in H.
  apply Forall_cons_1 in H as [_ H]. apply Forall_cons_1 in H as [[H|H] _];
    discriminate H.
Qed.

Lemma C8_witness :
  conversations first_call.1.2 !! KStr "test-conv-1"
    = Some (default [] (conversations new_store !! KStr "test-conv-1")
              ++ [ user_turn (VStr "My name is Alice.");
                   model_turn (content_text (answer 112 "reply 0")) ])
  /\ role_of (user_turn (VStr "My name is Alice.")) = VStr "user"
  /\ role_of (model_turn (content_text (answer 112 "reply 0"))) = VStr "model".
Proof.
  apply (proj2 (C8_stored_turns_are_user_or_model answering None no_text)
           (vint 112) first_args "test-conv-1" (VStr "My name is Alice.")
           new_store (answer 112 "reply 0") first_call.1.2 first_call.2).
  - reflexivity.
  - discriminate.
  - reflexivity.
  - exact first_call_answers.
  - reflexivity.
Defined.

(** ** C9 *)

Definition ping_line : string := message "{'jsonrpc':'2.0','id':0,'method':'ping'}".

Lemma C9_witness :
  (trim "{bad" = "" \/ exists e, JSON_parse "{bad" = Throw e)
  /\ exists evs,
       on_line answering None no_text "{bad" new_store = (Running, new_store, evs)
       /\ evs = (if truthy (VStr (trim "{bad"))
                 then [Stderr "Failed to parse message:"] else [])
       /\ stdout_of evs = []
       /\ serve answering None no_text ["{bad"; ping_line] new_store =
            ((serve answering None no_text [ping_line] new_store).1.1,
             (serve answering None no_text [ping_line] new_store).1.2,
             evs ++ (serve answering None no_text [ping_line] new_store).2)
       /\ stdout_of (serve answering None no_text ["{bad"; ping_line] new_store).2
          = stdout_of (serve answering None no_text [ping_line] new_store).2.
Proof.
  split; [right; eexists; vm_compute; reflexivity|].
  apply (C9_blank_and_unparsable_lines_are_skipped answering None no_text
           "{bad" [ping_line] new_store).
  right. eexists. vm_compute. reflexivity.
Defined.

(** The line that follows is served: its response is the one line of
    stdout. *)
Example ping_after_an_unparsable_line :
  stdout_of (serve answering None no_text ["{bad"; "   "; ping_line] new_store).2
  = [message "{'jsonrpc':'2.0','id':0,'result':{}}" +:+ newline].
Proof. vm_compute. reflexivity. Qed.

(** The claim fails for a line that is JSON but no message: the line
    [5] parses, to a number, which is no object, and a response line is
    written for it. *)
Lemma C9_counterexample :
  ~ (forall genAI env static line st,
        (forall props, JSON_parse line <> Normal (VObj props)) ->
        stdout_of (on_line genAI env static line st).2 = []).
Proof.
  intros H.
  specialize (H answering None no_text "5" new_store).
  assert (Hparse : JSON_parse "5" = Normal (vint 5)) by (vm_compute; reflexivity).
  rewrite Hparse in H.
  assert (Hout : stdout_of (on_line answering None no_text "5" new_store).2 <> [])
    by (vm_compute; discriminate).
  apply Hout, H. intros props. discriminate.
Qed.

Example unparsable_line_is_reported :
  JSON_parse "{bad" = SyntaxError
  /\ on_line answering None no_text "{bad" new_store
     = (Running, new_store, [Stderr "Failed to parse message:"]).
Proof. split; vm_compute; reflexivity. Qed.

(** * Further properties on concrete inputs *)

Definition request_of (id : Z) (method : string) (params : value)
  : list (string * value) :=
  [ ("jsonrpc", VStr "2.0"); ("id", vint id); ("method", VStr method);
    ("params", params) ].

(** ** Methods *)

Lemma X1_witness :
  handleRequest answering None no_text
    (VObj (request_of 50 "nonexistent/method" (VObj []))) new_store
  = (Normal tt, new_store,
     [ Stderr "Handling request:";
       Stdout (encode_line {| resp_id := vint 50;
                              resp_body := RpcError (-32601) "Method not found" |}) ]).
Proof.
  apply (X1_unknown_method_is_method_not_found answering None no_text
           (request_of 50 "nonexistent/method" (VObj []))
           (VStr "nonexistent/method") (vint 50) new_store).
  - reflexivity.
  - intros known Hin. simpl in Hin. intuition (subst; reflexivity).
  - reflexivity.
Defined.

Definition initialized_notification : list (string * value) :=
  [ ("jsonrpc", VStr "2.0"); ("method", VStr "notifications/initialized") ].

Lemma X2_witness :
  handleRequest answering None no_text (VObj initialized_notification) new_store
  = (Normal tt, new_store,
     [ Stderr "Handling request:";
       Stderr ("Notification received: " +:+ "notifications/initialized") ]).
Proof.
  apply (X2_unknown_notification_is_not_answered answering None no_text
           initialized_notification (VStr "notifications/initialized")
           "notifications/initialized" new_store).
  - reflexivity.
  - intros known Hin. simpl in Hin. intuition (subst; reflexivity).
  - reflexivity.
  - reflexivity.
Defined.

Lemma X3_witness :
  let request := VObj (request_of 0 "ping" VUndef) in
  (handleRequest answering None no_text request first_call.1.2).1.2 = first_call.1.2
  /\ calls_of (handleRequest answering None no_text request first_call.1.2).2 = []
  /\ forall st',
       (handleRequest answering None no_text request st').2
       = (handleRequest answering None no_text request first_call.1.2).2.
Proof.
  apply (X3_methods_other_than_tools_call_are_stateless answering None no_text
           (request_of 0 "ping" VUndef) (VStr "ping")); reflexivity.
Defined.

(** ** Resources *)

Lemma X4_witness :
  handleRequest answering None no_text
    (VObj (request_of 2 "resources/read" (VObj []))) new_store
  = (Normal tt, new_store,
     [ Stderr "Handling request:";
       Stdout (encode_line
                 {| resp_id := vint 2;
                    resp_body := RpcError (-32602) "Missing required parameter: uri" |}) ]).
Proof.
  apply (X4_resource_read_without_uri answering None no_text
           (request_of 2 "resources/read" (VObj [])) (VObj []) (vint 2) new_store);
    reflexivity.
Defined.

Lemma X5_witness :
  handleRequest answering None no_text
    (VObj (request_of 3 "resources/read" (VObj [("uri", VStr "gemini://nope")])))
    new_store
  = (Normal tt, new_store,
     [ Stderr "Handling request:";
       Stdout (encode_line
                 {| resp_id := vint 3;
                    resp_body :=
                      RpcError (-32602) ("Unknown resource: " +:+ "gemini://nope") |}) ]).
Proof.
  apply (X5_unknown_resource_is_invalid_params answering None no_text
           (request_of 3 "resources/read" (VObj [("uri", VStr "gemini://nope")]))
           [("uri", VStr "gemini://nope")] "gemini://nope" (vint 3) new_store).
  - reflexivity.
  - reflexivity.
  - reflexivity.
  - discriminate.
  - simpl. intuition discriminate.
  - reflexivity.
Defined.

Definition models_resource : value :=
  resource "gemini://models" "Available Gemini Models"
    "List of all available Gemini models and their capabilities" "application/json".

Lemma X6_witness :
  exists text,
    handleRequest answering None no_text
      (VObj (request_of 4 "resources/read" (VObj [("uri", VStr "gemini://models")])))
      new_store
    = (Normal tt, new_store,
       [ Stderr "Handling request:";
         Stdout (encode_line
                   {| resp_id := vint 4;
                      resp_body :=
                        Result (VObj [("contents",
                                       VArr [VObj [ ("uri", GetOpt models_resource "uri");
                                                    ("mimeType",
                                                     GetOpt models_resource "mimeType");
                                                    ("text", VStr text) ]])]) |}) ]).
Proof.
  apply (X6_listed_resources_can_be_read answering None no_text
           (request_of 4 "resources/read" (VObj [("uri", VStr "gemini://models")]))
           [("uri", VStr "gemini://models")] models_resource (vint 4) new_store).
  - simpl. left. reflexivity.
  - reflexivity.
  - reflexivity.
  - reflexivity.
  - reflexivity.
Defined.

(** ** Tools *)

Lemma X8_witness :
  exists response st' evs,
    handleToolCall answering None no_text
      (VObj (tools_call 112 (VStr "generate_text") first_args)) new_store
      = (Normal response, st', evs)
    /\ resp_id response = vint 112
    /\ is_result response.
Proof.
  apply (X8_registered_tools_answer_with_a_result answering None no_text
           (tools_call 112 (VStr "generate_text") first_args)
           [("name", VStr "generate_text"); ("arguments", first_args)]
           "generate_text" (vint 112) new_store).
  - reflexivity.
  - reflexivity.
  - simpl. left. reflexivity.
  - reflexivity.
Defined.

Definition count_tokens_request : value :=
  VObj (tools_call 7 (VStr "count_tokens") (VObj [("text", VStr "Hello")])).

Lemma X9_witness :
  conversations (handleRequest answering None no_text count_tokens_request
                   first_call.1.2).1.2
  = conversations first_call.1.2.
Proof.
  apply (X9_only_generate_text_writes_conversations answering None no_text
           count_tokens_request first_call.1.2).
  intros params name Hparams Hname.
  injection Hparams as <-. injection Hname as <-. reflexivity.
Defined.

Lemma X10_witness :
  (isError (answer 112 "reply 0") = true ->
   conversations first_call.1.2 = conversations new_store)
  /\ (truthy (VStr "test-conv-1") = false ->
      conversations first_call.1.2 = conversations new_store)
  /\ (forall k, key_of (VStr "test-conv-1") <> Some k ->
        conversations first_call.1.2 !! k = conversations new_store !! k).
Proof.
  apply (X10_generate_text_changes_its_conversation_only answering None
           (vint 112) first_args (VStr "test-conv-1") new_store
           (answer 112 "reply 0") first_call.1.2 first_call.2).
  - reflexivity.
  - exact first_call_answers.
Defined.

Definition nameless_call : list (string * value) :=
  [ ("jsonrpc", VStr "2.0"); ("id", vint 5); ("method", VStr "tools/call") ].

Lemma X13_witness :
  handleRequest answering None no_text (VObj nameless_call) new_store
  = (Normal tt, new_store,
     [ Stderr "Handling request:";
       Stdout (encode_line {| resp_id := vint 5;
                              resp_body := RpcError (-32602) "Unknown tool: undefined" |}) ]).
Proof.
  apply (X13_tool_call_without_name answering None no_text
           nameless_call VUndef (vint 5) new_store); reflexivity.
Defined.

Definition embed_without_arguments : list (string * value) :=
  [ ("jsonrpc", VStr "2.0"); ("id", vint 6); ("method", VStr "tools/call");
    ("params", VObj [("name", VStr "embed_text")]) ].

Lemma X14_witness :
  exists response evs,
    handleToolCall answering None no_text (VObj embed_without_arguments) new_store
      = (Normal response, new_store, evs)
    /\ resp_id response = vint 6
    /\ isError response = true
    /\ calls_of evs = [].
Proof.
  apply (X14_provider_tools_need_arguments answering None no_text
           embed_without_arguments [("name", VStr "embed_text")] "embed_text"
           VUndef (vint 6) new_store).
  - reflexivity.
  - reflexivity.
  - simpl. do 3 right. left. reflexivity.
  - reflexivity.
  - left. reflexivity.
  - reflexivity.
Defined.

(** ** The default model *)

Lemma X15_witness :
  (DEFAULT_MODEL (Some "gemini-2.5-flash") = "gemini-2.5-flash"
   /\ startup (Some "gemini-2.5-flash") = [])
  /\ DEFAULT_MODEL (Some "gemini-9") = "gemini-3-pro-preview"
  /\ exists warning,
       startup (Some "gemini-9") = [Stderr warning]
       /\ str_includes warning "gemini-9" = true.
Proof.
  split.
  - apply (proj1 (proj2 (X15_default_model_is_recognized (Some "gemini-2.5-flash")))
             "gemini-2.5-flash").
    + reflexivity.
    + simpl. do 3 right. left. reflexivity.
  - apply (proj2 (proj2 (X15_default_model_is_recognized (Some "gemini-9")))
             "gemini-9").
    + reflexivity.
    + discriminate.
    + reflexivity.
Defined.

(** ** The configuration *)

Definition flash_lite : value := GetOpt GEMINI_MODELS "gemini-2.5-flash-lite".

Definition grounded_args : value :=
  VObj [ ("prompt", VStr "Hello"); ("temperature", vint 0); ("topK", vint 0);
         ("grounding", VBool true); ("thinkingLevel", VStr "high") ].

Lemma X17_witness :
  exists config,
    generateText_config grounded_args flash_lite = Normal config
    /\ GetOpt config "temperature" = vint 0
    /\ GetOpt config "topK" = vint 40
    /\ GetOpt config "tools" = VUndef
    /\ GetOpt config "thinkingConfig" = VObj [("thinkingLevel", VStr "HIGH")].
Proof.
  destruct (X17_generation_config "gemini-2.5-flash-lite" flash_lite grounded_args)
    as (config & Hconfig & Htemperature & _ & HtopK & _ & _ & _ & _ & _ & Htools
        & Hthinking).
  - simpl. do 4 right. left. reflexivity.
  - discriminate.
  - discriminate.
  - intros _. exists "high". split; reflexivity.
  - exists config. repeat split; assumption.
Defined.

(** ** Images *)

Definition png_args : value :=
  VObj [ ("prompt", VStr "What is in this image?");
         ("imageBase64", VStr "data:image/png;base64,aGVsbG8=") ].

Lemma X18_witness :
  exists params,
    calls_of (analyzeImage answering None (vint 12) png_args new_store).2
      = [(models_generateContent, params, answering 0 models_generateContent params)]
    /\ image_part params = inlineData "image/png" (VStr "aGVsbG8=").
Proof.
  destruct (X18_base64_image_is_sent_inline answering None (vint 12) png_args VUndef
              "data:image/png;base64,aGVsbG8=" new_store)
    as (params & Hcalls & Hsplit & _).
  - reflexivity.
  - reflexivity.
  - reflexivity.
  - discriminate.
  - exists params. split; [exact Hcalls|].
    apply (Hsplit "image/png" "aGVsbG8="); try reflexivity; discriminate.
Defined.

(** ** Embeddings *)

Definition embedding : nat -> provider_op -> value -> completion value :=
  fun _ _ _ =>
    Normal (VObj [("embeddings",
                   VArr [VObj [("values", VArr [vint 1; vint 2; vint 3])]])]).

Definition embed_args : value := VObj [("text", VStr "Hello")].

Lemma X19_witness :
  exists response,
    (embedText embedding (vint 13) embed_args new_store).1.1 = Normal response
    /\ isError response = false
    /\ metadata_field response "model" = VStr "gemini-embedding-001"
    /\ metadata_field response "dimensions" = vint 3.
Proof.
  destruct (X19_embedding_and_its_dimensions embedding (vint 13) embed_args VUndef
              (VStr "Hello")
              (VObj [("embeddings",
                      VArr [VObj [("values", VArr [vint 1; vint 2; vint 3])]])])
              (VArr [VObj [("values", VArr [vint 1; vint 2; vint 3])]]) new_store)
    as (response & Hrun & Hflag & Hmodel & Hvalues & _); try reflexivity.
  exists response. rewrite Hrun. split; [reflexivity|]. split; [exact Hflag|].
  split; [exact Hmodel|].
  apply (Hvalues [vint 1; vint 2; vint 3]). reflexivity.
Defined.

Lemma X20_witness :
  calls_of (generateText answering None (vint 114) unknown_model_args new_store).2 = []
  /\ (exists params outcome,
        calls_of (countTokens answering None (vint 114) unknown_model_args new_store).2
          = [(models_countTokens, params, outcome)]
        /\ GetOpt params "model" = VStr "nonexistent-model-xyz")
  /\ (exists params outcome,
        calls_of (embedText answering (vint 114) unknown_model_args new_store).2
          = [(models_embedContent, params, outcome)]
        /\ GetOpt params "model" = VStr "nonexistent-model-xyz").
Proof.
  apply (X20_only_generate_text_checks_the_model answering None (vint 114)
           unknown_model_args "nonexistent-model-xyz" new_store).
  - reflexivity.
  - discriminate.
  - reflexivity.
Defined.

(** ** Conversations *)

(** A store that holds another conversation. *)
Definition other_store : Store :=
  {| conversations := {[ KStr "other" := [user_turn (VStr "Hi"); model_turn (VStr "Hello")] ]};
     calls := 0 |}.

Lemma X21_witness :
  (generateText answering None (vint 112) first_args new_store).1.1
    = (generateText answering None (vint 112) first_args other_store).1.1
  /\ (generateText answering None (vint 112) first_args new_store).2
     = (generateText answering None (vint 112) first_args other_store).2.
Proof.
  apply (X21_generate_text_reads_its_conversation_only answering None
           (vint 112) first_args new_store other_store).
  - vm_compute. reflexivity.
  - reflexivity.
Defined.

(** ** Lines that are no objects *)

Lemma X22_witness :
  exists message,
    handleRequest answering None no_text (vint 5) new_store =
      (Normal tt, new_store,
       [ Stderr "Handling request:";
         Stdout (encode_line {| resp_id := VUndef;
                                resp_body := RpcError (-32603) message |}) ]).
Proof.
  apply (proj1 (X22_requests_that_are_no_objects answering None no_text
                  (vint 5) new_store)).
  reflexivity.
Defined.

(** ** Known methods without an identifier *)

Definition ping_notification : list (string * value) :=
  [ ("jsonrpc", VStr "2.0"); ("method", VStr "ping") ].

Lemma X24_witness :
  exists response st' evs,
    handleRequest answering None no_text (VObj ping_notification) new_store
      = (Normal tt, st', evs)
    /\ stdout_of evs = [encode_line response]
    /\ resp_id response = VUndef.
Proof.
  apply (X24_known_methods_are_answered_without_id answering None no_text
           ping_notification "ping" new_store).
  - reflexivity.
  - simpl. do 6 right. left. reflexivity.
  - reflexivity.
Defined.

(** ** The lines that end the process *)

Definition deep_line : string :=
  message "{'jsonrpc':'2.0','id':[[[[[[[[0]]]]]]]],'method':'ping'}".

Lemma X16_witness :
  (on_line_bounded answering None no_text 8 deep_line new_store).1.1 = Exited
  /\ (on_line_bounded answering None no_text 8 "null" new_store).1.1 = Exited.
Proof.
  split.
  - apply (proj2 (X16_lines_that_end_the_process answering None no_text
                    8 deep_line new_store ltac:(lia))).
    split; [vm_compute; reflexivity|].
    eexists. split; [vm_compute; reflexivity|]. right. vm_compute. lia.
  - apply (proj2 (X16_lines_that_end_the_process answering None no_text
                    8 "null" new_store ltac:(lia))).
    split; [vm_compute; reflexivity|].
    eexists. split; [vm_compute; reflexivity|]. left. reflexivity.
Defined.
